(** * movieversebot: the conversational router of [bot.py]

    A shallow embedding of the Telegram bot in [bot.py].  The handlers are
    computations in a state-and-exception monad over
    - the session dictionary of the user ([context.user_data]),
    - the argument list ([context.args]),
    - the favorites file ([favorites.json]),
    - the trace of what the handler did: messages sent and edited, requests
      to the catalog, writes to the file.
    The application keeps one session per user and hands each update to the
    first registered handler that applies, as [main_async] registers them.

    Text is modelled by [string], the bytes of the text in UTF-8.  The
    whitespace that [strip] and [split] look for is Python's, the characters
    beyond ASCII included.  The case mappings are Python's on ASCII text;
    beyond ASCII they come with the interpreter and are a parameter here,
    [str.Unicode].  Numbers that the bot only prints (ratings, coordinates)
    are carried as printed.
    Logging is left out, as are the checks of the environment at import and
    the polling loop. *)

From Stdlib Require Import Ascii String.
From stdpp Require Import gmap strings list pretty.

Open Scope string_scope.
Open Scope list_scope.

(** ** Python's [str] methods *)

Module str.

(** *** Bytes *)

Definition between (lo hi : nat) (c : ascii) : bool :=
  let n := nat_of_ascii c in (lo <=? n)%nat && (n <=? hi)%nat.

Definition byte (n : nat) (c : ascii) : bool := between n n c.

(** The whitespace characters of one byte: tab, line feed, vertical tab,
    form feed, carriage return, the four separators 0x1c-0x1f, space. *)
Definition isspace (c : ascii) : bool :=
  let n := nat_of_ascii c in
  ((9 <=? n)%nat && (n <=? 13)%nat) || ((28 <=? n)%nat && (n <=? 32)%nat).

Definition isupper (c : ascii) : bool :=
  let n := nat_of_ascii c in (65 <=? n)%nat && (n <=? 90)%nat.

Definition islower (c : ascii) : bool :=
  let n := nat_of_ascii c in (97 <=? n)%nat && (n <=? 122)%nat.

Definition lower_char (c : ascii) : ascii :=
  if isupper c then ascii_of_nat (nat_of_ascii c + 32) else c.

Definition upper_char (c : ascii) : ascii :=
  if islower c then ascii_of_nat (nat_of_ascii c - 32) else c.

(** [s.isascii()]: every character of [s] is below U+0080, one byte. *)
Fixpoint isascii (s : string) : bool :=
  match s with
  | EmptyString => true
  | String c s' => (nat_of_ascii c <? 128)%nat && isascii s'
  end.

(** *** Whitespace *)

(** The length in bytes of the whitespace character that [s] starts with,
    [0] when [s] starts with none.  The whitespace characters of [str] are
    those of one byte and, with their bytes in UTF-8,
    U+0085 (194 133), U+00A0 (194 160), U+1680 (225 154 128),
    U+2000 to U+200A (226 128 128-138), U+2028, U+2029 and U+202F
    (226 128 168, 169, 175), U+205F (226 129 159), U+3000 (227 128 128). *)
Definition space_prefix (s : string) : nat :=
  match s with
  | String c1 s1 =>
      if isspace c1 then 1
      else
        match s1 with
        | String c2 s2 =>
            if byte 194 c1 && (byte 133 c2 || byte 160 c2) then 2
            else
              match s2 with
              | String c3 _ =>
                  if byte 225 c1 && byte 154 c2 && byte 128 c3 then 3
                  else if byte 226 c1 && byte 128 c2 &&
                          (between 128 138 c3 || byte 168 c3 || byte 169 c3
                           || byte 175 c3) then 3
                  else if byte 226 c1 && byte 129 c2 && byte 159 c3 then 3
                  else if byte 227 c1 && byte 128 c2 && byte 128 c3 then 3
                  else 0
              | EmptyString => 0
              end
        | EmptyString => 0
        end
  | EmptyString => 0
  end%nat.

(** For each byte of [s], whether it belongs to a whitespace character.
    [skip] counts the bytes of a whitespace character still to be passed. *)
Fixpoint spaces_from (skip : nat) (s : string) : list bool :=
  match s with
  | EmptyString => []
  | String c s' =>
      match skip with
      | S k => true :: spaces_from k s'
      | O =>
          match space_prefix s with
          | S k => true :: spaces_from k s'
          | O => false :: spaces_from 0 s'
          end
      end
  end.

Definition spaces (s : string) : list bool := spaces_from 0 s.

(** Whitespace-only text, the empty text included: [s.strip()] is empty. *)
Definition isblank (s : string) : bool := forallb id (spaces s).

(** [s.lstrip()], [s.rstrip()], [s.strip()] with no argument; [marks] tells
    the bytes of whitespace characters. *)
Fixpoint lstrip_marked (marks : list bool) (s : string) : string :=
  match marks, s with
  | true :: marks', String _ s' => lstrip_marked marks' s'
  | _, _ => s
  end.

Definition lstrip (s : string) : string := lstrip_marked (spaces s) s.

Fixpoint rstrip_marked (marks : list bool) (s : string) : string :=
  match marks, s with
  | _ :: marks', String c s' =>
      if forallb id marks then EmptyString
      else String c (rstrip_marked marks' s')
  | _, _ => EmptyString
  end.

Definition rstrip (s : string) : string := rstrip_marked (spaces s) s.

Definition strip (s : string) : string := rstrip (lstrip s).

(** [s.split()] with no argument: the maximal runs of characters that are
    not whitespace.  [word] is the run being read. *)
Fixpoint split_marked (word : string) (marks : list bool) (s : string)
  : list string :=
  match marks, s with
  | space :: marks', String c s' =>
      if space
      then match word with
           | EmptyString => split_marked EmptyString marks' s'
           | _ => word :: split_marked EmptyString marks' s'
           end
      else split_marked (word +:+ String c EmptyString) marks' s'
  | _, _ => match word with EmptyString => [] | _ => [word] end
  end.

Definition split (s : string) : list string :=
  split_marked EmptyString (spaces s) s.

(** *** Case *)

(** Text without an upper-case ASCII letter. *)
Fixpoint lowered (s : string) : bool :=
  match s with
  | EmptyString => true
  | String c s' => negb (isupper c) && lowered s'
  end.

(** [s.lower()] on ASCII text. *)
Fixpoint ascii_lower (s : string) : string :=
  match s with
  | EmptyString => EmptyString
  | String c s' => String (lower_char c) (ascii_lower s')
  end.

(** [s.capitalize()] on ASCII text: first character upper case, the rest
    lower case. *)
Definition ascii_capitalize (s : string) : string :=
  match s with
  | EmptyString => EmptyString
  | String c s' => String (upper_char c) (ascii_lower s')
  end.

(** The case mappings of text that is not ASCII, which [str] takes from
    the Unicode character database.  What is known of them here: a lowered
    text holds no letter A to Z, and lowering neither makes nor removes a
    text that is only whitespace (no whitespace character has a case, and
    no other character lowers to whitespace or to nothing). *)
Class Unicode := {
  unicode_lower : string -> string;
  unicode_capitalize : string -> string;
  unicode_lower_lowered : forall s, lowered (unicode_lower s) = true;
  unicode_lower_blank : forall s, isblank (unicode_lower s) = isblank s
}.

(** [s.lower()] *)
Definition lower `{Unicode} (s : string) : string :=
  if isascii s then ascii_lower s else unicode_lower s.

(** [s.capitalize()] *)
Definition capitalize `{Unicode} (s : string) : string :=
  if isascii s then ascii_capitalize s else unicode_capitalize s.

(** [s.split(sep)] for a one-character separator. *)
Fixpoint split_on_from (sep : ascii) (word s : string) : list string :=
  match s with
  | EmptyString => [word]
  | String c s' =>
      if Ascii.eqb c sep
      then word :: split_on_from sep EmptyString s'
      else split_on_from sep (word +:+ String c EmptyString) s'
  end.

Definition split_on (sep : ascii) (s : string) : list string :=
  split_on_from sep EmptyString s.

(** [sep.join(l)] *)
Definition join (sep : string) (l : list string) : string :=
  String.concat sep l.

(** [sub in s] *)
Fixpoint contains (sub s : string) : bool :=
  String.prefix sub s ||
  match s with
  | EmptyString => false
  | String _ s' => contains sub s'
  end.

(** [s.replace(old, new)] for a non-empty [old]: the occurrences of [old]
    are replaced from left to right, without overlap.  [skip] counts the
    characters of a replaced occurrence still to be dropped. *)
Fixpoint replace_from (skip : nat) (old new s : string) : string :=
  match s with
  | EmptyString => EmptyString
  | String c s' =>
      match skip with
      | S k => replace_from k old new s'
      | O =>
          if String.prefix old s
          then new +:+ replace_from (String.length old - 1) old new s'
          else String c (replace_from 0 old new s')
      end
  end.

Definition replace (old new s : string) : string := replace_from 0 old new s.

(** [s[:n]] *)
Definition slice_to (n : nat) (s : string) : string := String.substring 0 n s.

(** [not s] / [if s] on a string *)
Definition truthy (s : string) : bool :=
  match s with EmptyString => false | _ => true end.

End str.

(** The two notions of text that the properties speak of. *)
Abbreviation isblank := str.isblank.
Abbreviation lowered := str.lowered.

(** ** Data returned by the catalog (TMDb) *)

(** A movie summary, an element of the ["results"] of a movie endpoint.
    The renderer indexes ["id"] and ["title"], which a movie has;
    ["release_date"] may be absent or null ([None]) or empty. *)
Record movie := {
  movie_id : Z;
  movie_title : string;
  release_date : option string
}.

(** The object returned by ["movie/{id}"]; every key is read with [.get]. *)
Record details := {
  details_title : option string;
  details_overview : option string;
  details_vote_average : option string;  (* the number as [str] prints it *)
  details_release_date : option string
}.

Record video := { site : string; type : string; key : string }.

(** An element of the ["results"] of ["search/person"].  An entry of
    ["known_for"] is a movie, or a TV show, which has a ["name"] and no
    ["title"] ([None]). *)
Record actor := {
  name : string;
  known_for : list (option movie);
  profile_path : option string
}.

Record genre := { genre_name : string; genre_id : Z }.

(** The answers of the service, by endpoint.  A failed request makes
    [tmdb_request] return [{}], which each caller turns into the empty
    answer with [.get(key, [])], or tests with [if not movie]. *)
Record catalog := {
  search_movie_results : string -> list movie;
  movie_details : string -> option details;
  movie_videos : string -> list video;
  movie_credits : string -> list string;     (* the ["name"] of each cast entry *)
  search_person_results : string -> list actor;
  discover_movie_results : Z -> list movie;
  trending_results : list movie;
  genre_movie_list : list genre
}.

(** ** Python's [dict] with insertion order, for the genre table *)

Module dict.
Section Dict.
Context {V : Type}.

Fixpoint get (k : string) (d : list (string * V)) : option V :=
  match d with
  | [] => None
  | (k', v) :: d' => if String.eqb k k' then Some v else get k d'
  end.

(** [d[k] = v]: a present key keeps its place, a new one goes last. *)
Fixpoint set (k : string) (v : V) (d : list (string * V)) : list (string * V) :=
  match d with
  | [] => [(k, v)]
  | (k', v') :: d' =>
      if String.eqb k k' then (k', v) :: d' else (k', v') :: set k v d'
  end.

Definition keys (d : list (string * V)) : list string := map fst d.
End Dict.
End dict.

(** ** Telegram values *)

Record InlineKeyboardButton := {
  text : string;
  callback_data : string
}.

Record KeyboardButton := {
  button_text : string;
  request_location : bool
}.

Inductive markup :=
| InlineKeyboardMarkup (inline_keyboard : list (list InlineKeyboardButton))
| ReplyKeyboardMarkup (keyboard : list (list KeyboardButton))
    (resize_keyboard one_time_keyboard : bool)
| ReplyKeyboardRemove.

(** ** The favorites file *)

Inductive file :=
| Absent                                   (* no such file *)
| Denied                                   (* present, [open] is refused *)
| Corrupt (raw : string)                   (* present, not JSON *)
| Stored (favorites : gmap string (list string)).

Inductive exn :=
| FileNotFoundError
| PermissionError
| JSONDecodeError
| IndexError
| KeyError.

(** ** Handlers and effects *)

Inductive handler :=
| h_start | h_help_command | h_search_movie | h_show_movie_details
| h_search_actor | h_recommend_movie_by_genre | h_trending_movies
| h_add_favorite | h_save_favorite_movie | h_view_favorites
| h_minta_lokasi_bioskop | h_bioskop_terdekat
| h_handle_menu_button | h_handle_genre_button | h_text_message_handler.

(** What a handler does to the outside, in order.  [Enter h args] marks
    that the coroutine [h] starts to run with [context.args = args]; the
    other events are the calls of the same name in the source. *)
Inductive event :=
| Enter (h : handler) (args : list string)
| answer
| reply_text (msg : string) (reply_markup : option markup)
| edit_message_text (msg : string) (reply_markup : option markup)
| requests_get (endpoint : string) (params : list (string * string))
| json_dump (favorites : gmap string (list string)).

Record world := {
  user_data : gmap string string;
  args : list string;
  favorites_file : file;
  trace : list event
}.

Inductive result (A : Type) :=
| Return (a : A)
| Raise (e : exn).
Arguments Return {A} a.
Arguments Raise {A} e.

Definition M (A : Type) : Type := world -> result A * world.

#[global] Instance M_ret : MRet M := fun A a w => (Return a, w).

#[global] Instance M_bind : MBind M := fun A B f c w =>
  match c w with
  | (Return a, w') => f a w'
  | (Raise e, w') => (Raise e, w')
  end.

Definition raise {A} (e : exn) : M A := fun w => (Raise e, w).

(** [try: c except Exception as e: h e] *)
Definition try_except {A} (c : M A) (h : exn -> M A) : M A := fun w =>
  match c w with
  | (Return a, w') => (Return a, w')
  | (Raise e, w') => h e w'
  end.

Definition emit (e : event) : M unit := fun w =>
  (Return tt, {| user_data := user_data w; args := args w;
                 favorites_file := favorites_file w;
                 trace := trace w ++ [e] |}).

Definition get_args : M (list string) := fun w => (Return (args w), w).

Definition set_args (l : list string) : M unit := fun w =>
  (Return tt, {| user_data := user_data w; args := l;
                 favorites_file := favorites_file w; trace := trace w |}).

Definition get_user_data : M (gmap string string) := fun w =>
  (Return (user_data w), w).

Definition set_user_data (d : gmap string string) : M unit := fun w =>
  (Return tt, {| user_data := d; args := args w;
                 favorites_file := favorites_file w; trace := trace w |}).

Definition read_file : M file := fun w => (Return (favorites_file w), w).

Definition write_file (f : file) : M unit := fun w =>
  (Return tt, {| user_data := user_data w; args := args w;
                 favorites_file := f; trace := trace w |}).


Definition reply (msg : string) (reply_markup : option markup) : M unit :=
  emit (reply_text msg reply_markup).

Definition edit (msg : string) (reply_markup : option markup) : M unit :=
  emit (edit_message_text msg reply_markup).

Definition enter (h : handler) : M unit :=
  a ← get_args; emit (Enter h a).

(** [l[i]] *)
Definition index {A} (l : list A) (i : nat) : M A :=
  match l !! i with
  | Some x => mret x
  | None => raise IndexError
  end.

Definition nl : string := String "010"%char EmptyString.

(** A triple-quoted literal, line by line. *)
Definition lines (l : list string) : string := str.join nl l.

(** [range(0, n, 2)] *)
Definition range2 (n : nat) : list nat :=
  map (fun k => 2 * k)%nat (seq 0 (Nat.div2 (n + 1))).

(** ** The program *)

(** The program and its properties are for any case mappings that meet
    [str.Unicode], those of the interpreter among them. *)
Section Python.

Context {unicode : str.Unicode}.

Section Bot.

Variable tmdb : catalog.

(** [load_genres], called once by [main_async] *)
Definition load_genres : list (string * Z) :=
  fold_left (fun d g => dict.set (str.lower (genre_name g)) (genre_id g) d)
    (genre_movie_list tmdb) [].

Definition GENRES : list (string * Z) := load_genres.

(** *** Favorite functions *)

Definition load_favorites : M (gmap string (list string)) :=
  f ← read_file;
  match f with
  | Absent => mret ∅                      (* except FileNotFoundError *)
  | Denied => raise PermissionError
  | Corrupt _ => raise JSONDecodeError
  | Stored favorites => mret favorites
  end.

Definition save_favorites (favorites : gmap string (list string)) : M unit :=
  f ← read_file;
  match f with
  | Denied => raise PermissionError
  | _ => emit (json_dump favorites);; write_file (Stored favorites)
  end.

(** *** Helper functions *)

Definition menu_button : InlineKeyboardButton :=
  {| text := "🎛️ Menu"; callback_data := "menu_menu" |}.

Definition movie_row (callback_prefix : string) (movie : movie)
  : list InlineKeyboardButton :=
  let release_year :=
    match release_date movie with
    | Some d => if str.truthy d then str.slice_to 4 d else "Unknown"
    | None => "Unknown"
    end in
  let display_name := movie_title movie +:+ " (" +:+ release_year +:+ ")" in
  [ {| text := display_name;
       callback_data := callback_prefix +:+ "_" +:+ pretty (movie_id movie) |} ].

Definition create_movie_keyboard (movies : list movie) (callback_prefix : string)
  : markup :=
  InlineKeyboardMarkup
    (map (movie_row callback_prefix) (take 5 movies) ++ [[menu_button]]).

Definition start_message : string :=
  lines [
    "";
    "    🎥 Selamat datang di Movie Search Bot! 🍿";
    "    Siap menjelajahi dunia film? Dari blockbuster terbaru hingga klasik favorit, kami punya semua yang kamu cari!";
    "    Gunakan tombol di bawah untuk mulai petualanganmu:";
    "    - Cari film, aktor, atau genre favoritmu";
    "    - Temukan film trending atau bioskop terdekat";
    "    - Simpan film kesukaanmu di daftar favorit";
    "    Klik **🎛️ Menu** untuk melihat semua fitur!";
    "    " ].

Definition main_menu_keyboard : markup :=
  InlineKeyboardMarkup [
    [ {| text := "🔍 Cari Film"; callback_data := "menu_search" |};
      {| text := "🎭 Cari Aktor"; callback_data := "menu_actor" |} ];
    [ {| text := "🎬 Film Trending"; callback_data := "menu_trending" |};
      {| text := "🏷️ Genre Film"; callback_data := "menu_genres" |} ];
    [ {| text := "⭐ Tambah Favorit"; callback_data := "menu_favorite" |};
      {| text := "📜 List Favorit"; callback_data := "menu_favorites" |} ];
    [ {| text := "🎫 Cari Bioskop"; callback_data := "menu_cinema" |};
      {| text := "🎛️ Menu"; callback_data := "menu_menu" |} ];
    [ {| text := "❓ Bantuan"; callback_data := "menu_help" |} ] ].

Definition create_main_menu : string * markup :=
  (start_message, main_menu_keyboard).

Definition create_error_keyboard : markup :=
  InlineKeyboardMarkup [[menu_button]].

(** *** Catalog requests *)

Definition search_movie_by_title (title : string) : M (list movie) :=
  emit (requests_get "search/movie" [("query", title)]);;
  mret (search_movie_results tmdb title).

Definition get_movie_details (movie_id : string) : M (option details) :=
  emit (requests_get ("movie/" +:+ movie_id) []);;
  mret (movie_details tmdb movie_id).

Definition get_movie_trailer (movie_id : string) : M (option string) :=
  emit (requests_get ("movie/" +:+ movie_id +:+ "/videos") []);;
  mret (match filter (fun v => site v = "YouTube" /\ type v = "Trailer")
                (movie_videos tmdb movie_id) with
        | v :: _ => Some ("https://www.youtube.com/watch?v=" +:+ key v)
        | [] => None
        end).

Definition get_movie_cast (movie_id : string) : M (list string) :=
  emit (requests_get ("movie/" +:+ movie_id +:+ "/credits") []);;
  mret (take 5 (movie_credits tmdb movie_id)).

Definition get_movies_by_genre (genre_id : Z) : M (list movie) :=
  emit (requests_get "discover/movie"
          [("with_genres", pretty genre_id); ("page", "1")]);;
  mret (discover_movie_results tmdb genre_id).

Definition get_trending : M (list movie) :=
  emit (requests_get "trending/movie/day" []);;
  mret (trending_results tmdb).

Definition search_person (query : string) : M (list actor) :=
  emit (requests_get "search/person" [("query", query)]);;
  mret (search_person_results tmdb query).

(** *** Command handlers *)

Definition start : M unit :=
  enter h_start;;
  let '(start_message, reply_markup) := create_main_menu in
  reply start_message (Some reply_markup).

Definition help_message : string :=
  lines [
    "";
    "        🎬 Panduan Menu Movie Search Bot 🍿";
    "        Berikut adalah penjelasan tombol menu kami:";
    "        - 🔍 **Cari Film**: Cari film berdasarkan judul.";
    "        - 🎭 **Cari Aktor**: Temukan film berdasarkan nama aktor/aktris.";
    "        - 🎬 **Film Trending**: Lihat film yang sedang populer saat ini.";
    "        - 🏷️ **Genre Film**: Jelajahi film berdasarkan genre (action, comedy, dll.).";
    "        - ⭐ **Tambah Favorit**: Tambahkan film ke daftar favoritmu.";
    "        - 📜 **List Favorit**: Lihat daftar film favoritmu.";
    "        - 🎫 **Cari Bioskop**: Temukan bioskop terdekat dengan lokasimu.";
    "        - 🎛️ **Menu**: Kembali ke menu utama.";
    "        - ❓ **Bantuan**: Tampilkan panduan ini.";
    "        Klik **🎛️ Menu** untuk kembali menjelajah!";
    "        " ].

(** Both branches on [query] send the same message to the chat. *)
Definition help_command : M unit :=
  enter h_help_command;;
  try_except
    (reply help_message (Some (InlineKeyboardMarkup [[menu_button]])))
    (fun _ =>
       reply "❌ Terjadi kesalahan saat menampilkan bantuan. Silakan coba lagi."
         (Some create_error_keyboard)).

Definition search_movie : M unit :=
  enter h_search_movie;;
  a ← get_args;
  let query := str.join " " a in
  if negb (str.truthy query) then
    reply "⚠️ Please enter a movie title after /search." (Some create_error_keyboard)
  else
    movies ← search_movie_by_title query;
    match movies with
    | [] =>
        reply ("❌ No movies found for '" +:+ query +:+ "'.")
          (Some create_error_keyboard)
    | _ =>
        reply "🎬 Movies found:" (Some (create_movie_keyboard movies "detail"))
    end.

Definition show_movie_details (data : string) : M unit :=
  enter h_show_movie_details;;
  emit answer;;
  movie_id ← index (str.split_on "_" data) 1;
  movie ← get_movie_details movie_id;
  match movie with
  | None => edit "❌ Movie details not found." (Some create_error_keyboard)
  | Some movie =>
      let title := default "N/A" (details_title movie) in
      let overview :=
        match details_overview movie with
        | Some o => if str.truthy o then o else "Synopsis not available."
        | None => "Synopsis not available."
        end in
      let rating := default "0" (details_vote_average movie) in
      let release_date := default "N/A" (details_release_date movie) in
      trailer_url ← get_movie_trailer movie_id;
      let trailer_info :=
        match trailer_url with
        | Some url => nl +:+ "🎬 Trailer: " +:+ url
        | None => nl +:+ "🎬 Trailer: Not available."
        end in
      cast ← get_movie_cast movie_id;
      let cast_list :=
        match cast with
        | [] => "Cast information not available."
        | _ => str.join ", " cast
        end in
      let message :=
        lines [
          "";
          "    🎬 " +:+ title;
          "    📅 Release Date: " +:+ release_date;
          "    ⭐ Rating: " +:+ rating;
          "    📝 Synopsis:";
          "    " +:+ overview;
          "    👥 Cast:";
          "    " +:+ cast_list +:+ trailer_info;
          "    " ] in
      edit message (Some create_error_keyboard)
  end.

(** [create_movie_keyboard(known_for)]: the loop indexes ["title"] in each
    of the first five entries, a [KeyError] on a TV show. *)
Definition create_known_for_keyboard (known_for : list (option movie))
  : M markup :=
  match mapM id (take 5 known_for) with
  | Some movies => mret (create_movie_keyboard movies "detail")
  | None => raise KeyError
  end.

Definition search_actor : M unit :=
  enter h_search_actor;;
  a ← get_args;
  let query := str.join " " a in
  if negb (str.truthy query) then
    reply "⚠️ Masukkan nama aktor/aktris setelah /actor." (Some create_error_keyboard)
  else
    actors ← search_person query;
    match actors with
    | [] =>
        reply ("❌ Tidak ada aktor/aktris ditemukan untuk '" +:+ query +:+ "'.")
          (Some create_error_keyboard)
    | actor :: _ =>
        reply_markup ← create_known_for_keyboard (known_for actor);
        let profile_url :=
          match profile_path actor with
          | Some p =>
              if str.truthy p then "https://image.tmdb.org/t/p/w500" +:+ p
              else "Foto tidak tersedia."
          | None => "Foto tidak tersedia."
          end in
        let message :=
          lines [ ""; "    🎭 " +:+ name actor; "    🖼️ Foto:";
                  "    " +:+ profile_url; "    " ] in
        reply message None;;
        reply "🎬 Movies starring this actor/actress:" (Some reply_markup)
    end.

Definition recommend_movie_by_genre : M unit :=
  enter h_recommend_movie_by_genre;;
  a ← get_args;
  let genre_name := str.lower (str.join " " a) in
  if negb (str.truthy genre_name) then
    reply "⚠️ Please enter a genre name after /genre." (Some create_error_keyboard)
  else
    match dict.get genre_name GENRES with
    | Some genre_id =>
        if (genre_id =? 0)%Z then
          reply ("❌ Genre '" +:+ genre_name +:+ "' not found.")
            (Some create_error_keyboard)
        else
          movies ← get_movies_by_genre genre_id;
          match movies with
          | [] =>
              reply ("❌ No movie recommendations available for genre '"
                       +:+ genre_name +:+ "'.") (Some create_error_keyboard)
          | _ =>
              reply ("🎬 Movie recommendations for genre '"
                       +:+ str.capitalize genre_name +:+ "':")
                (Some (create_movie_keyboard movies "detail"))
          end
    | None =>
        reply ("❌ Genre '" +:+ genre_name +:+ "' not found.")
          (Some create_error_keyboard)
    end.

Definition trending_movies : M unit :=
  enter h_trending_movies;;
  movies ← get_trending;
  match movies with
  | [] => reply "❌ Tidak ada film tren saat ini." (Some create_error_keyboard)
  | _ =>
      reply "🎬 Film yang sedang tren:"
        (Some (create_movie_keyboard movies "detail"))
  end.

Definition add_favorite : M unit :=
  enter h_add_favorite;;
  a ← get_args;
  let query := str.join " " a in
  if negb (str.truthy query) then
    reply "⚠️ Please enter a movie title after /favorite."
      (Some create_error_keyboard)
  else
    movies ← search_movie_by_title query;
    match movies with
    | [] =>
        reply ("❌ No movies found for '" +:+ query +:+ "'.")
          (Some create_error_keyboard)
    | _ =>
        reply "🎬 Select the movie you want to save:"
          (Some (create_movie_keyboard movies "save"))
    end.

Definition save_favorite_movie (from_user : Z) (data : string) : M unit :=
  enter h_save_favorite_movie;;
  emit answer;;
  movie_id ← index (str.split_on "_" data) 1;
  movie ← get_movie_details movie_id;
  match movie with
  | None => edit "❌ No movie details found." (Some create_error_keyboard)
  | Some movie =>
      let movie_title := default "Unknown" (details_title movie) in
      favorites ← load_favorites;
      let user_id := pretty from_user in
      let favorites : gmap string (list string) :=
        match favorites !! user_id with
        | None => <[user_id := []]> favorites
        | Some _ => favorites
        end in
      let favs := default [] (favorites !! user_id) in
      if bool_decide (str.lower movie_title ∈ map str.lower favs) then
        edit ("❌ '" +:+ movie_title +:+ "' sudah ada di daftar favorit Anda.")
          (Some create_error_keyboard)
      else
        let favorites := <[user_id := (favs ++ [movie_title])%list]> favorites in
        save_favorites favorites;;
        edit ("✅ '" +:+ movie_title +:+ "' telah ditambahkan ke daftar favorit Anda.")
          (Some create_error_keyboard)
  end.

Definition view_favorites (from_user : Z) : M unit :=
  enter h_view_favorites;;
  favorites ← load_favorites;
  let user_id := pretty from_user in
  match favorites !! user_id with
  | None | Some [] =>
      reply "❌ Anda belum memiliki film favorit." (Some create_error_keyboard)
  | Some favs =>
      let message :=
        fold_left (fun message movie => message +:+ "- " +:+ movie +:+ nl)
          favs ("⭐ Daftar film favorit Anda:" +:+ nl) in
      reply message (Some create_error_keyboard)
  end.

Definition location_keyboard : markup :=
  ReplyKeyboardMarkup
    [[ {| button_text := "📍 Kirim Lokasi"; request_location := true |} ]]
    true true.

Definition minta_lokasi_bioskop : M unit :=
  enter h_minta_lokasi_bioskop;;
  reply "Silakan kirim lokasi kamu untuk mencari bioskop terdekat:"
    (Some location_keyboard).

(** [location] carries the two coordinates as [str] prints them. *)
Definition bioskop_terdekat (location : option (string * string)) : M unit :=
  enter h_bioskop_terdekat;;
  match location with
  | None =>
      reply "📍 Silakan kirim lokasi kamu terlebih dahulu."
        (Some create_error_keyboard)
  | Some (lat, lon) =>
      let link_maps :=
        "https://www.google.com/maps/search/bioskop/@" +:+ lat +:+ ","
          +:+ lon +:+ ",15z" in
      reply ("🎬 Berikut link bioskop terdekat:" +:+ nl +:+ link_maps)
        (Some ReplyKeyboardRemove)
  end.

(** *** Menu buttons *)

Definition genre_button (g : string) : InlineKeyboardButton :=
  {| text := str.capitalize g; callback_data := "genre_" +:+ g |}.

(** The row built at index [i] of the loop over [range(0, len, 2)]. *)
Definition genre_row (genres_list : list string) (i : nat)
  : list InlineKeyboardButton :=
  match genres_list !! i with
  | Some g =>
      genre_button g ::
      (if bool_decide (i + 1 < length genres_list)%nat then
         match genres_list !! (i + 1)%nat with
         | Some g' => [genre_button g']
         | None => []
         end
       else [])
  | None => []
  end.

Definition genres_keyboard : markup :=
  let genres_list := take 10 (dict.keys GENRES) in
  InlineKeyboardMarkup
    (map (genre_row genres_list) (range2 (length genres_list))
       ++ [[ {| text := "⬅️ Kembali"; callback_data := "menu_main" |} ]]).

Definition set_state (state : string) : M unit :=
  user_data ← get_user_data;
  set_user_data (<["state" := state]> user_data).

Definition handle_menu_button (from_user : Z) (data : string) : M unit :=
  enter h_handle_menu_button;;
  emit answer;;
  action ← index (str.split_on "_" data) 1;
  try_except
    (if String.eqb action "search" then
       set_state "search";;
       reply "🔍 Ketik judul film yang ingin dicari:" None
     else if String.eqb action "actor" then
       set_state "actor";;
       reply "🎭 Ketik nama aktor/aktris:" None
     else if String.eqb action "favorite" then
       set_state "favorite";;
       reply "⭐ Ketik judul film yang ingin ditambahkan ke favorit:" None
     else if String.eqb action "trending" then
       movies ← get_trending;
       match movies with
       | [] =>
           reply "❌ Tidak ada film tren saat ini." (Some create_error_keyboard)
       | _ =>
           reply "🎬 Film yang sedang tren:"
             (Some (create_movie_keyboard movies "detail"))
       end
     else if String.eqb action "genres" then
       reply "🏷️ Pilih genre:" (Some genres_keyboard)
     else if String.eqb action "favorites" then
       let user_id := pretty from_user in
       favorites ← load_favorites;
       match favorites !! user_id with
       | None | Some [] =>
           reply "❌ Anda belum memiliki film favorit."
             (Some create_error_keyboard)
       | Some favs =>
           let daftar_favorit :=
             str.join nl (map (fun movie => "- " +:+ movie) favs) in
           reply ("⭐ Daftar favorit Anda:" +:+ nl +:+ daftar_favorit)
             (Some create_error_keyboard)
       end
     else if String.eqb action "cinema" then
       reply "Silakan kirim lokasi Anda:" (Some location_keyboard)
     else if String.eqb action "menu" then
       let '(start_message, reply_markup) := create_main_menu in
       reply start_message (Some reply_markup)
     else if String.eqb action "main" then
       let '(start_message, reply_markup) := create_main_menu in
       reply "🎬 Pilih menu:" (Some reply_markup)
     else if String.eqb action "help" then
       help_command
     else
       reply "❌ Perintah tidak dikenali." (Some create_error_keyboard))
    (fun _ =>
       reply "❌ Terjadi kesalahan. Silakan coba lagi."
         (Some create_error_keyboard)).

Definition handle_genre_button (data : string) : M unit :=
  enter h_handle_genre_button;;
  emit answer;;
  genre_name ← index (str.split_on "_" data) 1;
  match dict.get genre_name GENRES with
  | Some genre_id =>
      if (genre_id =? 0)%Z then
        reply ("❌ Genre '" +:+ genre_name +:+ "' not found.")
          (Some create_error_keyboard)
      else
        movies ← get_movies_by_genre genre_id;
        match movies with
        | [] =>
            reply ("❌ No movie recommendations available for genre '"
                     +:+ genre_name +:+ "'.") (Some create_error_keyboard)
        | _ =>
            reply ("🎬 Movie recommendations for genre '"
                     +:+ str.capitalize genre_name +:+ "':")
              (Some (create_movie_keyboard movies "detail"))
        end
  | None =>
      reply ("❌ Genre '" +:+ genre_name +:+ "' not found.")
        (Some create_error_keyboard)
  end.

(** *** Text messages, with the pending state *)

Definition genres_prompt : string :=
  let genres_list := take 10 (dict.keys GENRES) in
  let genres_text := str.join ", " (map str.capitalize genres_list) in
  "🏷️ Silakan tentukan genre film:" +:+ nl +:+ "Contoh: genre action" +:+ nl
    +:+ "Genre yang tersedia: " +:+ genres_text.

Definition text_message_handler (from_user : Z) (message_text : string) : M unit :=
  enter h_text_message_handler;;
  let text := str.lower message_text in
  user_data ← get_user_data;
  match user_data !! "state" with
  | Some state =>
      set_user_data (delete "state" user_data);;
      if String.eqb state "search" then
        let query := str.strip text in
        if str.truthy query then
          set_args (str.split query);; search_movie
        else
          reply "❌ Judul film tidak boleh kosong." (Some create_error_keyboard)
      else if String.eqb state "actor" then
        let query := str.strip text in
        if str.truthy query then
          set_args (str.split query);; search_actor
        else
          reply "❌ Nama aktor tidak boleh kosong." (Some create_error_keyboard)
      else if String.eqb state "favorite" then
        let query := str.strip text in
        if str.truthy query then
          set_args (str.split query);; add_favorite
        else
          reply "❌ Judul film tidak boleh kosong." (Some create_error_keyboard)
      else mret tt
  | None =>
      if str.contains "cari film" text || str.contains "search movie" text then
        let query :=
          str.strip (str.replace "search movie" "" (str.replace "cari film" "" text)) in
        if str.truthy query then
          set_args (str.split query);; search_movie
        else
          reply ("🔍 Silakan masukkan judul film yang ingin dicari." +:+ nl
                   +:+ "Contoh: cari film Avengers") (Some create_error_keyboard)
      else if str.contains "cari aktor" text || str.contains "search actor" text then
        let query :=
          str.strip (str.replace "search actor" "" (str.replace "cari aktor" "" text)) in
        if str.truthy query then
          set_args (str.split query);; search_actor
        else
          reply ("🎭 Ketik nama aktor atau aktris." +:+ nl
                   +:+ "Contoh: cari aktor Tom Cruise") (Some create_error_keyboard)
      else if str.contains "trending" text || str.contains "film populer" text then
        trending_movies
      else if str.contains "genre" text then
        let genre_name := str.strip (str.replace "genre" "" text) in
        if str.truthy genre_name then
          set_args (str.split genre_name);; recommend_movie_by_genre
        else
          reply genres_prompt (Some create_error_keyboard)
      else if str.contains "favorit" text || str.contains "favorites" text then
        if str.contains "tambah" text || str.contains "add" text then
          let query :=
            str.strip (str.replace "add to favorites" ""
                         (str.replace "tambah favorit" "" text)) in
          if str.truthy query then
            set_args (str.split query);; add_favorite
          else
            reply ("⭐ Ketik judul film untuk favorit." +:+ nl
                     +:+ "Contoh: tambah favorit Inception")
              (Some create_error_keyboard)
        else
          view_favorites from_user
      else if str.contains "bioskop" text || str.contains "cinema" text then
        minta_lokasi_bioskop
      else if str.contains "bantuan" text || str.contains "help" text then
        help_command
      else if str.contains "menu" text || str.contains "start" text then
        start
      else
        let '(start_message, reply_markup) := create_main_menu in
        reply "Saya tidak mengerti permintaan Anda. Silakan pilih dari menu di bawah:"
          (Some reply_markup)
  end.

(** *** The application: updates and their handlers *)

Inductive update :=
| Message (from_user : Z) (message_text : string)
| Command (from_user : Z) (command : string) (command_args : list string)
| CallbackQuery (from_user : Z) (data : string)
| Location (from_user : Z) (latitude longitude : string).

Definition sender (u : update) : Z :=
  match u with
  | Message from_user _ | Command from_user _ _
  | CallbackQuery from_user _ | Location from_user _ _ => from_user
  end.

Definition isdigit (c : ascii) : bool :=
  let n := nat_of_ascii c in (48 <=? n)%nat && (n <=? 57)%nat.

(** [re.match(p + "\d+", data)] for a literal [p] *)
Fixpoint match_digits (p data : string) : bool :=
  match p, data with
  | EmptyString, String c _ => isdigit c
  | String a p', String c data' => Ascii.eqb a c && match_digits p' data'
  | _, EmptyString => false
  end.

(** The handlers registered by [main_async], the first that applies.  A
    [CommandHandler] compares the command in lower case. *)
Definition handler_of (u : update) : option (M unit) :=
  match u with
  | Command _ command _ =>
      let command := str.lower command in
      if String.eqb command "start" then Some start
      else if String.eqb command "help" then Some help_command
      else if String.eqb command "search" then Some search_movie
      else if String.eqb command "genre" then Some recommend_movie_by_genre
      else if String.eqb command "actor" then Some search_actor
      else if String.eqb command "trending" then Some trending_movies
      else if String.eqb command "favorite" then Some add_favorite
      else if String.eqb command "favorites" then Some (view_favorites (sender u))
      else if String.eqb command "nearest_cinema" then Some minta_lokasi_bioskop
      else None
  | CallbackQuery from_user data =>
      if match_digits "detail_" data then Some (show_movie_details data)
      else if match_digits "save_" data then Some (save_favorite_movie from_user data)
      else if String.prefix "menu_" data then Some (handle_menu_button from_user data)
      else if String.prefix "genre_" data then Some (handle_genre_button data)
      else None
  | Location _ latitude longitude =>
      Some (bioskop_terdekat (Some (latitude, longitude)))
  | Message from_user message_text =>
      Some (text_message_handler from_user message_text)
  end.

(** [context.args] as the framework sets it before the handler runs. *)
Definition initial_args (u : update) : list string :=
  match u with
  | Command _ _ command_args => command_args
  | _ => []
  end.

(** The bot between two updates: one [user_data] dictionary per user, the
    favorites file, and everything done so far. *)
Record bot := {
  sessions : gmap Z (gmap string string);
  storage : file;
  history : list event
}.

Definition process_update (u : update) (b : bot) : bot :=
  match handler_of u with
  | None => b
  | Some h =>
      let w := {| user_data := default ∅ (sessions b !! sender u);
                  args := initial_args u;
                  favorites_file := storage b;
                  trace := [] |} in
      let w' := snd (h w) in
      {| sessions := <[sender u := user_data w']> (sessions b);
         storage := favorites_file w';
         history := history b ++ trace w' |}
  end.

Definition process_updates (us : list update) (b : bot) : bot :=
  fold_left (fun b u => process_update u b) us b.

End Bot.


(** ** Notions used to state the properties *)

(** [w] with its trace replaced by [t] *)
Definition with_trace (w : world) (t : list event) : world :=
  {| user_data := user_data w; args := args w;
     favorites_file := favorites_file w; trace := t |}.

(** A handler started on a fresh trace, as [process_update] starts it. *)
Definition fresh (user_data : gmap string string) (args : list string)
  (f : file) : world :=
  {| user_data := user_data; args := args; favorites_file := f; trace := [] |}.

(** The pending expectation of a session. *)
Definition pending (user_data : gmap string string) : option string :=
  user_data !! "state".

(** The three expectations a menu button can set. *)
Definition expectation (state : string) : Prop :=
  state = "search" \/ state = "actor" \/ state = "favorite".

(** A session holds nothing, or one of the three expectations and nothing
    else. *)
Definition one_expectation (user_data : gmap string string) : Prop :=
  user_data = ∅ \/
  exists state, user_data = {["state" := state]} /\ expectation state.

Definition initial_bot (f : file) : bot :=
  {| sessions := ∅; storage := f; history := [] |}.

(** The session of a user, as [context.user_data] gives it. *)
Definition session (b : bot) (from_user : Z) : gmap string string :=
  default ∅ (sessions b !! from_user).

(** The mappings written to the favorites file by a sequence of events. *)
Definition writes (t : list event) : list (gmap string (list string)) :=
  omap (fun e => match e with json_dump f => Some f | _ => None end) t.

(** The handlers entered by a sequence of events. *)
Definition entered (t : list event) : list (handler * list string) :=
  omap (fun e => match e with Enter h a => Some (h, a) | _ => None end) t.

(** The stored titles equal to [title] up to case. *)
Definition copies (title : string) (favs : list string) : list string :=
  filter (fun fav => str.lower fav = str.lower title) favs.

Definition readable (f : file) : bool :=
  match f with
  | Stored _ => true
  | _ => false
  end.

(** The last character of a text. *)
Fixpoint last_char (s : string) : option ascii :=
  match s with
  | EmptyString => None
  | String c s' =>
      match s' with
      | EmptyString => Some c
      | _ => last_char s'
      end
  end.

(** ** A small catalog, to run the handlers on *)

Definition inception : movie :=
  {| movie_id := 27205; movie_title := "Inception";
     release_date := Some "2010-07-15" |}.

Definition sample_genres : list genre :=
  [ {| genre_name := "Action"; genre_id := 28 |};
    {| genre_name := "Adventure"; genre_id := 12 |};
    {| genre_name := "Animation"; genre_id := 16 |};
    {| genre_name := "Comedy"; genre_id := 35 |};
    {| genre_name := "Crime"; genre_id := 80 |};
    {| genre_name := "Documentary"; genre_id := 99 |};
    {| genre_name := "Drama"; genre_id := 18 |};
    {| genre_name := "Family"; genre_id := 10751 |};
    {| genre_name := "Fantasy"; genre_id := 14 |};
    {| genre_name := "History"; genre_id := 36 |};
    {| genre_name := "Horror"; genre_id := 27 |};
    {| genre_name := "Music"; genre_id := 10402 |} ].

Definition sample_catalog : catalog :=
  {| search_movie_results := fun title =>
       if String.eqb title "inception" then [inception] else [];
     movie_details := fun movie_id =>
       if String.eqb movie_id "27205" then
         Some {| details_title := Some "Inception";
                 details_overview := Some "A thief who steals secrets.";
                 details_vote_average := Some "8.4";
                 details_release_date := Some "2010-07-15" |}
       else if String.eqb movie_id "1" then
         Some {| details_title := Some "INCEPTION";
                 details_overview := None;
                 details_vote_average := None;
                 details_release_date := None |}
       else None;
     movie_videos := fun _ => [];
     movie_credits := fun _ => [];
     search_person_results := fun _ => [];
     discover_movie_results := fun _ => [];
     trending_results := [];
     genre_movie_list := sample_genres |}.

(** A computation that leaves a component of the world as it found it. *)
Definition keeps {A X} (proj : world -> X) (c : M A) : Prop :=
  forall w, proj (snd (c w)) = proj w.

(** A component that depends on neither [context.args] nor the trace. *)
Definition stable {X} (proj : world -> X) : Prop :=
  forall u a f t a' t',
    proj {| user_data := u; args := a; favorites_file := f; trace := t |}
    = proj {| user_data := u; args := a'; favorites_file := f; trace := t' |}.

(** The reply to a blank answer to the prompt of [state]. *)
Definition validation_message (state : string) : string :=
  if String.eqb state "actor" then "❌ Nama aktor tidak boleh kosong."
  else "❌ Judul film tidak boleh kosong.".

(** The reply of [search_movie] to a query that is not empty. *)
Definition search_reply (tmdb : catalog) (query : string) : event :=
  match search_movie_results tmdb query with
  | [] =>
      reply_text ("❌ No movies found for '" +:+ query +:+ "'.")
        (Some create_error_keyboard)
  | movies =>
      reply_text "🎬 Movies found:" (Some (create_movie_keyboard movies "detail"))
  end.

(** Every session of the bot holds at most one expectation. *)
Definition sessions_ok (b : bot) : Prop :=
  forall from_user d, sessions b !! from_user = Some d -> one_expectation d.

(** The reply to a text in which no intent is recognized. *)
Definition fallback : event :=
  reply_text "Saya tidak mengerti permintaan Anda. Silakan pilih dari menu di bawah:"
    (Some main_menu_keyboard).

(** A list cut in rows of two, the last of one when the length is odd. *)
Fixpoint pairs {A} (l : list A) : list (list A) :=
  match l with
  | a :: b :: l' => [a; b] :: pairs l'
  | [a] => [[a]]
  | [] => []
  end.

(** The handlers that take their arguments from the text of a message. *)
Definition takes_text (h : handler) : bool :=
  match h with
  | h_search_movie | h_search_actor | h_add_favorite
  | h_recommend_movie_by_genre => true
  | _ => false
  end.

(** The argument lists that [text_message_handler] computes from [text], the
    lowered text of the message: the words of the text for a pending state,
    and the words left of it without the phrase of the intent. *)
Definition passed_on (text : string) : list (list string) :=
  [ str.split (str.strip text);
    str.split (str.strip
      (str.replace "search movie" "" (str.replace "cari film" "" text)));
    str.split (str.strip
      (str.replace "search actor" "" (str.replace "cari aktor" "" text)));
    str.split (str.strip (str.replace "genre" "" text));
    str.split (str.strip
      (str.replace "add to favorites" "" (str.replace "tambah favorit" "" text))) ].

(** A stored list without two titles equal up to case. *)
Definition no_duplicates (favs : list string) : Prop :=
  NoDup (map str.lower favs).

(** A favorites file that loads, and holds no duplicates. *)
Definition file_ok (f : file) : Prop :=
  match f with
  | Absent => True
  | Stored favorites =>
      forall user_id favs, favorites !! user_id = Some favs -> no_duplicates favs
  | Denied | Corrupt _ => False
  end.

(** What a handler adds to the handlers entered: itself, with its
    arguments. *)
Definition enters_itself (h : handler) (c : M unit) : Prop :=
  forall w, entered (trace (snd (c w))) = entered (trace w) ++ [(h, args w)].

(** ** Notions used to state the further properties *)

(** The texts sent to the chat by a sequence of events, new messages and
    edits of the message under the button alike. *)
Definition replies (t : list event) : list string :=
  omap (fun e => match e with
                 | reply_text msg _ | edit_message_text msg _ => Some msg
                 | _ => None
                 end) t.

(** The requests made to the catalog by a sequence of events. *)
Definition requests (t : list event) : list (string * list (string * string)) :=
  omap (fun e => match e with
                 | requests_get endpoint params => Some (endpoint, params)
                 | _ => None
                 end) t.

(** A computation that only adds events to the trace, none of them a write
    to the favorites file. *)
Definition writes_nothing {A} (c : M A) : Prop :=
  forall w, exists new, trace (snd (c w)) = trace w ++ new /\ writes new = [].

(** The updates handled by [save_favorite_movie]. *)
Definition is_save (u : update) : bool :=
  match u with
  | CallbackQuery _ data => match_digits "save_" data
  | _ => false
  end.

(** The updates handled by [text_message_handler] or [handle_menu_button]. *)
Definition is_text_or_menu (u : update) : bool :=
  match u with
  | Message _ _ => true
  | CallbackQuery _ data => String.prefix "menu_" data
  | _ => false
  end.

(** The line of a favorite movie in the lists of favorites. *)
Definition favorite_line (movie : string) : string := "- " +:+ movie.

(** Text made of decimal digits, at least one. *)
Fixpoint all_digits (s : string) : bool :=
  match s with
  | EmptyString => true
  | String c s' => isdigit c && all_digits s'
  end.

Definition is_number (s : string) : bool :=
  str.truthy s && all_digits s.

(** Text in which the character [c] does not occur. *)
Fixpoint without (c : ascii) (s : string) : bool :=
  match s with
  | EmptyString => true
  | String c' s' => negb (Ascii.eqb c' c) && without c s'
  end.

(** The handler that takes the answer to the prompt of [state]. *)
Definition state_handler (state : string) : handler :=
  if String.eqb state "search" then h_search_movie
  else if String.eqb state "actor" then h_search_actor
  else h_add_favorite.

(** The actions that [handle_menu_button] knows. *)
Definition menu_actions : list string :=
  [ "search"; "actor"; "favorite"; "trending"; "genres"; "favorites";
    "cinema"; "menu"; "main"; "help" ].

(** The prompt that the menu button of [state] sends. *)
Definition prompt_message (state : string) : string :=
  if String.eqb state "search" then "🔍 Ketik judul film yang ingin dicari:"
  else if String.eqb state "actor" then "🎭 Ketik nama aktor/aktris:"
  else "⭐ Ketik judul film yang ingin ditambahkan ke favorit:".

(** The handler that [text_message_handler] awaits for the answer to the
    prompt of [state]. *)
Definition answer_handler (tmdb : catalog) (state : string) : M unit :=
  if String.eqb state "search" then search_movie tmdb
  else if String.eqb state "actor" then search_actor tmdb
  else add_favorite tmdb.

(** The texts of the new messages, and of the edits of the message under
    the button, in a sequence of events. *)
Definition sent (t : list event) : list string :=
  omap (fun e => match e with reply_text msg _ => Some msg | _ => None end) t.

Definition edits (t : list event) : list string :=
  omap (fun e => match e with edit_message_text msg _ => Some msg | _ => None end) t.


(** Two whitespace characters beyond ASCII, in UTF-8: U+00A0 and U+3000. *)
Definition no_break_space : string :=
  String "194" (String "160" EmptyString).

Definition ideographic_space : string :=
  String "227" (String "128" (String "128" EmptyString)).


(** A catalog with an actor known for a TV show. *)
Definition tv_catalog : catalog :=
  {| search_movie_results := fun _ => [];
     movie_details := fun _ => None;
     movie_videos := fun _ => [];
     movie_credits := fun _ => [];
     search_person_results := fun _ =>
       [ {| name := "Bryan Cranston";
            known_for := [Some inception; None];
            profile_path := None |} ];
     discover_movie_results := fun _ => [];
     trending_results := [];
     genre_movie_list := [] |}.

(** * Properties *)

(** ** Running the monad *)

Lemma run_bind {A B} (c : M A) (f : A -> M B) w :
  (c ≫= f) w =
  match c w with
  | (Return a, w') => f a w'
  | (Raise e, w') => (Raise e, w')
  end.
Proof. reflexivity. Qed.

Lemma run_ret {A} (a : A) w : (mret a : M A) w = (Return a, w).
Proof. reflexivity. Qed.

Ltac step :=
  repeat (rewrite ?run_bind, ?run_ret;
          unfold enter, reply, edit, emit, get_args, set_args, get_user_data,
            set_user_data, set_state, read_file, write_file, raise, try_except,
            index;
          cbn [user_data args favorites_file trace fst snd]).

(** ** Movie-list rendering *)

Lemma last_char_app (a b : string) :
  b <> EmptyString -> last_char (a +:+ b) = last_char b.
Proof.
  intros Hb. induction a as [|c a IH]; [reflexivity|].
  change (String c a +:+ b) with (String c (a +:+ b)).
  rewrite <- IH. destruct (a +:+ b) eqn:E; [|reflexivity].
  destruct a as [|c' a].
  - change (EmptyString +:+ b) with b in E. contradiction.
  - change (String c' a +:+ b) with (String c' (a +:+ b)) in E. discriminate.
Qed.

Lemma append_nonempty_r (a b : string) :
  b <> EmptyString -> a +:+ b <> EmptyString.
Proof.
  intros Hb. destruct a as [|c a]; [exact Hb|].
  change (String c a +:+ b) with (String c (a +:+ b)). discriminate.
Qed.

Lemma movie_row_not_menu (callback_prefix : string) (m : movie) :
  movie_row callback_prefix m <> [menu_button].
Proof.
  unfold movie_row. intros Heq. injection Heq as Heq _.
  apply (f_equal last_char) in Heq.
  rewrite !last_char_app in Heq
    by (repeat apply append_nonempty_r; discriminate).
  vm_compute in Heq. discriminate.
Qed.

(** C4: the movie-list keyboard has one row per movie among the first five
    (so five rows when there are five movies or more, whatever the length),
    each a single button that is not the Menu button, and after them, last,
    the row of the Menu button. *)
Theorem create_movie_keyboard_caps_at_five
  (movies : list movie) (callback_prefix : string) :
  exists rows,
    create_movie_keyboard movies callback_prefix
      = InlineKeyboardMarkup (rows ++ [[menu_button]]) /\
    rows = map (movie_row callback_prefix) (take 5 movies) /\
    length rows = Nat.min 5 (length movies) /\
    (length rows <= 5)%nat /\
    Forall (fun row => length row = 1%nat /\ row <> [menu_button]) rows /\
    callback_data menu_button = "menu_menu".
Proof.
  exists (map (movie_row callback_prefix) (take 5 movies)).
  assert (Hlen : length (map (movie_row callback_prefix) (take 5 movies))
                 = Nat.min 5 (length movies)).
  { rewrite length_map, length_take. reflexivity. }
  repeat split; try done.
  - rewrite Hlen. lia.
  - apply Forall_forall. intros row Hrow.
    apply list_elem_of_In, in_map_iff in Hrow as (m & <- & _).
    split; [reflexivity | apply movie_row_not_menu].
Qed.

(** ** Loading the favorites file *)

(** C6, as stated, fails: a favorites file that is present but may not be
    opened is unreadable, and loading it raises [PermissionError], which
    [view_favorites] passes on. *)
Lemma load_favorites_denied_raises :
  let w := fresh ∅ [] Denied in
  readable (favorites_file w) = false /\
  load_favorites w = (Raise PermissionError, w) /\
  fst (load_favorites w) <> Return ∅ /\
  fst (view_favorites 42 w) = Raise PermissionError.
Proof. repeat split. discriminate. Qed.

(** C6, amended: when the favorites file does not exist, loading yields the
    empty mapping, raises nothing and changes nothing; [view_favorites] then
    answers as for a user without favorites. *)
Theorem load_favorites_missing_file (w : world) (from_user : Z) :
  favorites_file w = Absent ->
  load_favorites w = (Return ∅, w) /\
  view_favorites from_user w =
    (Return tt,
     with_trace w
       (trace w ++
          [ Enter h_view_favorites (args w);
            reply_text "❌ Anda belum memiliki film favorit."
              (Some create_error_keyboard) ])).
Proof.
  intros Hf.
  assert (Hl : load_favorites w = (Return ∅, w)).
  { unfold load_favorites. step. rewrite Hf. reflexivity. }
  split; [exact Hl|].
  unfold view_favorites, load_favorites. step. rewrite Hf. step.
  rewrite lookup_empty. step. unfold with_trace.
  rewrite <- !app_assoc, Hf. reflexivity.
Qed.

Lemma load_favorites_frame (w : world) : snd (load_favorites w) = w.
Proof.
  unfold load_favorites. step. destruct (favorites_file w); reflexivity.
Qed.

(** ** Searching *)

(** C7: when the catalog has no result for the query, the search handler
    makes the one request, replies "No movies found for '<query>'" with the
    keyboard that holds the Menu button, and returns; it leaves the favorites
    file as it was and writes nothing to it. *)
Theorem search_movie_no_result (tmdb : catalog) (w : world) :
  let query := str.join " " (args w) in
  str.truthy query = true ->
  search_movie_results tmdb query = [] ->
  let new :=
    [ Enter h_search_movie (args w);
      requests_get "search/movie" [("query", query)];
      reply_text ("❌ No movies found for '" +:+ query +:+ "'.")
        (Some (InlineKeyboardMarkup
                 [[ {| text := "🎛️ Menu"; callback_data := "menu_menu" |} ]])) ] in
  search_movie tmdb w = (Return tt, with_trace w (trace w ++ new)) /\
  favorites_file (snd (search_movie tmdb w)) = favorites_file w /\
  writes new = [].
Proof.
  intros query Hq Hr new.
  assert (H : search_movie tmdb w = (Return tt, with_trace w (trace w ++ new))).
  { unfold search_movie, search_movie_by_title. step.
    fold query. rewrite Hq. cbn [negb]. step. rewrite Hr. step.
    unfold with_trace. rewrite <- !app_assoc. reflexivity. }
  rewrite H. repeat split.
Qed.

(** ** Viewing favorites *)

(** C10: a user without a record and a user whose stored list is empty get
    the same reply, "Anda belum memiliki film favorit", from the command and
    from the menu button, and both leave the favorites file as it was and
    write nothing to it. *)
Theorem view_favorites_empty_or_absent
  (tmdb : catalog) (from_user : Z) (w : world)
  (favorites : gmap string (list string)) :
  fst (load_favorites w) = Return favorites ->
  favorites !! pretty from_user = None \/ favorites !! pretty from_user = Some [] ->
  let no_favorites :=
    reply_text "❌ Anda belum memiliki film favorit." (Some create_error_keyboard) in
  let by_command := [Enter h_view_favorites (args w); no_favorites] in
  let by_button := [Enter h_handle_menu_button (args w); answer; no_favorites] in
  view_favorites from_user w
    = (Return tt, with_trace w (trace w ++ by_command)) /\
  handle_menu_button tmdb from_user "menu_favorites" w
    = (Return tt, with_trace w (trace w ++ by_button)) /\
  favorites_file (snd (view_favorites from_user w)) = favorites_file w /\
  favorites_file (snd (handle_menu_button tmdb from_user "menu_favorites" w))
    = favorites_file w /\
  writes by_command = [] /\ writes by_button = [].
Proof.
  intros Hload Hfav no_favorites by_command by_button.
  assert (Hv : view_favorites from_user w
               = (Return tt, with_trace w (trace w ++ by_command))).
  { unfold view_favorites, load_favorites in *. revert Hload. step.
    destruct (favorites_file w) eqn:E; cbn; intros [= <-];
      destruct Hfav as [-> | ->]; step; unfold with_trace;
      rewrite <- ?app_assoc, ?E; reflexivity. }
  assert (Hm : handle_menu_button tmdb from_user "menu_favorites" w
               = (Return tt, with_trace w (trace w ++ by_button))).
  { unfold handle_menu_button, load_favorites in *. revert Hload. step.
    change (str.split_on "_" "menu_favorites" !! 1%nat) with (Some "favorites").
    step. cbn [String.eqb Ascii.eqb Bool.eqb]. step.
    destruct (favorites_file w) eqn:E; cbn; intros [= <-];
      destruct Hfav as [-> | ->]; step; unfold with_trace;
      rewrite <- ?app_assoc, ?E; reflexivity. }
  rewrite Hv, Hm. repeat split.
Qed.
(** ** Facts on [str] *)

Lemma append_cons (c : ascii) (a b : string) :
  String c a +:+ b = String c (a +:+ b).
Proof. reflexivity. Qed.

Lemma append_nil_l (b : string) : EmptyString +:+ b = b.
Proof. reflexivity. Qed.

(** *** Whitespace characters, byte by byte *)

Lemma between_lower_char (lo hi : nat) (c : ascii) :
  (hi < 65 \/ 122 < lo)%nat ->
  str.between lo hi (str.lower_char c) = str.between lo hi c.
Proof.
  intros H. unfold str.lower_char, str.isupper.
  destruct ((65 <=? nat_of_ascii c)%nat && (nat_of_ascii c <=? 90)%nat) eqn:E;
    [|reflexivity].
  apply andb_true_iff in E as [E1%Nat.leb_le E2%Nat.leb_le].
  unfold str.between.
  rewrite nat_ascii_embedding by lia.
  destruct H as [H | H].
  - rewrite (proj2 (Nat.leb_gt (nat_of_ascii c + 32) hi)) by lia.
    rewrite (proj2 (Nat.leb_gt (nat_of_ascii c) hi)) by lia.
    rewrite !andb_false_r. reflexivity.
  - rewrite (proj2 (Nat.leb_gt lo (nat_of_ascii c + 32))) by lia.
    rewrite (proj2 (Nat.leb_gt lo (nat_of_ascii c))) by lia.
    reflexivity.
Qed.

Lemma isspace_lower_char (c : ascii) :
  str.isspace (str.lower_char c) = str.isspace c.
Proof.
  change (str.between 9 13 (str.lower_char c) || str.between 28 32 (str.lower_char c)
          = str.between 9 13 c || str.between 28 32 c).
  rewrite !between_lower_char by lia. reflexivity.
Qed.

Lemma isupper_lower_char (c : ascii) : str.isupper (str.lower_char c) = false.
Proof. destruct c as [[] [] [] [] [] [] [] []]; reflexivity. Qed.

Lemma space_prefix_lower (s : string) :
  str.space_prefix (str.ascii_lower s) = str.space_prefix s.
Proof.
  destruct s as [|c1 [|c2 [|c3 s]]]; cbn [str.ascii_lower str.space_prefix];
    unfold str.byte; rewrite ?isspace_lower_char, ?between_lower_char by lia;
    reflexivity.
Qed.

(** A whitespace character at the head of a text stays one when the text
    goes on, and is one already in any part of the text that holds it. *)
Lemma space_prefix_app (p q : string) (k : nat) :
  str.space_prefix p = S k -> str.space_prefix (p +:+ q) = S k.
Proof.
  destruct p as [|c1 [|c2 [|c3 p]]]; rewrite ?append_cons, ?append_nil_l;
    cbn [str.space_prefix]; try discriminate.
  - destruct (str.isspace c1); [auto|discriminate].
  - destruct (str.isspace c1); [auto|].
    destruct (str.byte 194 c1 && (str.byte 133 c2 || str.byte 160 c2));
      [|discriminate].
    destruct q; auto.
  - auto.
Qed.

Lemma space_prefix_cut (p q : string) (k : nat) :
  str.space_prefix (p +:+ q) = S k -> (k < String.length p)%nat ->
  str.space_prefix p = S k.
Proof.
  destruct p as [|c1 [|c2 [|c3 p]]]; rewrite ?append_cons, ?append_nil_l;
    cbn [str.space_prefix String.length]; try lia.
  - destruct (str.isspace c1); [auto|]. intros H Hk.
    assert (k = 0%nat) as -> by lia.
    destruct q as [|c2 [|c3 q]]; try discriminate;
      repeat match type of H with
             | (if ?b then _ else _) = _ => destruct b
             end; discriminate.
  - destruct (str.isspace c1); [auto|].
    destruct (str.byte 194 c1 && (str.byte 133 c2 || str.byte 160 c2)); [auto|].
    intros H Hk. assert (k = 0 \/ k = 1)%nat as [-> | ->] by lia;
      destruct q as [|c3 q]; try discriminate;
      repeat match type of H with
             | (if ?b then _ else _) = _ => destruct b
             end; discriminate.
Qed.

(** *** The marks of a text *)

Lemma length_spaces_from (k : nat) (s : string) :
  length (str.spaces_from k s) = String.length s.
Proof.
  revert k. induction s as [|c s IH]; intros k; [reflexivity|].
  cbn [str.spaces_from String.length].
  destruct k; [destruct (str.space_prefix _)|]; cbn [length]; rewrite IH;
    reflexivity.
Qed.

Lemma spaces_from_lower (k : nat) (s : string) :
  str.spaces_from k (str.ascii_lower s) = str.spaces_from k s.
Proof.
  revert k. induction s as [|c s IH]; intros k; [reflexivity|].
  cbn [str.ascii_lower str.spaces_from]. destruct k.
  - change (String (str.lower_char c) (str.ascii_lower s))
      with (str.ascii_lower (String c s)).
    rewrite space_prefix_lower.
    destruct (str.space_prefix (String c s)); rewrite IH; reflexivity.
  - rewrite IH. reflexivity.
Qed.

Lemma isblank_ascii_lower (s : string) :
  isblank (str.ascii_lower s) = isblank s.
Proof. unfold str.isblank, str.spaces. rewrite spaces_from_lower. reflexivity. Qed.

(** *** Stripping *)

Lemma lstrip_marked_blank (marks : list bool) (s : string) :
  length marks = String.length s -> forallb id marks = true ->
  str.lstrip_marked marks s = EmptyString.
Proof.
  revert marks. induction s as [|c s IH]; intros [|b marks] Hl Hm;
    try discriminate; [reflexivity|].
  cbn [forallb id] in Hm. apply andb_true_iff in Hm as [-> Hm].
  cbn [str.lstrip_marked]. apply IH; [|exact Hm].
  cbn [length String.length] in Hl. lia.
Qed.

Lemma strip_blank (s : string) : isblank s = true -> str.strip s = EmptyString.
Proof.
  intros H. unfold str.strip, str.lstrip.
  rewrite lstrip_marked_blank; [reflexivity | apply length_spaces_from | exact H].
Qed.

(** What is left of a text that is not blank starts with a character that is
    not whitespace. *)
Lemma lstrip_head (k : nat) (s : string) :
  forallb id (str.spaces_from k s) = false ->
  exists c t,
    str.lstrip_marked (str.spaces_from k s) s = String c t /\
    str.space_prefix (String c t) = 0%nat.
Proof.
  revert k. induction s as [|c s IH]; intros k; [discriminate|].
  cbn [str.spaces_from]. destruct k.
  - destruct (str.space_prefix (String c s)) eqn:E.
    + intros _. exists c, s. split; [reflexivity | exact E].
    + cbn [forallb id andb str.lstrip_marked]. apply IH.
  - cbn [forallb id andb str.lstrip_marked]. apply IH.
Qed.

Lemma strip_nonblank (s : string) :
  isblank s = false -> str.truthy (str.strip s) = true.
Proof.
  intros H. unfold str.strip, str.lstrip, str.spaces.
  destruct (lstrip_head 0 s H) as (c & t & -> & E).
  unfold str.rstrip, str.spaces. cbn [str.spaces_from]. rewrite E.
  reflexivity.
Qed.

Lemma truthy_strip (s : string) : str.truthy (str.strip s) = negb (isblank s).
Proof.
  destruct (isblank s) eqn:E.
  - rewrite strip_blank by exact E. reflexivity.
  - rewrite strip_nonblank by exact E. reflexivity.
Qed.

(** *** Words *)

Lemma split_marked_blank (word : string) (marks : list bool) (s : string) :
  forallb id marks = true ->
  str.split_marked word marks s
    = match word with EmptyString => [] | _ => [word] end.
Proof.
  revert word marks. induction s as [|c s IH]; intros word [|b marks] Hm;
    try reflexivity.
  cbn [forallb id] in Hm. apply andb_true_iff in Hm as [-> Hm].
  cbn [str.split_marked]. rewrite (IH EmptyString) by exact Hm.
  destruct word; reflexivity.
Qed.

(** The words of a text that is not blank: there is one, and the first is
    not empty. *)
Lemma split_marked_nonempty (word : string) (marks : list bool) (s : string) :
  length marks = String.length s ->
  word <> EmptyString \/ forallb id marks = false ->
  exists x l, str.split_marked word marks s = x :: l /\ x <> EmptyString.
Proof.
  revert word marks. induction s as [|c s IH]; intros word [|b marks] Hl H;
    try discriminate.
  - destruct H as [H | H]; [|discriminate].
    cbn [str.split_marked]. destruct word; [done|]. eauto.
  - cbn [length String.length] in Hl. cbn [str.split_marked]. destruct b.
    + destruct word as [|a word].
      * apply IH; [lia|]. right. destruct H as [H | H]; [done | exact H].
      * eauto.
    + apply IH; [lia|]. left. apply append_nonempty_r. discriminate.
Qed.

Lemma join_split_nonblank (s : string) :
  isblank s = false -> str.truthy (str.join " " (str.split s)) = true.
Proof.
  intros H. unfold str.split.
  destruct (split_marked_nonempty EmptyString (str.spaces s) s)
    as (x & l & -> & Hx); [apply length_spaces_from | auto |].
  unfold str.join. destruct x as [|c x]; [done|].
  destruct l; reflexivity.
Qed.

Lemma isblank_split (s : string) : isblank s = true <-> str.split s = [].
Proof.
  split.
  - intros H. unfold str.split. rewrite split_marked_blank by exact H. reflexivity.
  - intros H. destruct (isblank s) eqn:E; [reflexivity|].
    destruct (split_marked_nonempty EmptyString (str.spaces s) s)
      as (x & l & Hx & _); [apply length_spaces_from | auto |].
    unfold str.split in H. congruence.
Qed.

(** Leading whitespace does not change the words of a text. *)
Lemma split_lstrip_from (k : nat) (s : string) :
  str.split (str.lstrip_marked (str.spaces_from k s) s)
    = str.split_marked EmptyString (str.spaces_from k s) s.
Proof.
  revert k. induction s as [|c s IH]; intros k; [reflexivity|].
  cbn [str.spaces_from]. destruct k.
  - destruct (str.space_prefix (String c s)) eqn:E.
    + cbn [str.lstrip_marked]. unfold str.split, str.spaces.
      cbn [str.spaces_from]. rewrite E. reflexivity.
    + cbn [str.lstrip_marked str.split_marked]. apply IH.
  - cbn [str.lstrip_marked str.split_marked]. apply IH.
Qed.

Lemma split_lstrip (s : string) : str.split (str.lstrip s) = str.split s.
Proof. apply split_lstrip_from. Qed.

(** Trailing whitespace: what is left is the start of the text, up to its
    last character that is not whitespace. *)
Lemma rstrip_marked_prefix (marks : list bool) (s : string) :
  exists rest, s = str.rstrip_marked marks s +:+ rest.
Proof.
  revert marks. induction s as [|c s IH]; intros [|b marks];
    try (eexists; reflexivity).
  cbn [str.rstrip_marked]. destruct (forallb id (b :: marks)).
  - eexists. reflexivity.
  - destruct (IH marks) as (rest & Hr). exists rest.
    rewrite append_cons, <- Hr. reflexivity.
Qed.

Lemma rstrip_marked_length (k : nat) (s : string) :
  forallb id (str.spaces_from k s) = false ->
  (k <= String.length (str.rstrip_marked (str.spaces_from k s) s))%nat.
Proof.
  revert k. induction s as [|c s IH]; intros k; [discriminate|].
  destruct k; [lia|]. cbn [str.spaces_from]. intros H.
  cbn [str.rstrip_marked]. rewrite H.
  cbn [forallb id andb] in H. specialize (IH k H).
  cbn [String.length]. lia.
Qed.

Lemma spaces_from_rstrip (k : nat) (s : string) :
  let r := str.rstrip_marked (str.spaces_from k s) s in
  str.spaces_from k r = take (String.length r) (str.spaces_from k s).
Proof.
  revert k. induction s as [|c s IH]; intros k; [reflexivity|].
  cbv zeta.
  destruct (forallb id (str.spaces_from k (String c s))) eqn:Hall.
  { cbn [str.spaces_from] in *.
    destruct k; [destruct (str.space_prefix (String c s))|];
      cbn [str.rstrip_marked]; rewrite Hall; reflexivity. }
  destruct k as [|k].
  - cbn [str.spaces_from] in *.
    destruct (str.space_prefix (String c s)) as [|j] eqn:E.
    + cbn [str.rstrip_marked]. rewrite Hall.
      destruct (rstrip_marked_prefix (str.spaces_from 0 s) s) as (rest & Hr).
      set (r := str.rstrip_marked (str.spaces_from 0 s) s) in *.
      cbn [str.spaces_from String.length take].
      destruct (str.space_prefix (String c r)) as [|j] eqn:E'.
      * f_equal. apply IH.
      * apply (space_prefix_app _ rest) in E'.
        rewrite append_cons, <- Hr in E'. congruence.
    + cbn [str.rstrip_marked]. rewrite Hall.
      cbn [forallb id andb] in Hall.
      pose proof (rstrip_marked_length j s Hall) as Hlen.
      destruct (rstrip_marked_prefix (str.spaces_from j s) s) as (rest & Hr).
      set (r := str.rstrip_marked (str.spaces_from j s) s) in *.
      cbn [str.spaces_from String.length take].
      rewrite (space_prefix_cut (String c r) rest j).
      * f_equal. apply IH.
      * rewrite append_cons, <- Hr. exact E.
      * cbn [String.length]. lia.
  - cbn [str.spaces_from] in *. cbn [str.rstrip_marked]. rewrite Hall.
    cbn [str.spaces_from String.length take]. f_equal. apply IH.
Qed.

Lemma split_marked_rstrip (word : string) (marks : list bool) (s : string) :
  let r := str.rstrip_marked marks s in
  str.split_marked word (take (String.length r) marks) r
    = str.split_marked word marks s.
Proof.
  revert word marks. induction s as [|c s IH]; intros word [|b marks];
    try reflexivity.
  cbv zeta. cbn [str.rstrip_marked].
  destruct (forallb id (b :: marks)) eqn:Hall.
  - rewrite (split_marked_blank word (b :: marks)) by exact Hall. reflexivity.
  - cbn [String.length take str.split_marked].
    destruct b; [destruct word|]; rewrite IH; reflexivity.
Qed.

Lemma split_rstrip (s : string) : str.split (str.rstrip s) = str.split s.
Proof.
  unfold str.split at 1. unfold str.rstrip, str.spaces.
  rewrite spaces_from_rstrip. apply split_marked_rstrip.
Qed.

Lemma split_strip (s : string) : str.split (str.strip s) = str.split s.
Proof. unfold str.strip. rewrite split_rstrip. apply split_lstrip. Qed.

Lemma isblank_lower (s : string) : isblank (str.lower s) = isblank s.
Proof.
  unfold str.lower. destruct (str.isascii s).
  - apply isblank_ascii_lower.
  - apply str.unicode_lower_blank.
Qed.

(** ** What the handlers leave alone *)

Lemma stable_user_data : stable user_data.
Proof. intros u a f t a' t'. reflexivity. Qed.

Lemma stable_favorites_file : stable favorites_file.
Proof. intros u a f t a' t'. reflexivity. Qed.

Section Keeps.

Context {X : Type} (proj : world -> X).

Lemma keeps_ret {A} (a : A) : keeps proj (mret a : M A).
Proof. intros w. reflexivity. Qed.

Lemma keeps_raise {A} (e : exn) : keeps proj (raise e : M A).
Proof. intros w. reflexivity. Qed.

Lemma keeps_bind {A B} (c : M A) (f : A -> M B) :
  keeps proj c -> (forall a, keeps proj (f a)) -> keeps proj (c ≫= f).
Proof.
  intros Hc Hf w. rewrite run_bind. specialize (Hc w).
  destruct (c w) as [[a|e] w']; cbn [snd] in *.
  - rewrite Hf. exact Hc.
  - exact Hc.
Qed.

Lemma keeps_try {A} (c : M A) (h : exn -> M A) :
  keeps proj c -> (forall e, keeps proj (h e)) -> keeps proj (try_except c h).
Proof.
  intros Hc Hh w. unfold try_except. specialize (Hc w).
  destruct (c w) as [[a|e] w']; cbn [snd] in *.
  - exact Hc.
  - rewrite Hh. exact Hc.
Qed.

Lemma keeps_get_args : keeps proj get_args.
Proof. intros w. reflexivity. Qed.

Lemma keeps_get_user_data : keeps proj get_user_data.
Proof. intros w. reflexivity. Qed.

Lemma keeps_read_file : keeps proj read_file.
Proof. intros w. reflexivity. Qed.

Hypothesis proj_stable : stable proj.

Lemma keeps_emit (e : event) : keeps proj (emit e).
Proof. intros [u a f t]. apply proj_stable. Qed.

Lemma keeps_set_args (l : list string) : keeps proj (set_args l).
Proof. intros [u a f t]. apply proj_stable. Qed.

End Keeps.

Lemma keeps_write_file (f : file) : keeps user_data (write_file f).
Proof. intros w. reflexivity. Qed.

Lemma keeps_set_user_data (d : gmap string string) :
  keeps favorites_file (set_user_data d).
Proof. intros w. reflexivity. Qed.

Create HintDb keeps.

#[local] Hint Resolve stable_user_data stable_favorites_file keeps_get_args
  keeps_get_user_data keeps_read_file keeps_emit keeps_set_args
  keeps_write_file keeps_set_user_data : keeps.

(** One layer of a computation: a bind, a handler of exceptions, a branch. *)
Ltac keeps_step :=
  match goal with
  | |- keeps _ (mret _) => apply keeps_ret
  | |- keeps _ (raise _) => apply keeps_raise
  | |- keeps _ (_ ≫= _) => apply keeps_bind; [|intros ?]
  | |- keeps _ (try_except _ _) => apply keeps_try; [|intros ?]
  | |- keeps _ (if ?b then _ else _) => destruct b
  | |- keeps _ (match ?x with _ => _ end) => destruct x
  | |- keeps _ (let _ := _ in _) => cbv zeta
  | |- keeps _ _ => solve [auto with keeps | intros ?; reflexivity]
  end.

Ltac keeps :=
  unfold reply, edit, enter, index, set_state; repeat keeps_step.

Section Handlers.

Variable tmdb : catalog.

Context {X : Type} (proj : world -> X) (proj_stable : stable proj).

Lemma keeps_load_favorites : keeps proj load_favorites.
Proof. unfold load_favorites. keeps. Qed.

Lemma keeps_start : keeps proj start.
Proof. unfold start. keeps. Qed.

Lemma keeps_help_command : keeps proj help_command.
Proof. unfold help_command. keeps. Qed.

Lemma keeps_search_movie : keeps proj (search_movie tmdb).
Proof. unfold search_movie, search_movie_by_title. keeps. Qed.

Lemma keeps_show_movie_details data : keeps proj (show_movie_details tmdb data).
Proof.
  unfold show_movie_details, get_movie_details, get_movie_trailer, get_movie_cast.
  keeps.
Qed.

Lemma keeps_search_actor : keeps proj (search_actor tmdb).
Proof. unfold search_actor, search_person, create_known_for_keyboard. keeps. Qed.

Lemma keeps_recommend_movie_by_genre : keeps proj (recommend_movie_by_genre tmdb).
Proof. unfold recommend_movie_by_genre, get_movies_by_genre. keeps. Qed.

Lemma keeps_trending_movies : keeps proj (trending_movies tmdb).
Proof. unfold trending_movies, get_trending. keeps. Qed.

Lemma keeps_add_favorite : keeps proj (add_favorite tmdb).
Proof. unfold add_favorite, search_movie_by_title. keeps. Qed.

Lemma keeps_view_favorites from_user : keeps proj (view_favorites from_user).
Proof. unfold view_favorites, load_favorites. keeps. Qed.

Lemma keeps_minta_lokasi_bioskop : keeps proj minta_lokasi_bioskop.
Proof. unfold minta_lokasi_bioskop. keeps. Qed.

Lemma keeps_bioskop_terdekat location : keeps proj (bioskop_terdekat location).
Proof. unfold bioskop_terdekat. keeps. Qed.

Lemma keeps_handle_genre_button data : keeps proj (handle_genre_button tmdb data).
Proof. unfold handle_genre_button, get_movies_by_genre. keeps. Qed.

End Handlers.

#[local] Hint Resolve keeps_load_favorites keeps_start keeps_help_command
  keeps_search_movie keeps_search_actor keeps_recommend_movie_by_genre
  keeps_trending_movies keeps_add_favorite keeps_view_favorites
  keeps_minta_lokasi_bioskop : keeps.

Lemma keeps_apply {A X} (proj : world -> X) (c : M A) (w : world) (x : X) :
  keeps proj c -> proj w = x -> proj (snd (c w)) = x.
Proof. intros Hc <-. apply Hc. Qed.

(** The session is out of reach of [save_favorite_movie], and the file out
    of reach of the text handler and of the menu buttons. *)
Lemma save_favorite_movie_session (tmdb : catalog) from_user data :
  keeps user_data (save_favorite_movie tmdb from_user data).
Proof.
  unfold save_favorite_movie, get_movie_details, save_favorites. keeps.
Qed.

Lemma text_message_handler_file (tmdb : catalog) from_user message_text :
  keeps favorites_file (text_message_handler tmdb from_user message_text).
Proof. unfold text_message_handler, create_main_menu. keeps. Qed.

Lemma handle_menu_button_file (tmdb : catalog) from_user data :
  keeps favorites_file (handle_menu_button tmdb from_user data).
Proof. unfold handle_menu_button, get_trending, create_main_menu. keeps. Qed.

(** ** The session under the text handler and the menu buttons *)

Section Router.

Variable tmdb : catalog.

(** A text message always leaves the session without a pending state. *)
Lemma text_message_handler_session (from_user : Z) (message_text : string) (w : world) :
  user_data (snd (text_message_handler tmdb from_user message_text w))
    = delete "state" (user_data w).
Proof.
  unfold text_message_handler. step.
  destruct (user_data w !! "state") as [state|] eqn:E; step.
  - apply keeps_apply; [keeps | reflexivity].
  - apply keeps_apply; [keeps |].
    cbn [user_data]. symmetry. apply delete_id, E.
Qed.

(** A menu button leaves the session alone or sets one of the three
    expectations. *)
Lemma handle_menu_button_session (from_user : Z) (data : string) (w : world) :
  user_data (snd (handle_menu_button tmdb from_user data w)) = user_data w \/
  exists state,
    expectation state /\
    user_data (snd (handle_menu_button tmdb from_user data w))
      = <["state" := state]> (user_data w).
Proof.
  unfold handle_menu_button. step.
  destruct (str.split_on "_" data !! 1%nat) as [action|]; step; [|by left].
  destruct (String.eqb action "search");
    [right; exists "search"; split; [left; done|reflexivity]|].
  destruct (String.eqb action "actor");
    [right; exists "actor"; split; [right; left; done|reflexivity]|].
  destruct (String.eqb action "favorite");
    [right; exists "favorite"; split; [right; right; done|reflexivity]|].
  left.
  match goal with
  | |- user_data (snd (match ?c ?w' with _ => _ end)) = _ =>
      change (user_data (snd (try_except c
        (fun _ => reply "❌ Terjadi kesalahan. Silakan coba lagi."
                    (Some create_error_keyboard)) w')) = user_data w)
  end.
  apply keeps_apply; [|reflexivity].
  unfold get_trending, create_main_menu. keeps.
Qed.

Lemma one_expectation_delete (d : gmap string string) :
  one_expectation d -> one_expectation (delete "state" d).
Proof.
  intros [-> | (state & -> & _)]; left.
  - apply delete_empty.
  - apply delete_singleton_eq.
Qed.

Lemma one_expectation_insert (d : gmap string string) (state : string) :
  expectation state -> one_expectation d ->
  one_expectation (<["state" := state]> d).
Proof.
  intros Hs [-> | (state' & -> & _)]; right; exists state; split; try exact Hs.
  - apply insert_empty.
  - apply insert_singleton_eq.
Qed.

Lemma handler_of_session (u : update) (h : M unit) (w : world) :
  handler_of tmdb u = Some h ->
  one_expectation (user_data w) ->
  one_expectation (user_data (snd (h w))).
Proof.
  intros Hh Hw. destruct u as [from_user message_text | from_user command command_args
                              | from_user data | from_user latitude longitude];
    cbn [handler_of] in Hh.
  - injection Hh as <-. rewrite text_message_handler_session.
    apply one_expectation_delete, Hw.
  - repeat match type of Hh with
           | (if ?b then _ else _) = _ => destruct b
           end;
      try discriminate; injection Hh as <-;
      (rewrite keeps_apply with (x := user_data w);
       [exact Hw | auto with keeps | reflexivity]).
  - repeat match type of Hh with
           | (if ?b then _ else _) = _ => destruct b
           end;
      try discriminate; injection Hh as <-.
    + rewrite (keeps_show_movie_details tmdb user_data stable_user_data). exact Hw.
    + rewrite (save_favorite_movie_session tmdb). exact Hw.
    + destruct (handle_menu_button_session from_user data w)
        as [-> | (state & Hs & ->)]; [exact Hw|].
      apply one_expectation_insert; assumption.
    + rewrite (keeps_handle_genre_button tmdb user_data stable_user_data). exact Hw.
  - injection Hh as <-.
    rewrite (keeps_bioskop_terdekat user_data stable_user_data). exact Hw.
Qed.

Lemma process_update_sessions_ok (u : update) (b : bot) :
  sessions_ok b -> sessions_ok (process_update tmdb u b).
Proof.
  intros Hb. unfold process_update.
  destruct (handler_of tmdb u) as [h|] eqn:Hh; [|exact Hb].
  intros from_user d. cbn [sessions].
  destruct (decide (sender u = from_user)) as [<- | Hne].
  - rewrite lookup_insert_eq. intros [= <-].
    apply (handler_of_session u h); [exact Hh|]. cbn [user_data].
    destruct (sessions b !! sender u) as [d|] eqn:E; cbn [default].
    + apply (Hb _ _ E).
    + left. reflexivity.
  - rewrite lookup_insert_ne by exact Hne. apply Hb.
Qed.

Lemma process_updates_sessions_ok (us : list update) (b : bot) :
  sessions_ok b -> sessions_ok (process_updates tmdb us b).
Proof.
  revert b. induction us as [|u us IH]; intros b Hb; [exact Hb|].
  apply IH, process_update_sessions_ok, Hb.
Qed.

(** *** The handlers on the paths of the router *)

Lemma handle_menu_button_search (from_user : Z) (w : world) :
  handle_menu_button tmdb from_user "menu_search" w =
    (Return tt,
     {| user_data := <["state" := "search"]> (user_data w);
        args := args w;
        favorites_file := favorites_file w;
        trace := trace w ++
          [ Enter h_handle_menu_button (args w); answer;
            reply_text "🔍 Ketik judul film yang ingin dicari:" None ] |}).
Proof.
  unfold handle_menu_button. step.
  change (str.split_on "_" "menu_search" !! 1%nat) with (Some "search").
  step. cbn [String.eqb Ascii.eqb Bool.eqb]. step.
  rewrite <- !app_assoc. reflexivity.
Qed.

Lemma search_movie_run (w : world) :
  let query := str.join " " (args w) in
  str.truthy query = true ->
  search_movie tmdb w =
    (Return tt,
     with_trace w
       (trace w ++
          [ Enter h_search_movie (args w);
            requests_get "search/movie" [("query", query)];
            search_reply tmdb query ])).
Proof.
  intros query Hq. unfold search_movie, search_movie_by_title, search_reply.
  step. fold query. rewrite Hq. cbn [negb]. step.
  destruct (search_movie_results tmdb query); step;
    unfold with_trace; rewrite <- !app_assoc; reflexivity.
Qed.

Lemma text_message_handler_pending_search
  (from_user : Z) (message_text : string) (w : world) :
  pending (user_data w) = Some "search" ->
  isblank message_text = false ->
  text_message_handler tmdb from_user message_text w =
    search_movie tmdb
      {| user_data := delete "state" (user_data w);
         args := str.split (str.strip (str.lower message_text));
         favorites_file := favorites_file w;
         trace := trace w ++ [Enter h_text_message_handler (args w)] |}.
Proof.
  unfold pending. intros Hs Hb. unfold text_message_handler. step.
  rewrite Hs. step. cbn [String.eqb Ascii.eqb Bool.eqb].
  rewrite strip_nonblank by (rewrite isblank_lower; exact Hb).
  step. reflexivity.
Qed.

(** The answer to a prompt goes to the handler of the pending state, which
    runs in a session without that state. *)
Lemma text_message_handler_pending
  (from_user : Z) (message_text state : string) (w : world) :
  pending (user_data w) = Some state ->
  expectation state ->
  isblank message_text = false ->
  text_message_handler tmdb from_user message_text w =
    answer_handler tmdb state
      {| user_data := delete "state" (user_data w);
         args := str.split (str.strip (str.lower message_text));
         favorites_file := favorites_file w;
         trace := trace w ++ [Enter h_text_message_handler (args w)] |}.
Proof.
  unfold pending. intros Hs Hst Hb. unfold text_message_handler. step.
  rewrite Hs. step.
  rewrite strip_nonblank by (rewrite isblank_lower; exact Hb).
  destruct Hst as [-> | [-> | ->]]; reflexivity.
Qed.

Lemma text_message_handler_blank
  (from_user : Z) (message_text state : string) (w : world) :
  pending (user_data w) = Some state ->
  expectation state ->
  isblank message_text = true ->
  text_message_handler tmdb from_user message_text w =
    (Return tt,
     {| user_data := delete "state" (user_data w);
        args := args w;
        favorites_file := favorites_file w;
        trace := trace w ++
          [ Enter h_text_message_handler (args w);
            reply_text (validation_message state) (Some create_error_keyboard) ] |}).
Proof.
  unfold pending. intros Hs Hst Hb. unfold text_message_handler. step.
  rewrite Hs. step.
  rewrite strip_blank by (rewrite isblank_lower; exact Hb).
  destruct Hst as [-> | [-> | ->]];
    cbn [String.eqb Ascii.eqb Bool.eqb str.truthy]; step;
    rewrite <- !app_assoc; reflexivity.
Qed.

End Router.

(** ** The one-shot expectation *)

Lemma session_process_update (tmdb : catalog) (u : update) (h : M unit) (b : bot) :
  handler_of tmdb u = Some h ->
  process_update tmdb u b =
    let w' := snd (h (fresh (session b (sender u)) (initial_args u) (storage b))) in
    {| sessions := <[sender u := user_data w']> (sessions b);
       storage := favorites_file w';
       history := history b ++ trace w' |}.
Proof. intros Hh. unfold process_update. rewrite Hh. reflexivity. Qed.

Lemma session_insert (b : bot) (from_user : Z) (d : gmap string string)
  (f : file) (t : list event) :
  session {| sessions := <[from_user := d]> (sessions b);
             storage := f; history := t |} from_user = d.
Proof. unfold session. cbn [sessions]. rewrite lookup_insert_eq. reflexivity. Qed.

(** C1: in every state the bot can reach, each session holds at most one
    pending expectation, one of 'search', 'actor', 'favorite'; a text
    message always leaves the sender's session without one, whether the
    handler it reaches returns or raises; the handler awaited by a pending
    expectation runs in a session from which the expectation is already
    gone ([search_actor] can raise [KeyError], and the session it leaves is
    the one it got); and after the menu button "search" and a text that is
    not blank, the search handler is entered with the words of the lowered
    text, searches for them, and the session ends Idle. *)
Theorem pending_expectation_one_shot
  (tmdb : catalog) (f : file) (us : list update) (b : bot)
  (from_user : Z) (message_text : string) :
  sessions_ok (process_updates tmdb us (initial_bot f)) /\
  pending (session (process_update tmdb (Message from_user message_text) b)
             from_user) = None /\
  (forall (w : world) (state : string),
     pending (user_data w) = Some state ->
     expectation state ->
     isblank message_text = false ->
     text_message_handler tmdb from_user message_text w =
       answer_handler tmdb state
         {| user_data := delete "state" (user_data w);
            args := str.split (str.strip (str.lower message_text));
            favorites_file := favorites_file w;
            trace := trace w ++ [Enter h_text_message_handler (args w)] |}) /\
  (isblank message_text = false ->
   let b1 := process_update tmdb (CallbackQuery from_user "menu_search") b in
   let b2 := process_update tmdb (Message from_user message_text) b1 in
   let words := str.split (str.strip (str.lower message_text)) in
   let query := str.join " " words in
   let idle := delete "state" (session b1 from_user) in
   pending (session b1 from_user) = Some "search" /\
   pending idle = None /\
   history b2 =
     history b1 ++ Enter h_text_message_handler [] ::
       trace (snd (search_movie tmdb (fresh idle words (storage b)))) /\
   history b2 =
     history b ++
       [ Enter h_handle_menu_button []; answer;
         reply_text "🔍 Ketik judul film yang ingin dicari:" None;
         Enter h_text_message_handler [];
         Enter h_search_movie words;
         requests_get "search/movie" [("query", query)];
         search_reply tmdb query ] /\
   pending (session b2 from_user) = None).
Proof.
  split; [|split; [|split]].
  - apply process_updates_sessions_ok. intros u d. cbn. by rewrite lookup_empty.
  - rewrite (session_process_update tmdb (Message from_user message_text)
               (text_message_handler tmdb from_user message_text) b eq_refl).
    cbv zeta. cbn [sender].
    rewrite session_insert, text_message_handler_session.
    apply lookup_delete_eq.
  - intros w state Hp Hs Hb. apply text_message_handler_pending; assumption.
  - intros Hb b1 b2 words query idle.
    assert (Hb1 : b1 =
      {| sessions := <[from_user := <["state" := "search"]> (session b from_user)]>
                       (sessions b);
         storage := storage b;
         history := history b ++
           [ Enter h_handle_menu_button []; answer;
             reply_text "🔍 Ketik judul film yang ingin dicari:" None ] |}).
    { unfold b1.
      rewrite (session_process_update tmdb (CallbackQuery from_user "menu_search")
                 (handle_menu_button tmdb from_user "menu_search") b eq_refl).
      cbn [sender initial_args]. cbv zeta.
      rewrite handle_menu_button_search. reflexivity. }
    assert (Hs1 : session b1 from_user = <["state" := "search"]> (session b from_user)).
    { rewrite Hb1. apply session_insert. }
    assert (Hp1 : pending (session b1 from_user) = Some "search").
    { rewrite Hs1. apply lookup_insert_eq. }
    assert (Hq : str.truthy query = true).
    { unfold query, words. rewrite split_strip. apply join_split_nonblank.
      rewrite isblank_lower. exact Hb. }
    assert (Hb2 : b2 =
      let w' := snd (search_movie tmdb
                  {| user_data := idle; args := words; favorites_file := storage b1;
                     trace := [Enter h_text_message_handler []] |}) in
      {| sessions := <[from_user := user_data w']> (sessions b1);
         storage := favorites_file w';
         history := history b1 ++ trace w' |}).
    { unfold b2.
      rewrite (session_process_update tmdb (Message from_user message_text)
                 (text_message_handler tmdb from_user message_text) b1 eq_refl).
      cbn [sender initial_args]. cbv zeta.
      rewrite text_message_handler_pending_search by assumption.
      reflexivity. }
    assert (Hst : storage b1 = storage b) by (rewrite Hb1; reflexivity).
    split; [exact Hp1|]. split; [apply lookup_delete_eq|].
    rewrite Hb2. cbv zeta. rewrite !search_movie_run by exact Hq.
    cbn [snd with_trace trace history args user_data fresh].
    fold query. rewrite session_insert.
    split; [reflexivity|]. split; [|apply lookup_delete_eq].
    rewrite Hb1. cbn [history]. rewrite <- !app_assoc. reflexivity.
Qed.

(** C2: in any of the three awaiting states, a whitespace-only text (of the
    whitespace characters that [strip] removes, those beyond ASCII
    included, or empty) gets the validation message of that state ("...
    tidak boleh kosong") and nothing else: no handler other than the text
    handler is entered, no request is made, the favorites file is not
    touched, and the session is left Idle. *)
Theorem blank_answer_resets
  (tmdb : catalog) (b : bot) (from_user : Z) (message_text state : string) :
  pending (session b from_user) = Some state ->
  expectation state ->
  isblank message_text = true ->
  let b' := process_update tmdb (Message from_user message_text) b in
  let new :=
    [ Enter h_text_message_handler [];
      reply_text (validation_message state) (Some create_error_keyboard) ] in
  history b' = history b ++ new /\
  entered new = [(h_text_message_handler, [])] /\
  pending (session b' from_user) = None /\
  storage b' = storage b.
Proof.
  intros Hp Hs Hb b' new.
  assert (Hb' : b' =
    {| sessions := <[from_user := delete "state" (session b from_user)]> (sessions b);
       storage := storage b;
       history := history b ++ new |}).
  { unfold b'.
    rewrite (session_process_update tmdb (Message from_user message_text)
               (text_message_handler tmdb from_user message_text) b eq_refl).
    cbn [sender initial_args]. cbv zeta.
    rewrite (text_message_handler_blank tmdb from_user message_text state)
      by assumption.
    reflexivity. }
  rewrite Hb'. cbn [history storage]. repeat split.
  rewrite session_insert. apply lookup_delete_eq.
Qed.

(** ** The handlers a computation enters *)

Lemma entered_app (t1 t2 : list event) :
  entered (t1 ++ t2) = entered t1 ++ entered t2.
Proof. apply omap_app. Qed.

Lemma writes_app (t1 t2 : list event) :
  writes (t1 ++ t2) = writes t1 ++ writes t2.
Proof. apply omap_app. Qed.

(** Closed calls of the [str] methods are replaced by their values. *)
Ltac eval_str :=
  repeat match goal with
    | |- context [str.lower ?s] =>
        let v := eval vm_compute in (str.lower s) in
        progress change (str.lower s) with v
    | |- context [str.contains ?a ?s] =>
        let v := eval vm_compute in (str.contains a s) in
        progress change (str.contains a s) with v
    | |- context [str.replace ?a ?b ?s] =>
        let v := eval vm_compute in (str.replace a b s) in
        progress change (str.replace a b s) with v
    | |- context [str.strip ?s] =>
        let v := eval vm_compute in (str.strip s) in
        progress change (str.strip s) with v
    | |- context [str.split ?s] =>
        let v := eval vm_compute in (str.split s) in
        progress change (str.split s) with v
    | |- context [str.truthy ?s] =>
        let v := eval vm_compute in (str.truthy s) in
        progress change (str.truthy s) with v
    end;
  cbn [orb andb negb].

(** Case analysis on a scrutinee that holds no other case analysis. *)
Ltac innermost_case :=
  match goal with
  | |- context [match ?x with _ => _ end] =>
      lazymatch x with
      | context [match _ with _ => _ end] => fail
      | _ => destruct x
      end
  end.

Section Entered.

Variable tmdb : catalog.

Ltac enters_itself :=
  intros w; step;
  repeat (innermost_case; step);
  rewrite ?entered_app; cbn [entered omap]; rewrite ?app_nil_r; reflexivity.

Lemma enters_search_movie : enters_itself h_search_movie (search_movie tmdb).
Proof. unfold search_movie, search_movie_by_title. enters_itself. Qed.

Lemma enters_search_actor : enters_itself h_search_actor (search_actor tmdb).
Proof. unfold search_actor, search_person, create_known_for_keyboard. enters_itself. Qed.

Lemma enters_add_favorite : enters_itself h_add_favorite (add_favorite tmdb).
Proof. unfold add_favorite, search_movie_by_title. enters_itself. Qed.

Lemma enters_recommend_movie_by_genre :
  enters_itself h_recommend_movie_by_genre (recommend_movie_by_genre tmdb).
Proof. unfold recommend_movie_by_genre, get_movies_by_genre. enters_itself. Qed.

Lemma enters_trending_movies :
  enters_itself h_trending_movies (trending_movies tmdb).
Proof. unfold trending_movies, get_trending. enters_itself. Qed.

Lemma enters_view_favorites from_user :
  enters_itself h_view_favorites (view_favorites from_user).
Proof. unfold view_favorites, load_favorites. enters_itself. Qed.

Lemma enters_minta_lokasi_bioskop :
  enters_itself h_minta_lokasi_bioskop minta_lokasi_bioskop.
Proof. unfold minta_lokasi_bioskop. enters_itself. Qed.

Lemma enters_help_command : enters_itself h_help_command help_command.
Proof. unfold help_command. enters_itself. Qed.

Lemma enters_start : enters_itself h_start start.
Proof. unfold start. enters_itself. Qed.

End Entered.

(** ** The genre intent *)

Lemma text_message_handler_genre (tmdb : catalog) (from_user : Z) (w : world) :
  pending (user_data w) = None ->
  text_message_handler tmdb from_user "genre" w =
    (Return tt,
     with_trace w
       (trace w ++
          [ Enter h_text_message_handler (args w);
            reply_text (genres_prompt tmdb) (Some create_error_keyboard) ])).
Proof.
  unfold pending. intros Hp. unfold text_message_handler. step. rewrite Hp.
  eval_str. step. unfold with_trace. rewrite <- !app_assoc. reflexivity.
Qed.

Lemma text_message_handler_genre_action (tmdb : catalog) (from_user : Z) (w : world) :
  pending (user_data w) = None ->
  text_message_handler tmdb from_user "genre action" w =
    recommend_movie_by_genre tmdb
      {| user_data := user_data w; args := ["action"];
         favorites_file := favorites_file w;
         trace := trace w ++ [Enter h_text_message_handler (args w)] |}.
Proof.
  unfold pending. intros Hp. unfold text_message_handler. step. rewrite Hp.
  eval_str. step. reflexivity.
Qed.

Lemma text_message_handler_unrecognized (tmdb : catalog) (from_user : Z) (w : world) :
  pending (user_data w) = None ->
  text_message_handler tmdb from_user "halo" w =
    (Return tt,
     with_trace w (trace w ++ [Enter h_text_message_handler (args w); fallback])).
Proof.
  unfold pending. intros Hp. unfold text_message_handler. step. rewrite Hp.
  eval_str. unfold create_main_menu. step.
  unfold with_trace. rewrite <- !app_assoc. reflexivity.
Qed.

Lemma prefix_append (sub s : string) : String.prefix sub (sub +:+ s) = true.
Proof.
  induction sub as [|c sub IH]; [by destruct s|].
  change (String c sub +:+ s) with (String c (sub +:+ s)).
  cbn [String.prefix]. destruct (ascii_dec c c); [exact IH | done].
Qed.

Lemma contains_prefix (sub s : string) :
  String.prefix sub s = true -> str.contains sub s = true.
Proof. intros H. destruct s; cbn [str.contains]; rewrite H; reflexivity. Qed.

Lemma contains_append_r (sub a s : string) :
  str.contains sub s = true -> str.contains sub (a +:+ s) = true.
Proof.
  intros H. induction a as [|c a IH]; [exact H|].
  change (String c a +:+ s) with (String c (a +:+ s)).
  cbn [str.contains]. rewrite IH. apply orb_true_r.
Qed.

(** C5: for an Idle user, the text "genre" gets the prompt that lists the
    genres, with the error keyboard, and enters no handler; this reply is not
    the fallback reply that an unrecognized text gets; the text "genre action"
    enters the genre handler with the argument "action". *)
Theorem genre_without_argument_prompts (tmdb : catalog) (b : bot) (from_user : Z) :
  pending (session b from_user) = None ->
  let prompt := reply_text (genres_prompt tmdb) (Some create_error_keyboard) in
  history (process_update tmdb (Message from_user "genre") b)
    = history b ++ [Enter h_text_message_handler []; prompt] /\
  history (process_update tmdb (Message from_user "halo") b)
    = history b ++ [Enter h_text_message_handler []; fallback] /\
  prompt <> fallback /\
  str.contains "Genre yang tersedia: " (genres_prompt tmdb) = true /\
  entered (history (process_update tmdb (Message from_user "genre action") b))
    = entered (history b) ++
        [ (h_text_message_handler, []); (h_recommend_movie_by_genre, ["action"]) ].
Proof.
  intros Hp prompt.
  rewrite (session_process_update tmdb (Message from_user "genre")
             (text_message_handler tmdb from_user "genre") b eq_refl).
  rewrite (session_process_update tmdb (Message from_user "halo")
             (text_message_handler tmdb from_user "halo") b eq_refl).
  rewrite (session_process_update tmdb (Message from_user "genre action")
             (text_message_handler tmdb from_user "genre action") b eq_refl).
  cbv zeta. cbn [sender initial_args].
  rewrite text_message_handler_genre, text_message_handler_unrecognized,
    text_message_handler_genre_action by exact Hp.
  cbn [snd with_trace trace history fresh args].
  split; [reflexivity|]. split; [reflexivity|]. split; [|split].
  - unfold prompt, fallback, create_error_keyboard, main_menu_keyboard.
    intros H. injection H as _ H. discriminate H.
  - unfold genres_prompt. cbv zeta.
    do 4 apply contains_append_r. apply contains_prefix, prefix_append.
  - rewrite entered_app, enters_recommend_movie_by_genre. reflexivity.
Qed.

(** ** The genre submenu and the genre prompt *)

Lemma list_pair_ind {A} (P : list A -> Prop) :
  P [] -> (forall a, P [a]) -> (forall a b l, P l -> P (a :: b :: l)) ->
  forall l, P l.
Proof.
  intros H0 H1 H2 l.
  enough (P l /\ forall a, P (a :: l)) by tauto.
  induction l as [|b l [IH1 IH2]]; split; auto.
Qed.

Lemma concat_pairs {A} (l : list A) : concat (pairs l) = l.
Proof.
  induction l as [|a|a b l IH] using list_pair_ind; [done..|].
  cbn [pairs concat app]. by rewrite IH.
Qed.

Lemma pairs_rows {A} (l : list A) :
  Forall (fun row => (1 <= length row <= 2)%nat) (pairs l).
Proof.
  induction l as [|a|a b l IH] using list_pair_ind; cbn [pairs].
  - constructor.
  - repeat constructor.
  - constructor; [cbn; lia | exact IH].
Qed.

Lemma length_pairs {A} (l : list A) :
  length (pairs l) = Nat.div2 (length l + 1).
Proof.
  induction l as [|a|a b l IH] using list_pair_ind; [done..|].
  cbn [pairs length]. rewrite IH.
  replace (S (S (length l)) + 1)%nat with (S (S (length l + 1))) by lia.
  reflexivity.
Qed.

(** The rows that the loop over [range(0, len, 2)] builds from index [2k]
    on are the rest of the list, two by two. *)
Lemma genre_rows_from (rest pre : list string) (k : nat) :
  length pre = (2 * k)%nat ->
  map (genre_row (pre ++ rest))
      (map (fun j => 2 * j)%nat (seq k (Nat.div2 (length rest + 1))))
    = map (map genre_button) (pairs rest).
Proof.
  revert pre k.
  induction rest as [|a|a b rest IH] using list_pair_ind; intros pre k Hk.
  - reflexivity.
  - cbn [length Nat.add Nat.div2 seq map pairs]. f_equal.
    unfold genre_row. rewrite <- Hk, list_lookup_middle by reflexivity.
    rewrite bool_decide_eq_false_2; [reflexivity|].
    rewrite length_app. cbn [length]. lia.
  - replace (length (a :: b :: rest) + 1)%nat
      with (S (S (length rest + 1))) by (cbn [length]; lia).
    cbn [Nat.div2 seq map pairs]. f_equal.
    + unfold genre_row. rewrite <- Hk, list_lookup_middle by reflexivity.
      rewrite bool_decide_eq_true_2 by (rewrite length_app; cbn [length]; lia).
      replace (pre ++ a :: b :: rest) with ((pre ++ [a]) ++ b :: rest)
        by (rewrite <- app_assoc; reflexivity).
      rewrite list_lookup_middle by (rewrite length_app; cbn [length]; lia).
      reflexivity.
    + replace (pre ++ a :: b :: rest) with ((pre ++ [a; b]) ++ rest)
        by (rewrite <- app_assoc; reflexivity).
      apply IH. rewrite length_app. cbn [length]. lia.
Qed.

Lemma genre_rows (l : list string) :
  map (genre_row l) (range2 (length l)) = map (map genre_button) (pairs l).
Proof. apply (genre_rows_from l [] 0). reflexivity. Qed.

(** C9: the genre submenu holds one button for each of the first ten keys of
    the genre table, in order and in rows of at most two, before its Back
    row; the genre prompt lists the same keys, capitalized; ten entries at
    most, whatever the length of the table. *)
Theorem genres_capped_at_ten (tmdb : catalog) :
  let shown := take 10 (dict.keys (GENRES tmdb)) in
  length shown = Nat.min 10 (length (GENRES tmdb)) /\
  (length shown <= 10)%nat /\
  (exists rows,
     genres_keyboard tmdb
       = InlineKeyboardMarkup
           (rows ++ [[ {| text := "⬅️ Kembali"; callback_data := "menu_main" |} ]]) /\
     concat rows = map genre_button shown /\
     Forall (fun row => (1 <= length row <= 2)%nat) rows) /\
  genres_prompt tmdb
    = "🏷️ Silakan tentukan genre film:" +:+ nl +:+ "Contoh: genre action" +:+ nl
        +:+ "Genre yang tersedia: " +:+ str.join ", " (map str.capitalize shown).
Proof.
  intros shown.
  assert (Hlen : length shown = Nat.min 10 (length (GENRES tmdb))).
  { unfold shown, dict.keys. rewrite length_take, length_map. reflexivity. }
  split; [exact Hlen|]. split; [lia|]. split; [|reflexivity].
  exists (map (map genre_button) (pairs shown)). split; [|split].
  - unfold genres_keyboard. cbv zeta. fold shown. rewrite genre_rows. reflexivity.
  - rewrite <- (concat_pairs shown) at 2. symmetry. apply concat_map.
  - apply Forall_map. eapply Forall_impl; [apply pairs_rows|].
    intros row Hrow. cbn. rewrite length_map. exact Hrow.
Qed.

(** ** Saving a favorite *)

Lemma copies_app (title : string) (l1 l2 : list string) :
  copies title (l1 ++ l2) = copies title l1 ++ copies title l2.
Proof. apply filter_app. Qed.

Lemma copies_present (title : string) (favs : list string) :
  str.lower title ∈ map str.lower favs <-> (0 < length (copies title favs))%nat.
Proof.
  unfold copies. induction favs as [|fav favs IH]; cbn [map].
  - split; [intros H; inversion H | cbn; lia].
  - rewrite filter_cons. rewrite elem_of_cons, IH.
    destruct (decide (str.lower fav = str.lower title)) as [E|E]; cbn [length].
    + split; [lia | auto].
    + split; [intros [H | H]; [congruence | exact H] | auto].
Qed.

Section Save.

Variable tmdb : catalog.

Lemma load_favorites_run (w : world) (favorites : gmap string (list string)) :
  fst (load_favorites w) = Return favorites ->
  load_favorites w = (Return favorites, w) /\
  (favorites_file w = Stored favorites \/
   favorites_file w = Absent /\ favorites = ∅).
Proof.
  unfold load_favorites. step.
  destruct (favorites_file w); cbn; intros [= <-] || intros [=]; auto.
Qed.

(** The two outcomes of [save_favorite_movie] on a movie the catalog knows
    and a file that loads. *)
Lemma save_favorite_movie_run
  (from_user : Z) (data movie_id : string) (movie : details) (w : world)
  (favorites : gmap string (list string)) :
  str.split_on "_" data !! 1%nat = Some movie_id ->
  movie_details tmdb movie_id = Some movie ->
  fst (load_favorites w) = Return favorites ->
  let movie_title := default "Unknown" (details_title movie) in
  let user_id := pretty from_user in
  let favs := default [] (favorites !! user_id) in
  let before :=
    [ Enter h_save_favorite_movie (args w); answer;
      requests_get ("movie/" +:+ movie_id) [] ] in
  save_favorite_movie tmdb from_user data w =
    if bool_decide (str.lower movie_title ∈ map str.lower favs) then
      (Return tt,
       with_trace w
         (trace w ++ before ++
            [ edit_message_text
                ("❌ '" +:+ movie_title +:+ "' sudah ada di daftar favorit Anda.")
                (Some create_error_keyboard) ]))
    else
      let stored := <[user_id := favs ++ [movie_title]]> favorites in
      (Return tt,
       {| user_data := user_data w; args := args w;
          favorites_file := Stored stored;
          trace := trace w ++ before ++
            [ json_dump stored;
              edit_message_text
                ("✅ '" +:+ movie_title +:+ "' telah ditambahkan ke daftar favorit Anda.")
                (Some create_error_keyboard) ] |}).
Proof.
  intros Hid Hm Hload movie_title user_id favs before.
  destruct (load_favorites_run w favorites Hload) as [Hrun Hfile].
  unfold save_favorite_movie, get_movie_details. step.
  rewrite Hid. step. rewrite Hm.
  rewrite run_bind.
  assert (Hrun' : forall t, load_favorites (with_trace w t)
                            = (Return favorites, with_trace w t)).
  { intros t. unfold load_favorites, with_trace. step.
    destruct Hfile as [Hf | [Hf ->]]; rewrite Hf; reflexivity. }
  match goal with
  | |- context [load_favorites ?w'] => change w' with (with_trace w (trace w'))
  end.
  rewrite Hrun'. cbn [trace]. cbv zeta.
  fold user_id.
  assert (Hfavs : default [] ((match favorites !! user_id with
                               | Some _ => favorites
                               | None => <[user_id := []]> favorites
                               end) !! user_id) = favs).
  { unfold favs. destruct (favorites !! user_id) eqn:E.
    - rewrite E. reflexivity.
    - rewrite lookup_insert_eq. reflexivity. }
  rewrite Hfavs. fold movie_title.
  destruct (bool_decide (str.lower movie_title ∈ map str.lower favs)).
  - step. unfold with_trace. cbn [user_data args favorites_file trace].
    rewrite <- !app_assoc. reflexivity.
  - assert (Hins : <[user_id := favs ++ [movie_title]]>
                     (match favorites !! user_id with
                      | Some _ => favorites
                      | None => <[user_id := []]> favorites
                      end)
                   = <[user_id := favs ++ [movie_title]]> favorites).
    { destruct (favorites !! user_id); [reflexivity | apply insert_insert_eq]. }
    rewrite Hins. unfold save_favorites, with_trace. step.
    destruct Hfile as [Hf | [Hf _]]; rewrite Hf; step;
      rewrite <- !app_assoc; reflexivity.
Qed.

(** After a save of a known movie on a file that loads, the file is stored
    and holds the title, once if it held it at most once before. *)
Lemma save_favorite_movie_stores
  (from_user : Z) (data movie_id : string) (movie : details) (w : world)
  (favorites : gmap string (list string)) :
  str.split_on "_" data !! 1%nat = Some movie_id ->
  movie_details tmdb movie_id = Some movie ->
  fst (load_favorites w) = Return favorites ->
  let movie_title := default "Unknown" (details_title movie) in
  let user_id := pretty from_user in
  (length (copies movie_title (default [] (favorites !! user_id))) <= 1)%nat ->
  exists stored,
    favorites_file (snd (save_favorite_movie tmdb from_user data w)) = Stored stored /\
    str.lower movie_title ∈ map str.lower (default [] (stored !! user_id)) /\
    length (copies movie_title (default [] (stored !! user_id))) = 1%nat.
Proof.
  intros Hid Hm Hload movie_title user_id Hone.
  set (favs := default [] (favorites !! user_id)) in *.
  pose proof (save_favorite_movie_run from_user data movie_id movie w favorites
                Hid Hm Hload) as Hrun.
  cbv zeta in Hrun. fold movie_title user_id favs in Hrun.
  destruct (load_favorites_run w favorites Hload) as [_ Hfile].
  destruct (decide (str.lower movie_title ∈ map str.lower favs)) as [Hin | Hout].
  - rewrite bool_decide_eq_true_2 in Hrun by exact Hin.
    exists favorites. rewrite Hrun. cbn [snd with_trace favorites_file].
    destruct Hfile as [Hf | [_ He]].
    + split; [exact Hf|]. fold favs. split; [exact Hin|].
      apply copies_present in Hin. lia.
    + exfalso. unfold favs in Hin. rewrite He, lookup_empty in Hin.
      inversion Hin.
  - rewrite bool_decide_eq_false_2 in Hrun by exact Hout.
    exists (<[user_id := favs ++ [movie_title]]> favorites).
    rewrite Hrun. cbn [snd favorites_file].
    split; [reflexivity|].
    rewrite lookup_insert_eq. cbn [default from_option id]. split.
    + rewrite map_app. apply elem_of_app. right. cbn. left.
    + rewrite copies_app, length_app.
      assert (length (copies movie_title favs) = 0%nat) as ->.
      { rewrite copies_present in Hout. lia. }
      unfold copies. rewrite filter_cons_True by reflexivity. reflexivity.
Qed.

(** A save of a title that the stored list holds, in some casing, answers
    that it is there, and changes nothing but the trace. *)
Lemma save_favorite_movie_again
  (from_user : Z) (data movie_id : string) (movie : details) (w : world)
  (stored : gmap string (list string)) :
  str.split_on "_" data !! 1%nat = Some movie_id ->
  movie_details tmdb movie_id = Some movie ->
  favorites_file w = Stored stored ->
  let movie_title := default "Unknown" (details_title movie) in
  str.lower movie_title
    ∈ map str.lower (default [] (stored !! pretty from_user)) ->
  save_favorite_movie tmdb from_user data w =
    (Return tt,
     with_trace w
       (trace w ++
          [ Enter h_save_favorite_movie (args w); answer;
            requests_get ("movie/" +:+ movie_id) [];
            edit_message_text
              ("❌ '" +:+ movie_title +:+ "' sudah ada di daftar favorit Anda.")
              (Some create_error_keyboard) ])).
Proof.
  intros Hid Hm Hf movie_title Hin.
  assert (Hload : fst (load_favorites w) = Return stored).
  { unfold load_favorites. step. rewrite Hf. reflexivity. }
  pose proof (save_favorite_movie_run from_user data movie_id movie w stored
                Hid Hm Hload) as Hrun.
  cbv zeta in Hrun. fold movie_title in Hrun.
  rewrite bool_decide_eq_true_2 in Hrun by exact Hin.
  exact Hrun.
Qed.

(** [save_favorite_movie] keeps the favorites file free of duplicates. *)
Lemma save_favorite_movie_file_ok (from_user : Z) (data : string) (w : world) :
  file_ok (favorites_file w) ->
  file_ok (favorites_file (snd (save_favorite_movie tmdb from_user data w))).
Proof.
  intros Hok.
  destruct (str.split_on "_" data !! 1%nat) as [movie_id|] eqn:Hid;
    [destruct (movie_details tmdb movie_id) as [movie|] eqn:Hm|].
  - assert (Hload : exists favorites,
               fst (load_favorites w) = Return favorites /\
               forall user_id favs,
                 favorites !! user_id = Some favs -> no_duplicates favs).
    { unfold load_favorites. step.
      destruct (favorites_file w) as [| |raw|favorites]; try done.
      - exists ∅. split; [reflexivity|]. intros u l. by rewrite lookup_empty.
      - exists favorites. split; [reflexivity | exact Hok]. }
    destruct Hload as (favorites & Hload & Hnd).
    rewrite (save_favorite_movie_run from_user data movie_id movie w favorites
               Hid Hm Hload).
    cbv zeta. destruct (decide (str.lower (default "Unknown" (details_title movie))
                         ∈ map str.lower (default [] (favorites !! pretty from_user))))
      as [Hin | Hout].
    + rewrite bool_decide_eq_true_2 by exact Hin. exact Hok.
    + rewrite bool_decide_eq_false_2 by exact Hout.
      cbn [snd favorites_file file_ok]. intros user_id favs.
      destruct (decide (pretty from_user = user_id)) as [<- | Hne].
      * rewrite lookup_insert_eq. intros [= <-].
        unfold no_duplicates. rewrite map_app. apply NoDup_app.
        split; [|split].
        -- destruct (favorites !! pretty from_user) as [l|] eqn:E;
             cbn [default from_option id]; [apply (Hnd _ _ E) | constructor].
        -- intros x Hx Hx'. cbn in Hx'. apply list_elem_of_singleton in Hx'.
           subst x. exact (Hout Hx).
        -- cbn. apply NoDup_singleton.
      * rewrite lookup_insert_ne by exact Hne. apply Hnd.
  - unfold save_favorite_movie, get_movie_details. step. rewrite Hid. step.
    rewrite Hm. step. exact Hok.
  - unfold save_favorite_movie. step. rewrite Hid. step. exact Hok.
Qed.

End Save.

Lemma no_duplicates_copies (title : string) (favs : list string) :
  no_duplicates favs -> (length (copies title favs) <= 1)%nat.
Proof.
  unfold no_duplicates, copies. induction favs as [|fav favs IH]; [cbn; lia|].
  cbn [map]. intros [Hfav Hnd]%NoDup_cons. rewrite filter_cons.
  destruct (decide (str.lower fav = str.lower title)) as [E|E]; [|auto].
  cbn [length].
  enough (length (filter (fun fav => str.lower fav = str.lower title) favs) = 0%nat)
    by lia.
  destruct (filter _ favs) as [|x l] eqn:Ef; [reflexivity|]. exfalso.
  assert (Hx : x ∈ filter (fun fav => str.lower fav = str.lower title) favs)
    by (rewrite Ef; left).
  apply list_elem_of_filter in Hx as [Hx1 Hx2].
  apply Hfav. rewrite E, <- Hx1. apply list_elem_of_fmap_2, Hx2.
Qed.

(** ** The favorites file under the updates *)

Lemma handler_of_file_ok (tmdb : catalog) (u : update) (h : M unit) (w : world) :
  handler_of tmdb u = Some h ->
  file_ok (favorites_file w) ->
  file_ok (favorites_file (snd (h w))).
Proof.
  intros Hh Hw.
  destruct u as [from_user message_text | from_user command command_args
                | from_user data | from_user latitude longitude];
    cbn [handler_of] in Hh.
  - injection Hh as <-. rewrite text_message_handler_file. exact Hw.
  - repeat match type of Hh with
           | (if ?b then _ else _) = _ => destruct b
           end;
      try discriminate; injection Hh as <-;
      (rewrite keeps_apply with (x := favorites_file w);
       [exact Hw | auto with keeps | reflexivity]).
  - repeat match type of Hh with
           | (if ?b then _ else _) = _ => destruct b
           end;
      try discriminate; injection Hh as <-.
    + rewrite (keeps_show_movie_details tmdb favorites_file stable_favorites_file).
      exact Hw.
    + apply save_favorite_movie_file_ok, Hw.
    + rewrite handle_menu_button_file. exact Hw.
    + rewrite (keeps_handle_genre_button tmdb favorites_file stable_favorites_file).
      exact Hw.
  - injection Hh as <-.
    rewrite (keeps_bioskop_terdekat favorites_file stable_favorites_file).
    exact Hw.
Qed.

Lemma process_update_file_ok (tmdb : catalog) (u : update) (b : bot) :
  file_ok (storage b) -> file_ok (storage (process_update tmdb u b)).
Proof.
  intros Hb. unfold process_update.
  destruct (handler_of tmdb u) as [h|] eqn:Hh; [|exact Hb].
  cbn [storage]. apply (handler_of_file_ok tmdb u h); [exact Hh | exact Hb].
Qed.

Lemma process_updates_file_ok (tmdb : catalog) (us : list update) (b : bot) :
  file_ok (storage b) -> file_ok (storage (process_updates tmdb us b)).
Proof.
  revert b. induction us as [|u us IH]; intros b Hb; [exact Hb|].
  apply IH, process_update_file_ok, Hb.
Qed.

Lemma match_digits_save (data : string) :
  match_digits "save_" data = true -> match_digits "detail_" data = false.
Proof.
  destruct data as [|c data]; [discriminate|]. cbn [match_digits].
  destruct (Ascii.eqb_spec "s" c) as [<- | Hne]; [reflexivity | discriminate].
Qed.

Lemma handler_of_save (tmdb : catalog) (from_user : Z) (data : string) :
  match_digits "save_" data = true ->
  handler_of tmdb (CallbackQuery from_user data)
    = Some (save_favorite_movie tmdb from_user data).
Proof.
  intros H. cbn [handler_of]. rewrite (match_digits_save data H), H. reflexivity.
Qed.

(** C3: in any state the bot reaches from a favorites file without
    duplicates, saving a title twice, the second time in any casing (two
    titles are the same when [lower] makes them equal, beyond ASCII too),
    leaves exactly one stored entry of it for the user; the second attempt
    edits the message under the button to
    "sudah ada di daftar favorit Anda", writes nothing and leaves the file as
    the first attempt left it. *)
Theorem save_favorite_twice
  (tmdb : catalog) (f : file) (us : list update) (from_user : Z)
  (data1 data2 id1 id2 : string) (m1 m2 : details) :
  file_ok f ->
  match_digits "save_" data1 = true ->
  str.split_on "_" data1 !! 1%nat = Some id1 ->
  movie_details tmdb id1 = Some m1 ->
  match_digits "save_" data2 = true ->
  str.split_on "_" data2 !! 1%nat = Some id2 ->
  movie_details tmdb id2 = Some m2 ->
  let title1 := default "Unknown" (details_title m1) in
  let title2 := default "Unknown" (details_title m2) in
  str.lower title1 = str.lower title2 ->
  let b := process_updates tmdb us (initial_bot f) in
  let b1 := process_update tmdb (CallbackQuery from_user data1) b in
  let b2 := process_update tmdb (CallbackQuery from_user data2) b1 in
  let already :=
    [ Enter h_save_favorite_movie []; answer;
      requests_get ("movie/" +:+ id2) [];
      edit_message_text
        ("❌ '" +:+ title2 +:+ "' sudah ada di daftar favorit Anda.")
        (Some create_error_keyboard) ] in
  exists stored,
    storage b1 = Stored stored /\
    length (copies title1 (default [] (stored !! pretty from_user))) = 1%nat /\
    history b2 = history b1 ++ already /\
    writes already = [] /\
    storage b2 = Stored stored.
Proof.
  intros Hf Hd1 Hid1 Hm1 Hd2 Hid2 Hm2 title1 title2 Hlow b b1 b2 already.
  assert (Hb : file_ok (storage b)).
  { apply process_updates_file_ok. exact Hf. }
  set (w := fresh (session b from_user) [] (storage b)).
  assert (Hload : exists favorites,
             fst (load_favorites w) = Return favorites /\
             (length (copies title1 (default [] (favorites !! pretty from_user)))
              <= 1)%nat).
  { unfold load_favorites. step. unfold w. cbn [fresh favorites_file].
    destruct (storage b) as [| |raw|favorites]; try done.
    - exists ∅. split; [reflexivity|]. rewrite lookup_empty. cbn. lia.
    - exists favorites. split; [reflexivity|].
      destruct (favorites !! pretty from_user) as [l|] eqn:E;
        cbn [default from_option id]; [|cbn; lia].
      apply no_duplicates_copies, (Hb _ _ E). }
  destruct Hload as (favorites & Hload & Hone).
  destruct (save_favorite_movie_stores tmdb from_user data1 id1 m1 w favorites
              Hid1 Hm1 Hload Hone) as (stored & Hst & Hin & Hcount).
  fold title1 in Hin, Hcount. rewrite Hlow in Hin.
  exists stored.
  assert (Hb1 : storage b1 = Stored stored).
  { unfold b1. rewrite (session_process_update tmdb _ _ b
                         (handler_of_save tmdb from_user data1 Hd1)).
    cbv zeta. cbn [storage sender initial_args]. exact Hst. }
  assert (Hb2 : b2 =
    {| sessions := <[from_user := session b1 from_user]> (sessions b1);
       storage := storage b1;
       history := history b1 ++ already |}).
  { unfold b2. rewrite (session_process_update tmdb _ _ b1
                         (handler_of_save tmdb from_user data2 Hd2)).
    cbv zeta. cbn [sender initial_args].
    rewrite (save_favorite_movie_again tmdb from_user data2 id2 m2
               (fresh (session b1 from_user) [] (storage b1)) stored
               Hid2 Hm2 Hb1 Hin).
    reflexivity. }
  split; [exact Hb1|]. split; [exact Hcount|].
  rewrite Hb2. cbn [history storage]. repeat split. exact Hb1.
Qed.
(** ** Lowered text *)

Lemma lowered_ascii_lower (s : string) : lowered (str.ascii_lower s) = true.
Proof.
  induction s as [|c s IH]; [reflexivity|].
  cbn [str.ascii_lower str.lowered]. rewrite isupper_lower_char, IH. reflexivity.
Qed.

Lemma lowered_append (a b : string) :
  lowered (a +:+ b) = lowered a && lowered b.
Proof.
  induction a as [|c a IH]; [reflexivity|].
  change (String c a +:+ b) with (String c (a +:+ b)).
  cbn [str.lowered]. rewrite IH. apply andb_assoc.
Qed.

Lemma lowered_lstrip_marked (marks : list bool) (s : string) :
  lowered s = true -> lowered (str.lstrip_marked marks s) = true.
Proof.
  revert marks. induction s as [|c s IH]; intros [|[] marks]; try done.
  cbn [str.lstrip_marked str.lowered]. intros [_ H]%andb_true_iff. auto.
Qed.

Lemma lowered_rstrip_marked (marks : list bool) (s : string) :
  lowered s = true -> lowered (str.rstrip_marked marks s) = true.
Proof.
  revert marks. induction s as [|c s IH]; intros [|b marks]; try done.
  cbn [str.lowered str.rstrip_marked]. intros [Hc Hs]%andb_true_iff.
  destruct (forallb id (b :: marks)); [done|].
  cbn [str.lowered]. rewrite Hc. by apply IH.
Qed.

Lemma lowered_strip (s : string) :
  lowered s = true -> lowered (str.strip s) = true.
Proof. intros H. apply lowered_rstrip_marked, lowered_lstrip_marked, H. Qed.

Lemma lowered_replace_from (skip : nat) (old new s : string) :
  lowered new = true -> lowered s = true ->
  lowered (str.replace_from skip old new s) = true.
Proof.
  intros Hnew. revert skip. induction s as [|c s IH]; intros skip; [done|].
  cbn [str.lowered]. intros [Hc Hs]%andb_true_iff.
  cbn [str.replace_from]. destruct skip as [|k]; [|by apply IH].
  destruct (String.prefix old (String c s)).
  - rewrite lowered_append, Hnew. by apply IH.
  - cbn [str.lowered]. rewrite Hc. by apply IH.
Qed.

Lemma lowered_replace (old new s : string) :
  lowered new = true -> lowered s = true ->
  lowered (str.replace old new s) = true.
Proof. apply lowered_replace_from. Qed.

Lemma lowered_split_marked (word : string) (marks : list bool) (s : string) :
  lowered word = true -> lowered s = true ->
  Forall (fun w => lowered w = true) (str.split_marked word marks s).
Proof.
  revert word marks. induction s as [|c s IH]; intros word marks Hw.
  - intros _. destruct marks; cbn [str.split_marked];
      destruct word; repeat constructor; done.
  - cbn [str.lowered]. intros [Hc Hs]%andb_true_iff.
    destruct marks as [|b marks]; cbn [str.split_marked].
    { destruct word; repeat constructor; done. }
    destruct b.
    + destruct word; [by apply IH|]. constructor; [done | by apply IH].
    + apply IH; [|done]. rewrite lowered_append, Hw. cbn [str.lowered].
      by rewrite Hc.
Qed.

Lemma lowered_split (s : string) :
  lowered s = true -> Forall (fun w => lowered w = true) (str.split s).
Proof. apply lowered_split_marked. reflexivity. Qed.

(** The words of a stripped, lowered text are lowered. *)
Lemma lowered_words (s : string) :
  lowered s = true ->
  Forall (fun w => lowered w = true) (str.split (str.strip s)).
Proof. intros H. apply lowered_split, lowered_strip, H. Qed.

Lemma lowered_lower (s : string) : lowered (str.lower s) = true.
Proof.
  unfold str.lower. destruct (str.isascii s).
  - apply lowered_ascii_lower.
  - apply str.unicode_lower_lowered.
Qed.

(** On ASCII text the case is computed here; beyond ASCII it is the
    interpreter's, as the parameter gives it. *)
Lemma lower_ascii (s : string) :
  str.isascii s = true -> str.lower s = str.ascii_lower s.
Proof. unfold str.lower. intros ->. reflexivity. Qed.

Lemma lower_beyond_ascii (s : string) :
  str.isascii s = false -> str.lower s = str.unicode_lower s.
Proof. unfold str.lower. intros ->. reflexivity. Qed.

(** ** The casing of what the handlers receive *)

Section Casing.

Variable tmdb : catalog.

(** The branch that the text handler takes next. *)
Ltac head_case :=
  match goal with
  | |- context [snd ((if ?c then _ else _) _)] => destruct c
  | |- context [snd ((match ?x with Some _ => _ | None => _ end) _)] =>
      destruct x
  end.

Lemma text_message_handler_entered
  (from_user : Z) (message_text : string) (w : world)
  (h : handler) (a : list string) :
  (h, a) ∈ entered (trace (snd (text_message_handler tmdb from_user message_text w))) ->
  (h, a) ∈ entered (trace w) \/
  (takes_text h = false /\ a = args w) \/
  (a ∈ passed_on (str.lower message_text)).
Proof.
  unfold text_message_handler, create_main_menu. step. cbv zeta.
  repeat (head_case; step).
  all: rewrite ?(enters_search_movie tmdb), ?(enters_search_actor tmdb),
    ?(enters_add_favorite tmdb), ?(enters_recommend_movie_by_genre tmdb),
    ?(enters_trending_movies tmdb), ?enters_view_favorites,
    ?enters_minta_lokasi_bioskop, ?enters_help_command, ?enters_start.
  all: cbn [trace args]; rewrite ?entered_app; generalize (entered (trace w));
    intros old; unfold entered; cbn [omap list_omap].
  all: rewrite ?elem_of_app, ?elem_of_cons, ?elem_of_nil.
  all: intros H;
    repeat match goal with
      | H : _ \/ _ |- _ => destruct H as [H | H]
      end;
    try done; try (by left).
  all: injection H as -> ->.
  all: first [ by right; left
             | right; right; unfold passed_on;
               repeat first [ apply list_elem_of_here | apply list_elem_of_further ] ].
Qed.

(** C8: a handler that takes its arguments from the text of a message, and
    is entered from the text handler, receives words computed from the
    lowered text, the text as [lower] gives it (beyond ASCII, by the
    mapping of the interpreter): the words of the lowered text for a pending
    state, or the words left of the lowered text without the phrase of the
    intent; no word it receives holds a letter A to Z. *)
Theorem handlers_receive_lowered_text
  (from_user : Z) (message_text : string) (w : world)
  (h : handler) (a : list string) :
  (h, a) ∈ entered (trace (snd (text_message_handler tmdb from_user message_text
                                  (with_trace w [])))) ->
  takes_text h = true ->
  a ∈ passed_on (str.lower message_text) /\
  Forall (fun word => lowered word = true) a.
Proof.
  intros Hin Hh.
  apply text_message_handler_entered in Hin as [Hin | [[Hn _] | Hin]].
  - inversion Hin.
  - congruence.
  - split; [exact Hin|].
    pose proof (lowered_lower message_text) as Hl.
    unfold passed_on in Hin.
    repeat (apply elem_of_cons in Hin as [-> | Hin]);
      [ | | | | | inversion Hin];
      apply lowered_words;
      repeat (apply lowered_replace; [reflexivity|]); exact Hl.
Qed.

End Casing.

(** A text beyond ASCII is lowered by the mapping of the interpreter,
    whatever it is: the handler receives the words of that lowering. *)
Example answer_beyond_ascii (tmdb : catalog) (from_user : Z) (w : world) :
  pending (user_data w) = Some "search" ->
  text_message_handler tmdb from_user "AMÉLIE" w =
    search_movie tmdb
      {| user_data := delete "state" (user_data w);
         args := str.split (str.strip (str.unicode_lower "AMÉLIE"));
         favorites_file := favorites_file w;
         trace := trace w ++ [Enter h_text_message_handler (args w)] |}.
Proof.
  intros Hp.
  rewrite (text_message_handler_pending tmdb from_user "AMÉLIE" "search" w Hp);
    [reflexivity | left; reflexivity | reflexivity].
Qed.

(** * Further properties *)

(** ** The genre table *)

Section DictFacts.

Context {V : Type}.

Lemma dict_get_None (k : string) (d : list (string * V)) :
  dict.get k d = None <-> k ∉ dict.keys d.
Proof.
  unfold dict.keys. induction d as [|[k' v] d IH]; cbn [dict.get map fst].
  - split; [intros _ H; inversion H | done].
  - rewrite not_elem_of_cons. destruct (String.eqb_spec k k') as [-> | Hne].
    + split; [discriminate | intros [H _]; done].
    + rewrite IH. tauto.
Qed.

Lemma dict_keys_set (k : string) (v : V) (d : list (string * V)) :
  dict.keys (dict.set k v d)
    = if decide (k ∈ dict.keys d) then dict.keys d else dict.keys d ++ [k].
Proof.
  unfold dict.keys. induction d as [|[k' v'] d IH]; cbn [dict.set map fst].
  - rewrite decide_False by (intros H; inversion H). reflexivity.
  - destruct (String.eqb_spec k k') as [-> | Hne]; cbn [map fst].
    + rewrite decide_True by left. reflexivity.
    + rewrite IH. destruct (decide (k ∈ map fst d)) as [Hin | Hout].
      * rewrite decide_True by (right; exact Hin). reflexivity.
      * rewrite decide_False; [reflexivity|].
        intros [H | H]%elem_of_cons; done.
Qed.

Lemma dict_get_set (k k' : string) (v : V) (d : list (string * V)) :
  dict.get k' (dict.set k v d)
    = if decide (k' = k) then Some v else dict.get k' d.
Proof.
  induction d as [|[k0 v0] d IH]; cbn [dict.set dict.get].
  - destruct (String.eqb_spec k' k) as [-> | Hne].
    + rewrite decide_True by done. reflexivity.
    + rewrite decide_False by done. reflexivity.
  - destruct (String.eqb_spec k k0) as [-> | Hne]; cbn [dict.get].
    + destruct (String.eqb_spec k' k0) as [-> | Hne'].
      * rewrite decide_True by done. reflexivity.
      * rewrite decide_False by done. reflexivity.
    + destruct (String.eqb_spec k' k0) as [-> | Hne'].
      * rewrite decide_False by done. reflexivity.
      * exact IH.
Qed.

End DictFacts.

(** The table that the loop of [load_genres] has built after the genres
    [gs]. *)
Lemma genres_table_spec (gs : list genre) :
  let table :=
    fold_left (fun d g => dict.set (str.lower (genre_name g)) (genre_id g) d)
      gs [] in
  NoDup (dict.keys table) /\
  (forall k, k ∈ dict.keys table <->
             exists g, g ∈ gs /\ str.lower (genre_name g) = k) /\
  (forall k, dict.get k table
             = genre_id <$> last (filter (fun g => str.lower (genre_name g) = k) gs)).
Proof.
  induction gs as [|g gs IH] using rev_ind; cbv zeta.
  - cbn. split; [constructor|]. split; [|done].
    intros k. split; [intros H; inversion H | intros (g & H & _); inversion H].
  - rewrite fold_left_app. cbn [fold_left].
    set (table := fold_left _ gs []) in *.
    destruct IH as (Hnd & Hkeys & Hget).
    rewrite dict_keys_set. split; [|split].
    + destruct (decide _) as [Hin | Hout]; [exact Hnd|].
      apply NoDup_app. split; [exact Hnd|]. split; [|apply NoDup_singleton].
      intros x Hx ->%list_elem_of_singleton. exact (Hout Hx).
    + intros k. setoid_rewrite elem_of_app. setoid_rewrite list_elem_of_singleton.
      destruct (decide _) as [Hin | Hout].
      * rewrite Hkeys. split.
        -- intros (g' & Hg' & Hk). eauto.
        -- intros (g' & [Hg' | ->] & Hk); [eauto|].
           subst k. apply Hkeys, Hin.
      * rewrite elem_of_app, list_elem_of_singleton, Hkeys. split.
        -- intros [(g' & Hg' & Hk) | ->]; eauto.
        -- intros (g' & [Hg' | ->] & Hk); [left; eauto | right; done].
    + intros k. rewrite dict_get_set, filter_app, filter_cons, filter_nil.
      destruct (decide (k = str.lower (genre_name g))) as [-> | Hne].
      * rewrite decide_True by done. rewrite last_snoc. reflexivity.
      * rewrite decide_False by done. rewrite app_nil_r. apply Hget.
Qed.

(** X1: the genre table holds each lowered genre name of the catalog once,
    and a name gives the id of the last catalog genre that bears it, up to
    case. *)
Theorem load_genres_table (tmdb : catalog) :
  NoDup (dict.keys (GENRES tmdb)) /\
  Forall (fun k => lowered k = true) (dict.keys (GENRES tmdb)) /\
  (forall k, k ∈ dict.keys (GENRES tmdb) <->
             exists g, g ∈ genre_movie_list tmdb /\ str.lower (genre_name g) = k) /\
  (forall k, dict.get k (GENRES tmdb)
             = genre_id <$> last (filter (fun g => str.lower (genre_name g) = k)
                                    (genre_movie_list tmdb))).
Proof.
  destruct (genres_table_spec (genre_movie_list tmdb)) as (Hnd & Hkeys & Hget).
  split; [exact Hnd|]. split; [|split; [exact Hkeys | exact Hget]].
  apply Forall_forall. intros k Hk. apply Hkeys in Hk as (g & _ & <-).
  apply lowered_lower.
Qed.

(** ** Menu buttons *)

Lemma prefix_inv (p s : string) :
  String.prefix p s = true -> exists r, s = p +:+ r.
Proof.
  revert s. induction p as [|c p IH]; intros s H.
  - exists s. reflexivity.
  - destruct s as [|c' s]; [discriminate|]. cbn [String.prefix] in H.
    destruct (ascii_dec c c') as [<- | _]; [|discriminate].
    destruct (IH s H) as (r & ->). exists r. reflexivity.
Qed.

Lemma split_on_from_cons (sep : ascii) (word s : string) :
  exists x l, str.split_on_from sep word s = x :: l.
Proof.
  revert word. induction s as [|c s IH]; intros word; cbn [str.split_on_from].
  - eauto.
  - destruct (Ascii.eqb c sep); [eauto | apply IH].
Qed.

(** Callback data that begins with "menu_" has an action. *)
Lemma menu_action (data : string) :
  String.prefix "menu_" data = true ->
  exists action, str.split_on "_" data !! 1%nat = Some action.
Proof.
  intros (r & ->)%prefix_inv. unfold str.split_on.
  change ("menu_" +:+ r) with
    (String "m" (String "e" (String "n" (String "u" (String "_" r))))).
  cbn [str.split_on_from Ascii.eqb Bool.eqb].
  destruct (split_on_from_cons "_" EmptyString r) as (x & l & ->).
  exists x. reflexivity.
Qed.

(** The branch that a computation applied to a world takes next. *)
Ltac next_branch :=
  match goal with
  | |- context [(if ?c then _ else _) _] => destruct c
  | |- context [(match ?x with [] => _ | _ :: _ => _ end) _] => destruct x
  | |- context [(match ?x with Some _ => _ | None => _ end) _] => destruct x
  | |- context [(match ?x with
                 | Absent => _ | Denied => _ | Corrupt _ => _ | Stored _ => _
                 end) _] => destruct x eqn:?
  end.

(** X2: a menu button never raises, whatever the action, the catalog and
    the favorites file: the handler returns, has sent at least one message,
    and has left the favorites file as it was. *)
Theorem handle_menu_button_never_raises
  (tmdb : catalog) (from_user : Z) (data : string) (w : world) :
  String.prefix "menu_" data = true ->
  exists w' new,
    handle_menu_button tmdb from_user data w = (Return tt, w') /\
    trace w' = trace w ++ new /\
    replies new <> [] /\
    writes new = [] /\
    favorites_file w' = favorites_file w.
Proof.
  intros (action & Ha)%menu_action.
  unfold handle_menu_button, help_command, get_trending, load_favorites,
    create_main_menu.
  step. rewrite Ha. step.
  repeat (next_branch; step).
  all: eexists; eexists; split; [reflexivity|]; cbn [trace favorites_file].
  all: split; [rewrite <- !app_assoc; reflexivity|].
  all: split; [discriminate|]. 
  all: split; reflexivity.
Qed.

(** X3: when the favorites file cannot be loaded, the menu button "List
    Favorit" catches the error and answers with the general error message,
    while the command [/favorites] lets the error escape without an answer. *)
Theorem favorites_unreadable_button_and_command
  (tmdb : catalog) (from_user : Z) (w : world) (e : exn) :
  fst (load_favorites w) = Raise e ->
  handle_menu_button tmdb from_user "menu_favorites" w =
    (Return tt,
     with_trace w
       (trace w ++
          [ Enter h_handle_menu_button (args w); answer;
            reply_text "❌ Terjadi kesalahan. Silakan coba lagi."
              (Some create_error_keyboard) ])) /\
  view_favorites from_user w =
    (Raise e, with_trace w (trace w ++ [Enter h_view_favorites (args w)])).
Proof.
  intros Hload. unfold handle_menu_button, view_favorites, load_favorites in *.
  revert Hload. step.
  change (str.split_on "_" "menu_favorites" !! 1%nat) with (Some "favorites").
  step. cbn [String.eqb Ascii.eqb Bool.eqb]. step.
  destruct (favorites_file w) eqn:E; cbn; intros [= <-] || intros [=];
    unfold with_trace; rewrite <- ?app_assoc, ?E; split; reflexivity.
Qed.

(** ** What the updates leave alone *)

Section WritesNothing.

Lemma writes_nothing_ret {A} (a : A) : writes_nothing (mret a : M A).
Proof. intros w. exists []. by rewrite app_nil_r. Qed.

Lemma writes_nothing_raise {A} (e : exn) : writes_nothing (raise e : M A).
Proof. intros w. exists []. by rewrite app_nil_r. Qed.

Lemma writes_nothing_bind {A B} (c : M A) (f : A -> M B) :
  writes_nothing c -> (forall a, writes_nothing (f a)) ->
  writes_nothing (c ≫= f).
Proof.
  intros Hc Hf w. rewrite run_bind. destruct (Hc w) as (new & Ht & Hw).
  destruct (c w) as [[a|e] w']; cbn [snd] in *.
  - destruct (Hf a w') as (new' & Ht' & Hw'). exists (new ++ new').
    rewrite Ht', Ht, app_assoc, writes_app, Hw, Hw'. done.
  - eauto.
Qed.

Lemma writes_nothing_try {A} (c : M A) (h : exn -> M A) :
  writes_nothing c -> (forall e, writes_nothing (h e)) ->
  writes_nothing (try_except c h).
Proof.
  intros Hc Hh w. unfold try_except. destruct (Hc w) as (new & Ht & Hw).
  destruct (c w) as [[a|e] w']; cbn [snd] in *.
  - eauto.
  - destruct (Hh e w') as (new' & Ht' & Hw'). exists (new ++ new').
    rewrite Ht', Ht, app_assoc, writes_app, Hw, Hw'. done.
Qed.

Lemma writes_nothing_silent {A} (c : M A) :
  keeps trace c -> writes_nothing c.
Proof. intros Hc w. exists []. by rewrite Hc, app_nil_r. Qed.

Lemma writes_nothing_emit (e : event) :
  writes [e] = [] -> writes_nothing (emit e).
Proof. intros He w. exists [e]. done. Qed.

End WritesNothing.

Ltac writes_nothing_step :=
  match goal with
  | |- writes_nothing (mret _) => apply writes_nothing_ret
  | |- writes_nothing (raise _) => apply writes_nothing_raise
  | |- writes_nothing (emit _) => apply writes_nothing_emit; reflexivity
  | |- writes_nothing (_ ≫= _) => apply writes_nothing_bind; [|intros ?]
  | |- writes_nothing (try_except _ _) => apply writes_nothing_try; [|intros ?]
  | |- writes_nothing (if ?b then _ else _) => destruct b
  | |- writes_nothing (match ?x with _ => _ end) => destruct x
  | |- writes_nothing (let _ := _ in _) => cbv zeta
  | |- writes_nothing _ =>
      solve [ auto with writes_nothing
            | apply writes_nothing_silent; intros ?; reflexivity ]
  end.

Create HintDb writes_nothing.

Ltac writes_nothing :=
  unfold reply, edit, enter, index, set_state, load_favorites,
    search_movie_by_title, get_movie_details, get_movie_trailer, get_movie_cast,
    get_movies_by_genre, get_trending, search_person, create_main_menu;
  repeat writes_nothing_step.

Section Quiet.

Variable tmdb : catalog.

Lemma writes_nothing_start : writes_nothing start.
Proof. unfold start. writes_nothing. Qed.

Lemma writes_nothing_help_command : writes_nothing help_command.
Proof. unfold help_command. writes_nothing. Qed.

Lemma writes_nothing_search_movie : writes_nothing (search_movie tmdb).
Proof. unfold search_movie. writes_nothing. Qed.

Lemma writes_nothing_show_movie_details data :
  writes_nothing (show_movie_details tmdb data).
Proof. unfold show_movie_details. writes_nothing. Qed.

Lemma writes_nothing_search_actor : writes_nothing (search_actor tmdb).
Proof. unfold search_actor, create_known_for_keyboard. writes_nothing. Qed.

Lemma writes_nothing_recommend_movie_by_genre :
  writes_nothing (recommend_movie_by_genre tmdb).
Proof. unfold recommend_movie_by_genre. writes_nothing. Qed.

Lemma writes_nothing_trending_movies : writes_nothing (trending_movies tmdb).
Proof. unfold trending_movies. writes_nothing. Qed.

Lemma writes_nothing_add_favorite : writes_nothing (add_favorite tmdb).
Proof. unfold add_favorite. writes_nothing. Qed.

Lemma writes_nothing_view_favorites from_user :
  writes_nothing (view_favorites from_user).
Proof. unfold view_favorites. writes_nothing. Qed.

Lemma writes_nothing_minta_lokasi_bioskop : writes_nothing minta_lokasi_bioskop.
Proof. unfold minta_lokasi_bioskop. writes_nothing. Qed.

Lemma writes_nothing_bioskop_terdekat location :
  writes_nothing (bioskop_terdekat location).
Proof. unfold bioskop_terdekat. writes_nothing. Qed.

Lemma writes_nothing_handle_genre_button data :
  writes_nothing (handle_genre_button tmdb data).
Proof. unfold handle_genre_button. writes_nothing. Qed.

#[local] Hint Resolve writes_nothing_start writes_nothing_help_command
  writes_nothing_search_movie writes_nothing_search_actor
  writes_nothing_recommend_movie_by_genre writes_nothing_trending_movies
  writes_nothing_add_favorite writes_nothing_view_favorites
  writes_nothing_minta_lokasi_bioskop : writes_nothing.

Lemma writes_nothing_handle_menu_button from_user data :
  writes_nothing (handle_menu_button tmdb from_user data).
Proof. unfold handle_menu_button. writes_nothing. Qed.

Lemma writes_nothing_text_message_handler from_user message_text :
  writes_nothing (text_message_handler tmdb from_user message_text).
Proof. unfold text_message_handler. writes_nothing. Qed.

End Quiet.

Lemma handler_of_quiet (tmdb : catalog) (u : update) (h : M unit) :
  handler_of tmdb u = Some h -> is_save u = false ->
  keeps favorites_file h /\ writes_nothing h.
Proof.
  intros Hh Hs.
  destruct u as [from_user message_text | from_user command command_args
                | from_user data | from_user latitude longitude];
    cbn [handler_of is_save] in Hh, Hs.
  - injection Hh as <-. split.
    + apply text_message_handler_file.
    + apply writes_nothing_text_message_handler.
  - repeat match type of Hh with
           | (if ?b then _ else _) = _ => destruct b
           end;
      try discriminate; injection Hh as <-;
      (split; [auto with keeps|]);
      first [ apply writes_nothing_start | apply writes_nothing_help_command
            | apply writes_nothing_search_movie
            | apply writes_nothing_recommend_movie_by_genre
            | apply writes_nothing_search_actor
            | apply writes_nothing_trending_movies
            | apply writes_nothing_add_favorite
            | apply writes_nothing_view_favorites
            | apply writes_nothing_minta_lokasi_bioskop ].
  - rewrite Hs in Hh.
    repeat match type of Hh with
           | (if ?b then _ else _) = _ => destruct b
           end;
      try discriminate; injection Hh as <-.
    + split; [apply keeps_show_movie_details, stable_favorites_file
             | apply writes_nothing_show_movie_details].
    + split; [apply handle_menu_button_file
             | apply writes_nothing_handle_menu_button].
    + split; [apply keeps_handle_genre_button, stable_favorites_file
             | apply writes_nothing_handle_genre_button].
  - injection Hh as <-.
    split; [apply keeps_bioskop_terdekat, stable_favorites_file
           | apply writes_nothing_bioskop_terdekat].
Qed.

(** X4: only the "save_" buttons write the favorites file: every other
    update, handled or not, leaves the file as it was and adds no write to
    the history. *)
Theorem only_save_buttons_write (tmdb : catalog) (u : update) (b : bot) :
  is_save u = false ->
  storage (process_update tmdb u b) = storage b /\
  exists new,
    history (process_update tmdb u b) = history b ++ new /\ writes new = [].
Proof.
  intros Hs. unfold process_update.
  destruct (handler_of tmdb u) as [h|] eqn:Hh.
  - destruct (handler_of_quiet tmdb u h Hh Hs) as [Hf Hw]. cbn [storage history].
    split; [apply Hf|].
    destruct (Hw (fresh (session b (sender u)) (initial_args u) (storage b)))
      as (new & Ht & Hn).
    exists new. unfold session, fresh in Ht. rewrite Ht. done.
  - split; [reflexivity|]. exists []. by rewrite app_nil_r.
Qed.

Lemma handler_of_keeps_session (tmdb : catalog) (u : update) (h : M unit) :
  handler_of tmdb u = Some h -> is_text_or_menu u = false ->
  keeps user_data h.
Proof.
  intros Hh Hs.
  destruct u as [from_user message_text | from_user command command_args
                | from_user data | from_user latitude longitude];
    cbn [handler_of is_text_or_menu] in Hh, Hs.
  - discriminate.
  - repeat match type of Hh with
           | (if ?b then _ else _) = _ => destruct b
           end;
      try discriminate; injection Hh as <-; auto with keeps.
  - rewrite Hs in Hh.
    repeat match type of Hh with
           | (if ?b then _ else _) = _ => destruct b
           end;
      try discriminate; injection Hh as <-.
    + apply keeps_show_movie_details, stable_user_data.
    + apply save_favorite_movie_session.
    + apply keeps_handle_genre_button, stable_user_data.
  - injection Hh as <-. apply keeps_bioskop_terdekat, stable_user_data.
Qed.

(** X5: the session of a user changes only through a text message or a
    menu button of that user: any other update leaves every session as it
    was, and no update changes the session of a user other than its sender. *)
Theorem sessions_change_by_text_or_menu
  (tmdb : catalog) (u : update) (b : bot) (from_user : Z) :
  is_text_or_menu u = false \/ from_user <> sender u ->
  session (process_update tmdb u b) from_user = session b from_user.
Proof.
  intros H. unfold process_update.
  destruct (handler_of tmdb u) as [h|] eqn:Hh; [|reflexivity].
  unfold session. cbn [sessions].
  destruct (decide (sender u = from_user)) as [<- | Hne].
  - destruct H as [H | H]; [|done].
    rewrite lookup_insert_eq. cbn [default from_option id].
    apply (handler_of_keeps_session tmdb u h Hh H).
  - rewrite lookup_insert_ne by exact Hne. reflexivity.
Qed.

(** ** More on the favorites *)

Lemma append_assoc (a b c : string) : (a +:+ b) +:+ c = a +:+ (b +:+ c).
Proof.
  induction a as [|x a IH]; [reflexivity|].
  change (String x a +:+ b) with (String x (a +:+ b)).
  change (String x (a +:+ b) +:+ c) with (String x ((a +:+ b) +:+ c)).
  rewrite IH. reflexivity.
Qed.

Lemma append_nil_r (a : string) : a +:+ EmptyString = a.
Proof.
  induction a as [|x a IH]; [reflexivity|].
  change (String x a +:+ EmptyString) with (String x (a +:+ EmptyString)).
  rewrite IH. reflexivity.
Qed.

(** The message that the loop of [view_favorites] builds is the header, the
    lines joined by newlines, and a last newline. *)
Lemma view_favorites_loop (header : string) (favs : list string) :
  favs <> [] ->
  fold_left (fun message movie => message +:+ "- " +:+ movie +:+ nl) favs
    (header +:+ nl)
  = header +:+ nl +:+ str.join nl (map favorite_line favs) +:+ nl.
Proof.
  assert (H : forall init,
             fold_left (fun message movie => message +:+ "- " +:+ movie +:+ nl)
               favs init
             = init +:+ fold_right (fun movie rest => "- " +:+ movie +:+ nl +:+ rest)
                          EmptyString favs).
  { induction favs as [|fav favs IH]; intros init; cbn [fold_left fold_right].
    - symmetry. apply append_nil_r.
    - rewrite IH, !append_assoc. reflexivity. }
  intros Hne. rewrite H, append_assoc. do 2 f_equal. clear H header.
  unfold str.join, favorite_line.
  induction favs as [|fav favs IH]; [done|].
  destruct favs as [|fav' favs]; cbn [map String.concat fold_right] in *.
  - rewrite !append_assoc, append_nil_r. reflexivity.
  - rewrite IH by done. rewrite !append_assoc. reflexivity.
Qed.

(** [view_favorites] on a stored list that is not empty. *)
Lemma view_favorites_run
  (from_user : Z) (w : world) (favorites : gmap string (list string))
  (favs : list string) :
  favorites_file w = Stored favorites ->
  favorites !! pretty from_user = Some favs ->
  favs <> [] ->
  view_favorites from_user w =
    (Return tt,
     with_trace w
       (trace w ++
          [ Enter h_view_favorites (args w);
            reply_text
              ("⭐ Daftar film favorit Anda:" +:+ nl
                 +:+ str.join nl (map favorite_line favs) +:+ nl)
              (Some create_error_keyboard) ])).
Proof.
  intros Hf Hfav Hne.
  unfold view_favorites, load_favorites. step. rewrite Hf. step.
  rewrite Hfav. destruct favs as [|fav favs]; [done|]. step.
  rewrite view_favorites_loop by discriminate.
  unfold with_trace. rewrite <- !app_assoc, Hf. reflexivity.
Qed.

(** X6: both ways to view a list of favorites that is not empty show the
    stored titles in their order, one line "- title" each; the command ends
    the text with a newline and has a header of its own. *)
Theorem favorites_listed_in_order
  (tmdb : catalog) (from_user : Z) (w : world)
  (favorites : gmap string (list string)) (fav : string) (favs : list string) :
  fst (load_favorites w) = Return favorites ->
  favorites !! pretty from_user = Some (fav :: favs) ->
  let body := str.join nl (map favorite_line (fav :: favs)) in
  view_favorites from_user w =
    (Return tt,
     with_trace w
       (trace w ++
          [ Enter h_view_favorites (args w);
            reply_text ("⭐ Daftar film favorit Anda:" +:+ nl +:+ body +:+ nl)
              (Some create_error_keyboard) ])) /\
  handle_menu_button tmdb from_user "menu_favorites" w =
    (Return tt,
     with_trace w
       (trace w ++
          [ Enter h_handle_menu_button (args w); answer;
            reply_text ("⭐ Daftar favorit Anda:" +:+ nl +:+ body)
              (Some create_error_keyboard) ])).
Proof.
  intros Hload Hfav body.
  destruct (load_favorites_run w favorites Hload) as [_ Hfile].
  assert (Hf : favorites_file w = Stored favorites).
  { destruct Hfile as [Hf | [_ ->]]; [exact Hf|].
    rewrite lookup_empty in Hfav. discriminate. }
  split.
  - apply (view_favorites_run from_user w favorites (fav :: favs) Hf Hfav).
    discriminate.
  - unfold handle_menu_button, load_favorites. step.
    change (str.split_on "_" "menu_favorites" !! 1%nat) with (Some "favorites").
    step. cbn [String.eqb Ascii.eqb Bool.eqb]. step. rewrite Hf. step.
    rewrite Hfav. step.
    unfold with_trace. rewrite <- !app_assoc, Hf. reflexivity.
Qed.

Section SaveMore.

Variable tmdb : catalog.

(** X7: saving a title that the user's list does not hold, in any casing,
    puts it at the end of that list and leaves the lists of the other users
    as they were; the whole mapping is written once, and then the message
    under the button is edited to "telah ditambahkan ke daftar favorit
    Anda"; no new message is sent. *)
Theorem save_favorite_appends
  (from_user : Z) (data movie_id : string) (movie : details) (w : world)
  (favorites : gmap string (list string)) :
  str.split_on "_" data !! 1%nat = Some movie_id ->
  movie_details tmdb movie_id = Some movie ->
  fst (load_favorites w) = Return favorites ->
  let movie_title := default "Unknown" (details_title movie) in
  let user_id := pretty from_user in
  let favs := default [] (favorites !! user_id) in
  str.lower movie_title ∉ map str.lower favs ->
  exists stored w',
    save_favorite_movie tmdb from_user data w = (Return tt, w') /\
    favorites_file w' = Stored stored /\
    stored !! user_id = Some (favs ++ [movie_title]) /\
    (forall other, other <> user_id -> stored !! other = favorites !! other) /\
    writes (trace w') = writes (trace w) ++ [stored] /\
    trace w' =
      trace w ++
        [ Enter h_save_favorite_movie (args w); answer;
          requests_get ("movie/" +:+ movie_id) [];
          json_dump stored;
          edit_message_text
            ("✅ '" +:+ movie_title +:+ "' telah ditambahkan ke daftar favorit Anda.")
            (Some create_error_keyboard) ].
Proof.
  intros Hid Hm Hload movie_title user_id favs Hout.
  pose proof (save_favorite_movie_run tmdb from_user data movie_id movie w
                favorites Hid Hm Hload) as Hrun.
  cbv zeta in Hrun. fold movie_title user_id favs in Hrun.
  rewrite bool_decide_eq_false_2 in Hrun by exact Hout.
  eexists. eexists. split; [exact Hrun|]. cbn [favorites_file trace].
  split; [reflexivity|]. split; [apply lookup_insert_eq|]. split.
  - intros other Hne. apply lookup_insert_ne. congruence.
  - split.
    + rewrite writes_app. reflexivity.
    + reflexivity.
Qed.

(** X8: a "save_" button for a movie of which the catalog has no details
    changes the message under it to "No movie details found" and stops
    there: the favorites file is not even opened, so the handler returns
    whatever the state of the file. *)
Theorem save_favorite_unknown_movie
  (from_user : Z) (data movie_id : string) (w : world) :
  str.split_on "_" data !! 1%nat = Some movie_id ->
  movie_details tmdb movie_id = None ->
  save_favorite_movie tmdb from_user data w =
    (Return tt,
     with_trace w
       (trace w ++
          [ Enter h_save_favorite_movie (args w); answer;
            requests_get ("movie/" +:+ movie_id) [];
            edit_message_text "❌ No movie details found."
              (Some create_error_keyboard) ])).
Proof.
  intros Hid Hm. unfold save_favorite_movie, get_movie_details. step.
  rewrite Hid. step. rewrite Hm. step.
  unfold with_trace. rewrite <- !app_assoc. reflexivity.
Qed.

(** X9: after a "save_" button for a movie that the catalog knows, on a
    favorites file that loads, the command [/favorites] of the same user
    lists a title equal to the movie's up to case, that is, once both are
    lowered. *)
Theorem saved_title_is_listed
  (from_user : Z) (data movie_id : string) (movie : details) (w : world)
  (favorites : gmap string (list string)) :
  str.split_on "_" data !! 1%nat = Some movie_id ->
  movie_details tmdb movie_id = Some movie ->
  fst (load_favorites w) = Return favorites ->
  let movie_title := default "Unknown" (details_title movie) in
  let w1 := snd (save_favorite_movie tmdb from_user data w) in
  exists shown favs,
    shown ∈ favs /\
    str.lower shown = str.lower movie_title /\
    view_favorites from_user w1 =
      (Return tt,
       with_trace w1
         (trace w1 ++
            [ Enter h_view_favorites (args w);
              reply_text
                ("⭐ Daftar film favorit Anda:" +:+ nl
                   +:+ str.join nl (map favorite_line favs) +:+ nl)
                (Some create_error_keyboard) ])).
Proof.
  intros Hid Hm Hload movie_title w1.
  pose proof (save_favorite_movie_run tmdb from_user data movie_id movie w
                favorites Hid Hm Hload) as Hrun.
  cbv zeta in Hrun. fold movie_title in Hrun.
  destruct (load_favorites_run w favorites Hload) as [_ Hfile].
  set (favs := default [] (favorites !! pretty from_user)) in *.
  destruct (decide (str.lower movie_title ∈ map str.lower favs)) as [Hin | Hout].
  - rewrite bool_decide_eq_true_2 in Hrun by exact Hin.
    apply list_elem_of_fmap in Hin as (shown & Heq & Hin).
    assert (Hfavs : favorites !! pretty from_user = Some favs).
    { unfold favs in *. destruct (favorites !! pretty from_user); [done|].
      inversion Hin. }
    assert (Hf : favorites_file w = Stored favorites).
    { destruct Hfile as [Hf | [_ ->]]; [exact Hf|].
      rewrite lookup_empty in Hfavs. discriminate. }
    exists shown, favs. split; [exact Hin|]. split; [done|].
    assert (Ha : args w1 = args w) by (unfold w1; rewrite Hrun; reflexivity).
    rewrite <- Ha.
    apply (view_favorites_run from_user w1 favorites favs).
    + unfold w1. rewrite Hrun. exact Hf.
    + exact Hfavs.
    + intros ->. inversion Hin.
  - rewrite bool_decide_eq_false_2 in Hrun by exact Hout.
    exists movie_title, (favs ++ [movie_title]).
    split; [apply elem_of_app; right; left|]. split; [reflexivity|].
    assert (Ha : args w1 = args w) by (unfold w1; rewrite Hrun; reflexivity).
    rewrite <- Ha.
    apply (view_favorites_run from_user w1
             (<[pretty from_user := favs ++ [movie_title]]> favorites)).
    + unfold w1. rewrite Hrun. reflexivity.
    + apply lookup_insert_eq.
    + intros H. apply app_eq_nil in H as [_ H]. discriminate.
Qed.

End SaveMore.

(** ** Action tokens: from the button to the handler *)

Lemma isdigit_pretty_N_char (x : N) : isdigit (pretty_N_char x) = true.
Proof. unfold pretty_N_char. repeat case_match; reflexivity. Qed.

Lemma is_number_pretty_N_go (x : N) (s : string) :
  is_number s = true -> is_number (pretty_N_go x s) = true.
Proof.
  revert s. induction (N.lt_wf_0 x) as [x _ IH]; intros s Hs.
  destruct (decide (x = 0%N)) as [-> | Hx].
  - rewrite pretty_N_go_0. exact Hs.
  - rewrite pretty_N_go_step by lia. apply IH.
    + apply N.div_lt; lia.
    + unfold is_number in *. cbn [str.truthy all_digits andb].
      rewrite isdigit_pretty_N_char. cbn [andb].
      apply andb_true_iff in Hs as [_ Hs]. exact Hs.
Qed.

(** A natural number is printed as digits. *)
Lemma is_number_pretty (z : Z) : (0 <= z)%Z -> is_number (pretty z) = true.
Proof.
  intros Hz. destruct z as [|p|p]; [reflexivity | | lia].
  unfold pretty, pretty_Z, pretty, pretty_positive, pretty, pretty_N.
  rewrite decide_False by lia.
  rewrite pretty_N_go_step by lia.
  apply is_number_pretty_N_go. unfold is_number.
  cbn [str.truthy all_digits andb]. rewrite isdigit_pretty_N_char. reflexivity.
Qed.

Lemma all_digits_without (s : string) :
  all_digits s = true -> without "_" s = true.
Proof.
  induction s as [|c s IH]; [reflexivity|].
  cbn [all_digits without]. intros [Hc Hs]%andb_true_iff.
  rewrite IH by exact Hs. rewrite andb_true_r.
  destruct (Ascii.eqb_spec c "_") as [-> | _]; [discriminate | reflexivity].
Qed.

Lemma match_digits_append (p s : string) :
  is_number s = true -> match_digits p (p +:+ s) = true.
Proof.
  intros Hs. induction p as [|c p IH].
  - destruct s as [|c s]; [discriminate|]. unfold is_number in Hs.
    cbn [str.truthy all_digits andb] in Hs.
    apply andb_true_iff in Hs as [Hc _]. exact Hc.
  - change (String c p +:+ s) with (String c (p +:+ s)).
    cbn [match_digits]. rewrite Ascii.eqb_refl. exact IH.
Qed.

Lemma split_on_from_without (sep : ascii) (word s : string) :
  without sep s = true -> str.split_on_from sep word s = [word +:+ s].
Proof.
  revert word. induction s as [|c s IH]; intros word; cbn [without str.split_on_from].
  - intros _. by rewrite append_nil_r.
  - intros [Hc Hs]%andb_true_iff. apply negb_true_iff in Hc. rewrite Hc.
    rewrite IH by exact Hs. rewrite append_assoc. reflexivity.
Qed.

Lemma split_on_from_sep (sep : ascii) (word a b : string) :
  without sep a = true ->
  str.split_on_from sep word (a +:+ String sep b)
    = (word +:+ a) :: str.split_on_from sep EmptyString b.
Proof.
  revert word. induction a as [|c a IH]; intros word.
  - intros _. change (EmptyString +:+ String sep b) with (String sep b).
    cbn [str.split_on_from]. rewrite Ascii.eqb_refl, append_nil_r. reflexivity.
  - cbn [without]. intros [Hc Ha]%andb_true_iff. apply negb_true_iff in Hc.
    change (String c a +:+ String sep b) with (String c (a +:+ String sep b)).
    cbn [str.split_on_from]. rewrite Hc, IH by exact Ha.
    rewrite append_assoc. reflexivity.
Qed.

(** The token [prefix_target] is read back as [target], when neither part
    holds the delimiter. *)
Lemma token_target (prefix target : string) :
  without "_" prefix = true -> without "_" target = true ->
  str.split_on "_" (prefix +:+ "_" +:+ target) !! 1%nat = Some target.
Proof.
  intros Hp Ht. unfold str.split_on.
  change ("_" +:+ target) with (String "_" target).
  rewrite split_on_from_sep by exact Hp.
  rewrite split_on_from_without by exact Ht. reflexivity.
Qed.

Section Tokens.

Variable tmdb : catalog.

Lemma show_movie_details_request (data movie_id : string) (w : world) :
  str.split_on "_" data !! 1%nat = Some movie_id ->
  head (requests (trace (snd (show_movie_details tmdb data (with_trace w [])))))
    = Some ("movie/" +:+ movie_id, []).
Proof.
  intros Hid. unfold show_movie_details, get_movie_details, get_movie_trailer,
    get_movie_cast.
  step. rewrite Hid. step.
  repeat (next_branch; step); reflexivity.
Qed.

Lemma save_favorite_movie_request
  (from_user : Z) (data movie_id : string) (w : world) :
  str.split_on "_" data !! 1%nat = Some movie_id ->
  head (requests (trace (snd (save_favorite_movie tmdb from_user data
                                (with_trace w [])))))
    = Some ("movie/" +:+ movie_id, []).
Proof.
  intros Hid. unfold save_favorite_movie, get_movie_details, load_favorites,
    save_favorites.
  step. rewrite Hid. step.
  repeat (next_branch; step); reflexivity.
Qed.

(** X10: the buttons that the bot makes for a movie lead back to that
    movie: the token of the "detail" button is handled by
    [show_movie_details], the token of the "save" button by
    [save_favorite_movie], and each handler first asks the catalog for the
    movie of that very identifier.  The identifier must not be negative. *)
Theorem movie_buttons_reach_their_movie
  (from_user : Z) (m : movie) (w : world) :
  (0 <= movie_id m)%Z ->
  exists detail save,
    movie_row "detail" m = [detail] /\
    movie_row "save" m = [save] /\
    handler_of tmdb (CallbackQuery from_user (callback_data detail))
      = Some (show_movie_details tmdb (callback_data detail)) /\
    handler_of tmdb (CallbackQuery from_user (callback_data save))
      = Some (save_favorite_movie tmdb from_user (callback_data save)) /\
    head (requests (trace (snd (show_movie_details tmdb (callback_data detail)
                                  (with_trace w [])))))
      = Some ("movie/" +:+ pretty (movie_id m), []) /\
    head (requests (trace (snd (save_favorite_movie tmdb from_user
                                  (callback_data save) (with_trace w [])))))
      = Some ("movie/" +:+ pretty (movie_id m), []).
Proof.
  intros Hid. pose proof (is_number_pretty (movie_id m) Hid) as Hn.
  assert (Hw : without "_" (pretty (movie_id m)) = true).
  { apply all_digits_without. unfold is_number in Hn.
    apply andb_true_iff in Hn as [_ Hn]. exact Hn. }
  eexists. eexists. split; [reflexivity|]. split; [reflexivity|].
  cbn [callback_data].
  assert (Hd : match_digits "detail_" ("detail" +:+ "_" +:+ pretty (movie_id m)) = true).
  { apply (match_digits_append "detail_" (pretty (movie_id m)) Hn). }
  assert (Hs : match_digits "save_" ("save" +:+ "_" +:+ pretty (movie_id m)) = true).
  { apply (match_digits_append "save_" (pretty (movie_id m)) Hn). }
  split; [cbn [handler_of]; rewrite Hd; reflexivity|].
  split; [apply handler_of_save, Hs|].
  split.
  - apply show_movie_details_request, token_target; [reflexivity | exact Hw].
  - apply save_favorite_movie_request, token_target; [reflexivity | exact Hw].
Qed.

End Tokens.

(** ** Genre buttons and genre names *)

Section GenreButtons.

Variable tmdb : catalog.

Lemma handle_genre_button_known (data genre_name : string) (genre_id : Z) (w : world) :
  str.split_on "_" data !! 1%nat = Some genre_name ->
  dict.get genre_name (GENRES tmdb) = Some genre_id ->
  genre_id <> 0%Z ->
  head (requests (trace (snd (handle_genre_button tmdb data (with_trace w [])))))
    = Some ("discover/movie", [("with_genres", pretty genre_id); ("page", "1")]).
Proof.
  intros Hname Hget Hid. unfold handle_genre_button, get_movies_by_genre.
  step. rewrite Hname. step. rewrite Hget.
  rewrite (proj2 (Z.eqb_neq genre_id 0) Hid). step.
  destruct (discover_movie_results tmdb genre_id); reflexivity.
Qed.

(** X11: a button of the genre submenu leads back to its genre: its token
    is handled by [handle_genre_button], which finds the genre in the table
    and, unless its id is 0, asks the catalog for the movies of that id.  The
    genre name must not hold the delimiter "_". *)
Theorem genre_buttons_reach_their_genre (from_user : Z) (g : string) (w : world) :
  g ∈ dict.keys (GENRES tmdb) ->
  without "_" g = true ->
  let data := callback_data (genre_button g) in
  handler_of tmdb (CallbackQuery from_user data)
    = Some (handle_genre_button tmdb data) /\
  exists genre_id,
    dict.get g (GENRES tmdb) = Some genre_id /\
    (genre_id <> 0%Z ->
     head (requests (trace (snd (handle_genre_button tmdb data (with_trace w [])))))
       = Some ("discover/movie",
               [("with_genres", pretty genre_id); ("page", "1")])).
Proof.
  intros Hin Hw data. split.
  { unfold data, genre_button. cbn [callback_data handler_of].
    change ("genre_" +:+ g) with
      (String "g" (String "e" (String "n" (String "r" (String "e" (String "_" g)))))).
    destruct g; reflexivity. }
  destruct (dict.get g (GENRES tmdb)) as [genre_id|] eqn:Hget.
  - exists genre_id. split; [reflexivity|]. intros Hid.
    apply (handle_genre_button_known data g genre_id w); [|exact Hget | exact Hid].
    apply (token_target "genre" g); [reflexivity | exact Hw].
  - apply dict_get_None in Hget. done.
Qed.

(** X12: a genre name that the table does not hold, or holds with the id 0,
    is answered "Genre '...' not found" by the command, which names the
    lowered genre, and by the button alike, without a request to the
    catalog. *)
Theorem genre_not_found (data genre_name : string) (w : world) :
  str.truthy genre_name = true ->
  default 0%Z (dict.get genre_name (GENRES tmdb)) = 0%Z ->
  let not_found :=
    reply_text ("❌ Genre '" +:+ genre_name +:+ "' not found.")
      (Some create_error_keyboard) in
  (str.lower (str.join " " (args w)) = genre_name ->
   recommend_movie_by_genre tmdb w =
     (Return tt,
      with_trace w
        (trace w ++ [Enter h_recommend_movie_by_genre (args w); not_found]))) /\
  (str.split_on "_" data !! 1%nat = Some genre_name ->
   handle_genre_button tmdb data w =
     (Return tt,
      with_trace w
        (trace w ++ [Enter h_handle_genre_button (args w); answer; not_found]))).
Proof.
  intros Hname Hget not_found. split.
  - intros Hargs. unfold recommend_movie_by_genre, get_movies_by_genre. step.
    rewrite Hargs, Hname. cbn [negb].
    destruct (dict.get genre_name (GENRES tmdb)) as [genre_id|];
      cbn [default from_option id] in Hget; [subst genre_id; cbn [Z.eqb]|];
      step; unfold with_trace; rewrite <- !app_assoc; reflexivity.
  - intros Hdata. unfold handle_genre_button, get_movies_by_genre. step.
    rewrite Hdata. step.
    destruct (dict.get genre_name (GENRES tmdb)) as [genre_id|];
      cbn [default from_option id] in Hget; [subst genre_id; cbn [Z.eqb]|];
      step; unfold with_trace; rewrite <- !app_assoc; reflexivity.
Qed.

End GenreButtons.

(** ** More on the router *)

Section RouterMore.

Variable tmdb : catalog.

(** X13: a menu token whose action is none of the ten that the handler
    knows is answered "Perintah tidak dikenali", with the Menu keyboard;
    the handler returns and changes neither the session nor the file. *)
Theorem unknown_menu_action (from_user : Z) (data action : string) (w : world) :
  str.split_on "_" data !! 1%nat = Some action ->
  action ∉ menu_actions ->
  handle_menu_button tmdb from_user data w =
    (Return tt,
     with_trace w
       (trace w ++
          [ Enter h_handle_menu_button (args w); answer;
            reply_text "❌ Perintah tidak dikenali." (Some create_error_keyboard) ])).
Proof.
  intros Ha Hout. unfold handle_menu_button. step. rewrite Ha. step.
  unfold menu_actions in Hout.
  repeat match goal with
    | |- context [String.eqb action ?s] =>
        rewrite (proj2 (String.eqb_neq action s))
          by (intros ->; apply Hout;
              repeat first [apply list_elem_of_here | apply list_elem_of_further])
    end.
  step. unfold with_trace. rewrite <- !app_assoc. reflexivity.
Qed.

(** X14: in each of the three awaiting states, a text that is not blank
    (that holds a character other than whitespace, ASCII or not)
    goes to the handler of that state, with the words of the lowered text,
    whatever intent its words would show to an Idle user; no other handler
    is entered and the session ends Idle. *)
Theorem pending_state_takes_the_text
  (b : bot) (from_user : Z) (message_text state : string) :
  pending (session b from_user) = Some state ->
  expectation state ->
  isblank message_text = false ->
  let b' := process_update tmdb (Message from_user message_text) b in
  entered (history b')
    = entered (history b) ++
        [ (h_text_message_handler, []);
          (state_handler state, str.split (str.strip (str.lower message_text))) ] /\
  pending (session b' from_user) = None.
Proof.
  intros Hp Hs Hb b'. unfold b'.
  rewrite (session_process_update tmdb (Message from_user message_text)
             (text_message_handler tmdb from_user message_text) b eq_refl).
  cbv zeta. cbn [sender initial_args history]. split.
  - rewrite entered_app. f_equal.
    unfold pending in Hp. unfold text_message_handler. step. 
    unfold fresh. cbn [user_data]. rewrite Hp. step.
    rewrite strip_nonblank by (rewrite isblank_lower; exact Hb).
    destruct Hs as [-> | [-> | ->]];
      cbn [String.eqb Ascii.eqb Bool.eqb state_handler]; step;
      rewrite ?(enters_search_movie tmdb), ?(enters_search_actor tmdb),
        ?(enters_add_favorite tmdb); reflexivity.
  - rewrite session_insert, text_message_handler_session.
    apply lookup_delete_eq.
Qed.

End RouterMore.

(** ** Every text gets an answer *)




(** X16: whatever updates come, a favorites file that loads and holds no
    title twice, up to case (no two titles that [lower] makes equal), stays
    so; in particular one that is absent or empty at the start. *)
Theorem favorites_stay_without_duplicates
  (tmdb : catalog) (f : file) (us : list update) :
  file_ok f ->
  let b := process_updates tmdb us (initial_bot f) in
  storage b = Absent \/
  exists stored,
    storage b = Stored stored /\
    forall user_id favs,
      stored !! user_id = Some favs -> NoDup (map str.lower favs).
Proof.
  intros Hf b.
  pose proof (process_updates_file_ok tmdb us (initial_bot f) Hf) as Hfile.
  fold b in Hfile. destruct (storage b) as [| |raw|stored]; try done.
  - left. reflexivity.
  - right. exists stored. split; [reflexivity | exact Hfile].
Qed.

(** ** The words of an answer *)

(** X17: for a user with a pending state, only the words of the lowered
    text matter: two texts whose lowered forms have the same words, whatever
    the whitespace between and around them, have the same effect. *)
Theorem pending_answer_by_its_words
  (tmdb : catalog) (from_user : Z) (text1 text2 state : string) (w : world) :
  pending (user_data w) = Some state ->
  str.split (str.lower text1) = str.split (str.lower text2) ->
  text_message_handler tmdb from_user text1 w
    = text_message_handler tmdb from_user text2 w.
Proof.
  unfold pending. intros Hp Hwords.
  assert (Hsplit : str.split (str.strip (str.lower text1))
                   = str.split (str.strip (str.lower text2))).
  { rewrite !split_strip. exact Hwords. }
  assert (Htruthy : str.truthy (str.strip (str.lower text1))
                    = str.truthy (str.strip (str.lower text2))).
  { rewrite !truthy_strip. f_equal. apply eq_true_iff_eq.
    rewrite !isblank_split, Hwords. reflexivity. }
  unfold text_message_handler. step. rewrite Hp. step.
  rewrite Hsplit, Htruthy. reflexivity.
Qed.

(** ** The requests behind the details of a movie *)

(** X18: the "detail" button asks the catalog for the movie and, only if the
    catalog has it, for its videos and then its credits; either way the
    handler returns after one edit of the message under the button, and
    sends no new message. *)
Theorem show_movie_details_requests
  (tmdb : catalog) (data movie_id : string) (w : world) :
  str.split_on "_" data !! 1%nat = Some movie_id ->
  let new := trace (snd (show_movie_details tmdb data (with_trace w []))) in
  fst (show_movie_details tmdb data (with_trace w [])) = Return tt /\
  requests new =
    match movie_details tmdb movie_id with
    | Some _ =>
        [ ("movie/" +:+ movie_id, []);
          ("movie/" +:+ movie_id +:+ "/videos", []);
          ("movie/" +:+ movie_id +:+ "/credits", []) ]
    | None => [ ("movie/" +:+ movie_id, []) ]
    end /\
  length (edits new) = 1%nat /\
  sent new = [] /\
  writes new = [].
Proof.
  intros Hid new. unfold new, show_movie_details, get_movie_details,
    get_movie_trailer, get_movie_cast.
  step. rewrite Hid. step.
  destruct (movie_details tmdb movie_id); step; repeat split.
Qed.

(** ** The prompts *)

(** X19: each of the menu buttons "search", "actor" and "favorite" sends
    its prompt, without a keyboard, and sets its own expectation in place of
    the one that was pending, if any: the last prompt wins; the favorites
    file is left alone. *)
Theorem prompt_button_sets_its_state
  (tmdb : catalog) (b : bot) (from_user : Z) (state : string) :
  expectation state ->
  let b' := process_update tmdb (CallbackQuery from_user ("menu_" +:+ state)) b in
  pending (session b' from_user) = Some state /\
  session b' from_user = <["state" := state]> (session b from_user) /\
  history b' =
    history b ++
      [ Enter h_handle_menu_button []; answer;
        reply_text (prompt_message state) None ] /\
  storage b' = storage b.
Proof.
  intros Hs b'.
  assert (Hb' : b' =
    {| sessions := <[from_user := <["state" := state]> (session b from_user)]>
                     (sessions b);
       storage := storage b;
       history := history b ++
         [ Enter h_handle_menu_button []; answer;
           reply_text (prompt_message state) None ] |}).
  { unfold b'. destruct Hs as [-> | [-> | ->]].
    - change ("menu_" +:+ "search") with "menu_search".
      rewrite (session_process_update tmdb (CallbackQuery from_user "menu_search")
                 (handle_menu_button tmdb from_user "menu_search") b eq_refl).
      cbv zeta. cbn [sender initial_args]. unfold handle_menu_button. step.
      rewrite <- !app_assoc. reflexivity.
    - change ("menu_" +:+ "actor") with "menu_actor".
      rewrite (session_process_update tmdb (CallbackQuery from_user "menu_actor")
                 (handle_menu_button tmdb from_user "menu_actor") b eq_refl).
      cbv zeta. cbn [sender initial_args]. unfold handle_menu_button. step.
      rewrite <- !app_assoc. reflexivity.
    - change ("menu_" +:+ "favorite") with "menu_favorite".
      rewrite (session_process_update tmdb (CallbackQuery from_user "menu_favorite")
                 (handle_menu_button tmdb from_user "menu_favorite") b eq_refl).
      cbv zeta. cbn [sender initial_args]. unfold handle_menu_button. step.
      rewrite <- !app_assoc. reflexivity. }
  rewrite Hb'. rewrite session_insert. cbn [history storage].
  split; [apply lookup_insert_eq|]. repeat split.
Qed.
End Python.

(** The assumptions on the case mappings can be met: lowering byte by byte,
    which is [str.lower] on a text whose characters beyond ASCII have no
    case. *)
Lemma caseless : str.Unicode.
Proof.
  exact {| str.unicode_lower := str.ascii_lower;
           str.unicode_capitalize := str.ascii_capitalize;
           str.unicode_lower_lowered := lowered_ascii_lower;
           str.unicode_lower_blank := isblank_ascii_lower |}.
Defined.

#[local] Existing Instance caseless.

(** * Runs

    The examples and the instances of the theorems, with the case
    mappings of [caseless] and the catalog [sample_catalog]. *)

Example lower_ex : str.lower "Cari Film  AVENGERS" = "cari film  avengers".
Proof. reflexivity. Qed.

Example strip_ex : str.strip "  the  matrix " = "the  matrix".
Proof. reflexivity. Qed.

Example split_ex : str.split "  the  matrix " = ["the"; "matrix"].
Proof. reflexivity. Qed.

Example split_on_ex : str.split_on "_" "menu_search" = ["menu"; "search"].
Proof. reflexivity. Qed.

Example replace_ex :
  str.replace "cari film" "" "tolong cari film dune cari film" = "tolong  dune ".
Proof. reflexivity. Qed.

Example contains_ex :
  str.contains "genre" "film genre action" = true /\
  str.contains "favorites" "favorit" = false.
Proof. split; reflexivity. Qed.

Example capitalize_ex : str.capitalize "science Fiction" = "Science fiction".
Proof. reflexivity. Qed.

Example create_movie_keyboard_of_eight (m : movie) :
  match create_movie_keyboard (replicate 8 m) "detail" with
  | InlineKeyboardMarkup rows =>
      length rows = 6%nat /\ last rows = Some [menu_button]
  | _ => False
  end.
Proof. split; reflexivity. Qed.

Example load_favorites_corrupt_raises (raw : string) :
  load_favorites (fresh ∅ [] (Corrupt raw))
    = (Raise JSONDecodeError, fresh ∅ [] (Corrupt raw)).
Proof. reflexivity. Qed.

Lemma load_favorites_missing_file_witness :
  load_favorites (fresh ∅ [] Absent) = (Return ∅, fresh ∅ [] Absent).
Proof. apply (load_favorites_missing_file (fresh ∅ [] Absent) 42). reflexivity. Defined.

Lemma search_movie_no_result_witness :
  let w := fresh ∅ ["dune"; "ii"] (Stored ∅) in
  favorites_file (snd (search_movie sample_catalog w)) = favorites_file w.
Proof.
  intros w.
  apply (search_movie_no_result sample_catalog w); reflexivity.
Defined.

Lemma view_favorites_empty_or_absent_witness :
  let w := fresh ∅ [] (Stored {[ "42" := [] ]}) in
  view_favorites 42 w
    = (Return tt,
       with_trace w
         [ Enter h_view_favorites [];
           reply_text "❌ Anda belum memiliki film favorit."
             (Some create_error_keyboard) ]).
Proof.
  intros w.
  apply (view_favorites_empty_or_absent sample_catalog 42 w {[ "42" := [] ]});
    [reflexivity | right; reflexivity].
Defined.

Lemma pending_expectation_one_shot_witness :
  let b1 := process_update sample_catalog (CallbackQuery 42 "menu_search")
              (initial_bot (Stored ∅)) in
  let b2 := process_update sample_catalog (Message 42 " Inception ") b1 in
  pending (session b1 42) = Some "search" /\
  entered (history b2) =
    [ (h_handle_menu_button, []); (h_text_message_handler, []);
      (h_search_movie, ["inception"]) ] /\
  pending (session b2 42) = None.
Proof.
  destruct (pending_expectation_one_shot sample_catalog (Stored ∅) []
              (initial_bot (Stored ∅)) 42 " Inception ") as (_ & _ & _ & H).
  destruct (H eq_refl) as (H1 & _ & _ & H2 & H3).
  cbv zeta. split; [exact H1|]. split; [|exact H3].
  rewrite H2. reflexivity.
Defined.

Lemma blank_answer_resets_witness :
  let b := {| sessions := {[ 42%Z := {[ "state" := "actor" ]} ]};
              storage := Stored ∅; history := [] |} in
  let b' := process_update sample_catalog (Message 42 "   ") b in
  history b' =
    [ Enter h_text_message_handler [];
      reply_text "❌ Nama aktor tidak boleh kosong." (Some create_error_keyboard) ] /\
  pending (session b' 42) = None.
Proof.
  intros b b'.
  destruct (blank_answer_resets sample_catalog b 42 "   " "actor")
    as (H1 & _ & H2 & _);
    [reflexivity | right; left; reflexivity | reflexivity |].
  split; [exact H1 | exact H2].
Defined.

Lemma genre_without_argument_prompts_witness :
  let b := initial_bot (Stored ∅) in
  history (process_update sample_catalog (Message 7 "genre") b)
    = [ Enter h_text_message_handler [];
        reply_text (genres_prompt sample_catalog) (Some create_error_keyboard) ] /\
  entered (history (process_update sample_catalog (Message 7 "genre action") b))
    = [ (h_text_message_handler, []); (h_recommend_movie_by_genre, ["action"]) ].
Proof.
  intros b.
  destruct (genre_without_argument_prompts sample_catalog b 7 eq_refl)
    as (H1 & _ & _ & _ & H2).
  split; [exact H1 | exact H2].
Defined.

Example genres_keyboard_of_twelve :
  length (dict.keys (GENRES sample_catalog)) = 12%nat /\
  match genres_keyboard sample_catalog with
  | InlineKeyboardMarkup rows =>
      map (map callback_data) rows =
        [ ["genre_action"; "genre_adventure"]; ["genre_animation"; "genre_comedy"];
          ["genre_crime"; "genre_documentary"]; ["genre_drama"; "genre_family"];
          ["genre_fantasy"; "genre_history"]; ["menu_main"] ]
  | _ => False
  end.
Proof. split; reflexivity. Qed.

Lemma save_favorite_twice_witness :
  let b := initial_bot Absent in
  let b1 := process_update sample_catalog (CallbackQuery 42 "save_27205") b in
  let b2 := process_update sample_catalog (CallbackQuery 42 "save_1") b1 in
  storage b1 = Stored {[ "42" := ["Inception"] ]} /\
  storage b2 = Stored {[ "42" := ["Inception"] ]} /\
  writes (history b2) = [ {[ "42" := ["Inception"] ]} ].
Proof.
  intros b b1 b2.
  destruct (save_favorite_twice sample_catalog Absent [] 42
              "save_27205" "save_1" "27205" "1"
              {| details_title := Some "Inception";
                 details_overview := Some "A thief who steals secrets.";
                 details_vote_average := Some "8.4";
                 details_release_date := Some "2010-07-15" |}
              {| details_title := Some "INCEPTION";
                 details_overview := None;
                 details_vote_average := None;
                 details_release_date := None |}
              I eq_refl eq_refl eq_refl eq_refl eq_refl eq_refl eq_refl)
    as (stored & H1 & _ & H2 & _ & H3).
  change (process_updates sample_catalog [] (initial_bot Absent)) with b
    in H1, H2, H3.
  fold b1 in H1, H2, H3. fold b2 in H2, H3.
  assert (Hs : Stored stored = Stored {[ "42" := ["Inception"] ]})
    by (rewrite <- H1; reflexivity).
  injection Hs as ->.
  split; [exact H1|]. split; [exact H3|].
  rewrite H2. reflexivity.
Defined.

Lemma handlers_receive_lowered_text_witness :
  let w := fresh {[ "state" := "search" ]} [] (Stored ∅) in
  entered (trace (snd (text_message_handler sample_catalog 42 "The MATRIX" w)))
    = [ (h_text_message_handler, []); (h_search_movie, ["the"; "matrix"]) ] /\
  Forall (fun word => lowered word = true) ["the"; "matrix"].
Proof.
  intros w. split; [reflexivity|].
  apply (handlers_receive_lowered_text sample_catalog 42 "The MATRIX" w
           h_search_movie ["the"; "matrix"]).
  - vm_compute. apply list_elem_of_further, list_elem_of_here.
  - reflexivity.
Defined.

(** ** Runs of the bot on the sample catalog *)

Example run_menu_search :
  history (process_updates sample_catalog
             [CallbackQuery 42 "menu_search"; Message 42 "Inception"]
             (initial_bot (Stored ∅)))
  = [ Enter h_handle_menu_button []; answer;
      reply_text "🔍 Ketik judul film yang ingin dicari:" None;
      Enter h_text_message_handler [];
      Enter h_search_movie ["inception"];
      requests_get "search/movie" [("query", "inception")];
      reply_text "🎬 Movies found:"
        (Some (InlineKeyboardMarkup
                 [ [ {| text := "Inception (2010)";
                        callback_data := "detail_27205" |} ];
                   [ menu_button ] ])) ].
Proof. vm_compute. reflexivity. Qed.

(** A pending state takes the next text, whatever it says. *)
Example run_pending_takes_any_text :
  entered (history (process_updates sample_catalog
                      [CallbackQuery 42 "menu_actor"; Message 42 "Help"]
                      (initial_bot (Stored ∅))))
  = [ (h_handle_menu_button, []); (h_text_message_handler, []);
      (h_search_actor, ["help"]) ].
Proof. vm_compute. reflexivity. Qed.

Example run_free_text_search :
  entered (history (process_update sample_catalog
                      (Message 42 "Tolong Cari Film  INCEPTION")
                      (initial_bot (Stored ∅))))
  = [ (h_text_message_handler, []); (h_search_movie, ["tolong"; "inception"]) ].
Proof. vm_compute. reflexivity. Qed.

(** The command keeps the casing of its arguments. *)
Example run_search_command :
  history (process_update sample_catalog (Command 42 "search" ["Inception"])
             (initial_bot (Stored ∅)))
  = [ Enter h_search_movie ["Inception"];
      requests_get "search/movie" [("query", "Inception")];
      reply_text "❌ No movies found for 'Inception'." (Some create_error_keyboard) ].
Proof. vm_compute. reflexivity. Qed.

Example run_favorites :
  let b := process_updates sample_catalog
             [ CallbackQuery 42 "save_27205"; CallbackQuery 42 "save_1";
               CallbackQuery 7 "save_1"; Command 42 "favorites" [] ]
             (initial_bot Absent) in
  storage b = Stored {[ "42" := ["Inception"]; "7" := ["INCEPTION"] ]} /\
  last (history b)
    = Some (reply_text ("⭐ Daftar film favorit Anda:" +:+ nl +:+ "- Inception" +:+ nl)
              (Some create_error_keyboard)).
Proof. split; vm_compute; reflexivity. Qed.

(** A favorites file that may not be opened: the menu button answers with
    the general error, the command raises. *)
Example run_denied :
  last (history (process_update sample_catalog (CallbackQuery 42 "menu_favorites")
                   (initial_bot Denied)))
    = Some (reply_text "❌ Terjadi kesalahan. Silakan coba lagi."
              (Some create_error_keyboard)) /\
  fst (view_favorites 42 (fresh ∅ [] Denied)) = Raise PermissionError.
Proof. split; vm_compute; reflexivity. Qed.

Lemma load_genres_table_witness :
  NoDup (dict.keys (GENRES sample_catalog)) /\
  dict.get "action" (GENRES sample_catalog) = Some 28%Z.
Proof.
  destruct (load_genres_table sample_catalog) as (H1 & _ & _ & H4).
  split; [exact H1 | rewrite H4; reflexivity].
Defined.

Lemma handle_menu_button_never_raises_witness :
  exists w' new,
    handle_menu_button sample_catalog 42 "menu_favorites" (fresh ∅ [] Denied)
      = (Return tt, w') /\
    trace w' = trace (fresh ∅ [] Denied) ++ new /\
    replies new <> [] /\
    writes new = [] /\
    favorites_file w' = favorites_file (fresh ∅ [] Denied).
Proof.
  apply (handle_menu_button_never_raises sample_catalog 42 "menu_favorites"
           (fresh ∅ [] Denied)).
  reflexivity.
Defined.

Lemma favorites_unreadable_button_and_command_witness :
  fst (view_favorites 42 (fresh ∅ [] (Corrupt "{")))
    = Raise JSONDecodeError.
Proof.
  destruct (favorites_unreadable_button_and_command sample_catalog 42
              (fresh ∅ [] (Corrupt "{")) JSONDecodeError eq_refl) as [_ H].
  rewrite H. reflexivity.
Defined.

Lemma only_save_buttons_write_witness :
  storage (process_update sample_catalog (Message 42 "tambah favorit inception")
             (initial_bot (Stored ∅))) = Stored ∅.
Proof.
  apply (only_save_buttons_write sample_catalog
           (Message 42 "tambah favorit inception") (initial_bot (Stored ∅))).
  reflexivity.
Defined.

Lemma sessions_change_by_text_or_menu_witness :
  let b := process_update sample_catalog (CallbackQuery 42 "menu_search")
             (initial_bot (Stored ∅)) in
  pending (session (process_update sample_catalog (Command 42 "help" []) b) 42)
    = Some "search".
Proof.
  intros b.
  rewrite (sessions_change_by_text_or_menu sample_catalog (Command 42 "help" []) b 42).
  - reflexivity.
  - left. reflexivity.
Defined.

Lemma favorites_listed_in_order_witness :
  let w := fresh ∅ [] (Stored {[ "42" := ["Inception"; "Dune"] ]}) in
  replies (trace (snd (view_favorites 42 w)))
    = [ "⭐ Daftar film favorit Anda:" +:+ nl +:+ "- Inception" +:+ nl
          +:+ "- Dune" +:+ nl ].
Proof.
  intros w.
  destruct (favorites_listed_in_order sample_catalog 42 w
              {[ "42" := ["Inception"; "Dune"] ]} "Inception" ["Dune"]
              eq_refl eq_refl) as [H _].
  rewrite H. reflexivity.
Defined.

Lemma save_favorite_appends_witness :
  favorites_file (snd (save_favorite_movie sample_catalog 42 "save_27205"
                         (fresh ∅ [] (Stored {[ "42" := ["Dune"] ]}))))
    = Stored {[ "42" := ["Dune"; "Inception"] ]}.
Proof.
  destruct (save_favorite_appends sample_catalog 42 "save_27205" "27205"
              {| details_title := Some "Inception";
                 details_overview := Some "A thief who steals secrets.";
                 details_vote_average := Some "8.4";
                 details_release_date := Some "2010-07-15" |}
              (fresh ∅ [] (Stored {[ "42" := ["Dune"] ]}))
              {[ "42" := ["Dune"] ]} eq_refl eq_refl eq_refl)
    as (stored & w' & H & _).
  - vm_compute. intros H. inversion H as [|? ? ? H']. inversion H'.
  - reflexivity.
Defined.

Lemma save_favorite_unknown_movie_witness :
  save_favorite_movie sample_catalog 42 "save_999" (fresh ∅ [] Denied) =
    (Return tt,
     with_trace (fresh ∅ [] Denied)
       [ Enter h_save_favorite_movie []; answer;
         requests_get "movie/999" [];
         edit_message_text "❌ No movie details found."
           (Some create_error_keyboard) ]).
Proof.
  apply (save_favorite_unknown_movie sample_catalog 42 "save_999" "999"
           (fresh ∅ [] Denied)); reflexivity.
Defined.

Lemma saved_title_is_listed_witness :
  exists shown favs,
    shown ∈ favs /\ str.lower shown = "inception" /\
    replies (trace (snd (view_favorites 42
               (snd (save_favorite_movie sample_catalog 42 "save_1"
                       (fresh ∅ [] (Stored {[ "42" := ["Inception"] ]})))))))
    = [ "❌ 'INCEPTION' sudah ada di daftar favorit Anda.";
        "⭐ Daftar film favorit Anda:" +:+ nl
          +:+ str.join nl (map favorite_line favs) +:+ nl ].
Proof.
  destruct (saved_title_is_listed sample_catalog 42 "save_1" "1"
              {| details_title := Some "INCEPTION";
                 details_overview := None;
                 details_vote_average := None;
                 details_release_date := None |}
              (fresh ∅ [] (Stored {[ "42" := ["Inception"] ]}))
              {[ "42" := ["Inception"] ]} eq_refl eq_refl eq_refl)
    as (shown & favs & Hin & Hlow & Hview).
  exists shown, favs. split; [exact Hin|]. split; [exact Hlow|].
  rewrite Hview. reflexivity.
Defined.

Lemma movie_buttons_reach_their_movie_witness :
  head (requests (history (process_update sample_catalog
                             (CallbackQuery 42 "detail_27205")
                             (initial_bot (Stored ∅)))))
    = Some ("movie/27205", []).
Proof.
  destruct (movie_buttons_reach_their_movie sample_catalog 42 inception
              (fresh ∅ [] (Stored ∅))) as (detail & save & Hd & _ & _ & _ & H & _).
  - vm_compute. discriminate.
  - injection Hd as <-. exact H.
Defined.

Lemma genre_buttons_reach_their_genre_witness :
  head (requests (history (process_update sample_catalog
                             (CallbackQuery 42 "genre_comedy")
                             (initial_bot (Stored ∅)))))
    = Some ("discover/movie", [("with_genres", "35"); ("page", "1")]).
Proof.
  destruct (genre_buttons_reach_their_genre sample_catalog 42 "comedy"
              (fresh ∅ [] (Stored ∅))) as (_ & genre_id & Hget & H).
  - vm_compute. do 3 apply list_elem_of_further. apply list_elem_of_here.
  - reflexivity.
  - assert (genre_id = 35%Z) as -> by (vm_compute in Hget; congruence).
    apply H. discriminate.
Defined.

Lemma genre_not_found_witness :
  replies (trace (snd (recommend_movie_by_genre sample_catalog
                         (fresh ∅ ["Film"; "Noir"] (Stored ∅)))))
    = ["❌ Genre 'film noir' not found."].
Proof.
  destruct (genre_not_found sample_catalog "genre_x" "film noir"
              (fresh ∅ ["Film"; "Noir"] (Stored ∅)) eq_refl eq_refl) as [H _].
  rewrite H by reflexivity. reflexivity.
Defined.

Lemma unknown_menu_action_witness :
  replies (history (process_update sample_catalog (CallbackQuery 42 "menu_settings")
                      (initial_bot (Stored ∅))))
    = ["❌ Perintah tidak dikenali."].
Proof.
  rewrite (session_process_update sample_catalog (CallbackQuery 42 "menu_settings")
             (handle_menu_button sample_catalog 42 "menu_settings") _ eq_refl).
  cbv zeta.
  rewrite (unknown_menu_action sample_catalog 42 "menu_settings" "settings").
  - reflexivity.
  - reflexivity.
  - apply (bool_decide_unpack _). vm_compute. exact I.
Defined.

Lemma pending_state_takes_the_text_witness :
  let b := process_update sample_catalog (CallbackQuery 42 "menu_favorite")
             (initial_bot (Stored ∅)) in
  entered (history (process_update sample_catalog (Message 42 "Genre Help") b))
    = [ (h_handle_menu_button, []); (h_text_message_handler, []);
        (h_add_favorite, ["genre"; "help"]) ].
Proof.
  intros b.
  destruct (pending_state_takes_the_text sample_catalog b 42 "Genre Help" "favorite")
    as [H _]; [reflexivity | right; right; reflexivity | reflexivity |].
  rewrite H. reflexivity.
Defined.


Lemma favorites_stay_without_duplicates_witness :
  let b := process_updates sample_catalog
             [CallbackQuery 42 "save_27205"; CallbackQuery 42 "save_1"]
             (initial_bot Absent) in
  storage b = Absent \/
  exists stored,
    storage b = Stored stored /\
    forall user_id favs,
      stored !! user_id = Some favs -> NoDup (map str.lower favs).
Proof.
  apply (favorites_stay_without_duplicates sample_catalog Absent). exact I.
Defined.

Lemma pending_answer_by_its_words_witness :
  let w := fresh {[ "state" := "search" ]} [] (Stored ∅) in
  text_message_handler sample_catalog 42 "  The   MATRIX " w
    = text_message_handler sample_catalog 42 "the matrix" w.
Proof.
  intros w.
  apply (pending_answer_by_its_words sample_catalog 42 "  The   MATRIX "
           "the matrix" "search" w); reflexivity.
Defined.

Lemma show_movie_details_requests_witness :
  requests (trace (snd (show_movie_details sample_catalog "detail_27205"
                          (with_trace (fresh ∅ [] (Stored ∅)) []))))
    = [ ("movie/27205", []); ("movie/27205/videos", []);
        ("movie/27205/credits", []) ].
Proof.
  destruct (show_movie_details_requests sample_catalog "detail_27205" "27205"
              (fresh ∅ [] (Stored ∅)) eq_refl) as (_ & H & _).
  exact H.
Defined.

Lemma prompt_button_sets_its_state_witness :
  let b := process_updates sample_catalog
             [CallbackQuery 42 "menu_search"; CallbackQuery 42 "menu_actor"]
             (initial_bot (Stored ∅)) in
  session b 42 = {[ "state" := "actor" ]}.
Proof.
  intros b.
  destruct (prompt_button_sets_its_state sample_catalog
              (process_update sample_catalog (CallbackQuery 42 "menu_search")
                 (initial_bot (Stored ∅)))
              42 "actor") as (_ & H & _); [right; left; reflexivity|].
  unfold b. cbn [process_updates fold_left].
  change ("menu_" +:+ "actor") with "menu_actor" in H. rewrite H.
  apply (bool_decide_unpack _). vm_compute. exact I.
Defined.

(** ** Text beyond ASCII, and a handler that raises *)

Example strip_beyond_ascii :
  str.strip (no_break_space +:+ " dune " +:+ ideographic_space) = "dune" /\
  str.split ("the" +:+ ideographic_space +:+ "matrix") = ["the"; "matrix"] /\
  isblank (no_break_space +:+ ideographic_space) = true /\
  isblank (no_break_space +:+ "x") = false.
Proof. repeat split. Qed.

(** An answer of whitespace beyond ASCII is a blank answer. *)
Example run_blank_beyond_ascii :
  let b := {| sessions := {[ 42%Z := {[ "state" := "search" ]} ]};
              storage := Stored ∅; history := [] |} in
  let b' := process_update sample_catalog
              (Message 42 (no_break_space +:+ ideographic_space)) b in
  history b' =
    [ Enter h_text_message_handler [];
      reply_text "❌ Judul film tidak boleh kosong." (Some create_error_keyboard) ] /\
  pending (session b' 42) = None.
Proof. split; reflexivity. Qed.

(** An actor known for a TV show: [search_actor] raises [KeyError] before it
    replies, and the pending state is gone all the same. *)
Example run_known_for_tv_show :
  let b := {| sessions := {[ 42%Z := {[ "state" := "actor" ]} ]};
              storage := Stored ∅; history := [] |} in
  let b' := process_update tv_catalog (Message 42 "Bryan Cranston") b in
  fst (text_message_handler tv_catalog 42 "Bryan Cranston"
         (fresh (session b 42) [] (storage b))) = Raise KeyError /\
  history b' =
    [ Enter h_text_message_handler [];
      Enter h_search_actor ["bryan"; "cranston"];
      requests_get "search/person" [("query", "bryan cranston")] ] /\
  replies (history b') = [] /\
  pending (session b' 42) = None.
Proof. repeat split. Qed.

(** A command is matched in lower case. *)
Example run_command_casing :
  history (process_update sample_catalog (Command 42 "START" [])
             (initial_bot (Stored ∅)))
    = [ Enter h_start []; reply_text start_message (Some main_menu_keyboard) ].
Proof. reflexivity. Qed.
